(** * netMonitor: the discovery and monitoring engine of [main.c]

    A shallow embedding of the network thread of [main.c] (host registry,
    discovery workers, sentinel insertion, sort, monitoring sweeps) and of
    the command-line validation at the top of [main].

    Conventions.
    - A C string is the text before its terminator, a Rocq [string].
    - [int] is a 32-bit two's-complement integer carried by [Z]; where
      arithmetic can leave the range ([consecutive_failures++], the
      counters and [y_offset] of the render loop) it wraps explicitly
      through [int_wrap].
    - The operating system (sockets, reverse DNS, interface enumeration,
      thread creation, the quit flag written by the render loop) is a
      record of oracles, [Platform], threaded explicitly through the code.
    - Memory the code reads without having written it (the locals of
      [compare_hosts] when [inet_pton] rejects a text, the byte behind a
      [hostname] filled to the brim) is an oracle of [Platform] as well.
    - The render loop of [main] reads the registry and decays
      [flash_timer]; its counting loop and its host rows are in [Render],
      the decay is not modelled, so [flash_timer] is tracked as the
      network thread writes it. *)

From Stdlib Require Import ZArith List Bool Lia Permutation Sorted QArith.
From Stdlib Require Import Strings.String Strings.Ascii Numbers.DecimalString.
From Stdlib Require Numbers.DecimalZ Lists.Finite.
Import ListNotations.

Local Open Scope string_scope.
Local Open Scope Z_scope.

(* ================================================================= *)
(** ** Configuration constants *)

Definition DEFAULT_SUBNET : string := "192.168.1.".
Definition INTERNET_CHECK_IP : string := "8.8.8.8".
Definition START_HOST : Z := 1.
Definition END_HOST : Z := 254.
Definition NUM_THREADS : Z := 50.
Definition PING_FAIL_THRESHOLD : Z := 3.
Definition COMMON_PORTS : list Z := [21; 22; 23; 80; 443; 445; 3389; 8080].

(* ================================================================= *)
(** ** C library functions used by the code *)

Module CLib.

(** [strlen]. *)
Definition strlen (s : string) : Z := Z.of_nat (String.length s).

(** [strncpy dst src n], read back as a string: the first [n] characters
    of [src].  When [src] has [n] characters or more, [strncpy] writes no
    terminator; every destination in [main.c] that is read back has one
    behind the copied bytes (a zero-initialised global, or an explicit
    [ip[15] = 0]), except [hostname], see [resolve_hostname]. *)
Definition strncpy (n : nat) (src : string) : string := substring 0 n src.

(** [snprintf(buf, size, "%s%d", s, i)]: the formatted text, cut to
    [size - 1] characters. *)
Definition format_s_d (s : string) (i : Z) : string :=
  s ++ NilZero.string_of_int (Z.to_int i).

Definition snprintf_s_d (size : nat) (s : string) (i : Z) : string :=
  substring 0 (Nat.pred size) (format_s_d s i).

(** The last character of a string, [s[strlen(s) - 1]]. *)
Fixpoint last_char (s : string) : option ascii :=
  match s with
  | EmptyString => None
  | String c EmptyString => Some c
  | String _ rest => last_char rest
  end.

(** Two's-complement wrap-around of a 32-bit [int]. *)
Definition int_wrap (z : Z) : Z := (z + 2 ^ 31) mod 2 ^ 32 - 2 ^ 31.

Definition INT_MAX : Z := 2 ^ 31 - 1.

Definition INT_MIN : Z := - 2 ^ 31.

End CLib.
Import CLib.

(* ================================================================= *)
(** ** Data model *)

Inductive HostStatus : Type :=
| STATUS_SCANNING
| STATUS_UP
| STATUS_UNSTABLE
| STATUS_DOWN.

Definition HostStatus_eqb (a b : HostStatus) : bool :=
  match a, b with
  | STATUS_SCANNING, STATUS_SCANNING
  | STATUS_UP, STATUS_UP
  | STATUS_UNSTABLE, STATUS_UNSTABLE
  | STATUS_DOWN, STATUS_DOWN => true
  | _, _ => false
  end.

(** [MonitoredHost]: [ip] is a [char[16]], [hostname] a [char[256]]. *)
Record MonitoredHost : Type := mkHost {
  ip : string;
  hostname : string;
  status : HostStatus;
  consecutive_failures : Z;
  flash_timer : Q
}.

(** The globals [discovered_hosts], [discovered_hosts_count] (the length of
    the list) and [discovered_hosts_capacity]. *)
Record Registry : Type := mkRegistry {
  discovered_hosts : list MonitoredHost;
  discovered_hosts_capacity : Z
}.

Definition discovered_hosts_count (r : Registry) : Z :=
  Z.of_nat (List.length (discovered_hosts r)).

Definition empty_registry : Registry :=
  {| discovered_hosts := []; discovered_hosts_capacity := 0 |}.

Definition ips (hs : list MonitoredHost) : list string := map ip hs.

(** [DiscoveryThreadArgs]. *)
Record DiscoveryThreadArgs : Type := mkArgs {
  start_host : Z;
  end_host : Z;
  subnet : string
}.

Inductive byte_order : Type := LittleEndian | BigEndian.

(** One entry of [getifaddrs]: the interface name and, for an [AF_INET]
    address that [getnameinfo(NI_NUMERICHOST)] renders, its text. *)
Record ifaddr : Type := mkIf {
  ifa_name : string;
  ifa_host : option string
}.

(** The environment of the network thread. *)
Record Platform : Type := mkPlatform {
  world : Type;
  (** [check_port(ip, port)]: one bounded TCP connect attempt. *)
  check_port : world -> string -> Z -> bool * world;
  (** The [volatile] flag [app_is_running], cleared by the render loop. *)
  app_is_running : world -> bool;
  (** [getnameinfo] on the address [inet_pton] reads from the text:
      [Some name] when it returns 0. *)
  getnameinfo : string -> option string;
  (** [getifaddrs]: [None] when it returns -1. *)
  getifaddrs : option (list ifaddr);
  (** Whether [pthread_create] succeeded for discovery thread [i]. *)
  pthread_create : Z -> bool;
  (** Byte order of the host, which decides how [in_addr.s_addr] (stored
      in network byte order) reads as an integer. *)
  host_order : byte_order;
  (** What the two uninitialised [struct in_addr] locals [addr_a] and
      [addr_b] of [compare_hosts] hold on entry to its [n]-th call;
      [inet_pton] leaves a local untouched when it rejects the text. *)
  indeterminate : nat -> Z * Z;
  (** What a reader of the [hostname] field of slot [i] finds behind its
      first 255 characters, up to the first zero byte, when [strncpy] has
      filled them all and stored no terminator: [hostname[255]] is never
      written and the array comes from [realloc]. *)
  unterminated : nat -> string
}.

(* ================================================================= *)
(** ** HostRegistry: [add_host_to_list] *)

Section Registry.
Variable P : Platform.

(** The scan [for (i...) if (strcmp(discovered_hosts[i].ip, ip) == 0)]. *)
Definition ip_known (hs : list MonitoredHost) (ip0 : string) : bool :=
  existsb (fun h => String.eqb (ip h) ip0) hs.

(** The [realloc] growth step. *)
Definition grow (r : Registry) : Z :=
  if discovered_hosts_count r >=? discovered_hosts_capacity r
  then (if discovered_hosts_capacity r =? 0 then 10
        else discovered_hosts_capacity r * 2)
  else discovered_hosts_capacity r.

(** The hostname read back from the new slot [index].  With an override,
    [strncpy(hostname, hostname_override, 255)]: an override of fewer than
    255 characters is stored with its terminator; of a longer one the
    first 255 characters are stored and no terminator, so that the text
    runs on into whatever follows.  Otherwise the reverse-DNS name, or
    ["N/A"]. *)
Definition resolve_hostname (index : nat) (ip0 : string)
    (hostname_override : option string) : string :=
  match hostname_override with
  | Some o =>
      if (String.length o <? 255)%nat then strncpy 255 o
      else strncpy 255 o ++ unterminated P index
  | None =>
      match getnameinfo P ip0 with
      | Some name => name
      | None => "N/A"
      end
  end.

(** [add_host_to_list]; the mutex makes the whole body atomic. *)
Definition add_host_to_list (r : Registry) (ip0 : string)
    (hostname_override : option string) : Registry :=
  if ip_known (discovered_hosts r) ip0 then r
  else
    let index := List.length (discovered_hosts r) in
    let h := {| ip := strncpy 15 ip0;
                hostname := resolve_hostname index ip0 hostname_override;
                status := STATUS_UP;
                consecutive_failures := 0;
                flash_timer := 1%Q |} in
    {| discovered_hosts := discovered_hosts r ++ [h];
       discovered_hosts_capacity := grow r |}.

End Registry.

(* ================================================================= *)
(** ** [sort()]: [inet_pton], [compare_hosts], [qsort] *)

Module Inet.

Definition digit_of (c : ascii) : option Z :=
  let n := Z.of_nat (nat_of_ascii c) in
  if (48 <=? n) && (n <=? 57) then Some (n - 48) else None.

(** [inet_pton(AF_INET, src, dst)], the dotted-decimal reader of the C
    library: four decimal octets of value at most 255, without leading
    zeros, separated by single dots.  [done] holds the finished octets
    (last first), [cur] the octet being read. *)
Fixpoint inet_pton4 (src : string) (done : list Z) (cur : Z)
    (saw_digit : bool) : option (list Z) :=
  match src with
  | EmptyString =>
      if saw_digit && (List.length done =? 3)%nat
      then Some (rev (cur :: done)) else None
  | String ch rest =>
      match digit_of ch with
      | Some d =>
          let new := cur * 10 + d in
          if saw_digit && (cur =? 0) then None
          else if new >? 255 then None
          else inet_pton4 rest done new true
      | None =>
          if Ascii.eqb ch "." && saw_digit then
            if (List.length done =? 3)%nat then None
            else inet_pton4 rest (cur :: done) 0 false
          else None
      end
  end.

(** The four octets in the order they are written, i.e. the bytes of
    [s_addr] in memory (network byte order). *)
Definition inet_pton (src : string) : option (Z * Z * Z * Z) :=
  match inet_pton4 src [] 0 false with
  | Some [o1; o2; o3; o4] => Some (o1, o2, o3, o4)
  | _ => None
  end.

(** [s_addr] read as a [uint32_t] by the host. *)
Definition s_addr (bo : byte_order) (q : Z * Z * Z * Z) : Z :=
  let '(o1, o2, o3, o4) := q in
  match bo with
  | LittleEndian => o1 + o2 * 2 ^ 8 + o3 * 2 ^ 16 + o4 * 2 ^ 24
  | BigEndian => o1 * 2 ^ 24 + o2 * 2 ^ 16 + o3 * 2 ^ 8 + o4
  end.

(** The 32-bit numeric value of a dotted address, first octet most
    significant. *)
Definition numeric_value (q : Z * Z * Z * Z) : Z := s_addr BigEndian q.

End Inet.
Import Inet.

Section Sort.
Variable P : Platform.

(** [struct in_addr addr; inet_pton(AF_INET, ip, &addr); ... addr.s_addr].
    [inet_pton] writes [addr] only when it accepts the text, and its
    return value is not looked at: behind a rejected text [addr] still
    holds what the uninitialised local held. *)
Definition s_addr_of (uninitialised : Z) (ip0 : string) : Z :=
  match inet_pton ip0 with
  | Some q => s_addr (host_order P) q
  | None => uninitialised
  end.

(** [compare_hosts]; [locals] is what [addr_a] and [addr_b] hold when the
    function is entered. *)
Definition compare_hosts (locals : Z * Z) (host_a host_b : MonitoredHost)
  : Z :=
  if String.eqb (hostname host_a) "INTERNET" then 1
  else if String.eqb (hostname host_b) "INTERNET" then -1
  else
    let addr_a := s_addr_of (fst locals) (ip host_a) in
    let addr_b := s_addr_of (snd locals) (ip host_b) in
    if addr_a <? addr_b then -1
    else if addr_a >? addr_b then 1
    else 0.

End Sort.

(** [qsort] belongs to the C library.  It is modelled by insertion sort.
    The comparison function is given the number of the call, since what
    [compare_hosts] answers can depend on what its locals hold at that
    call; the sort returns the array and the number of calls made. *)
Section QSort.
Context {A : Type}.
Variable compar : nat -> A -> A -> Z.

Fixpoint qsort_insert (n : nat) (x : A) (l : list A) : list A * nat :=
  match l with
  | [] => ([x], n)
  | y :: t =>
      if compar n x y <=? 0 then (x :: y :: t, S n)
      else let r := qsort_insert (S n) x t in (y :: fst r, snd r)
  end.

Fixpoint qsort (n : nat) (l : list A) : list A * nat :=
  match l with
  | [] => ([], n)
  | x :: t => let r := qsort n t in qsort_insert (snd r) x (fst r)
  end.

End QSort.

(* ================================================================= *)
(** ** PortProbe loop and SubnetDetector *)

Section Probe.
Variable P : Platform.

(** [for (p...) if (check_port(ip, COMMON_PORTS[p])) { ...; break; }]:
    whether some probe succeeded; the ports behind the first success are
    not probed. *)
Fixpoint probe_ports (w : world P) (ip0 : string) (ports : list Z)
  : bool * world P :=
  match ports with
  | [] => (false, w)
  | p :: ps =>
      let '(ok, w') := check_port P w ip0 p in
      if ok then (true, w') else probe_ports w' ip0 ps
  end.

(** The results of the probes that loop performs, in order. *)
Fixpoint probes_made (w : world P) (ip0 : string) (ports : list Z)
  : list bool :=
  match ports with
  | [] => []
  | p :: ps =>
      let '(ok, w') := check_port P w ip0 p in
      ok :: (if ok then [] else probes_made w' ip0 ps)
  end.

End Probe.

Module SubnetDetector.

(** [strncmp(name, "en", 2) == 0 || ... "eth" ... || ... "wl" ...]. *)
Definition preferred (name : string) : bool :=
  String.prefix "en" name || String.prefix "eth" name
  || String.prefix "wl" name.

(** [strrchr(host, '.') - host]: the index of the last dot. *)
Fixpoint strrchr_dot (s : string) : option nat :=
  match s with
  | EmptyString => None
  | String c rest =>
      match strrchr_dot rest with
      | Some k => Some (S k)
      | None => if Ascii.eqb c "." then Some 0%nat else None
      end
  end.

(** The loop of [get_local_ip_and_subnet] (the branch without [_WIN32]). *)
Fixpoint scan_interfaces (ifs : list ifaddr) (buffer_size : nat)
  : option string :=
  match ifs with
  | [] => None
  | ifa :: rest =>
      match (if preferred (ifa_name ifa) then ifa_host ifa else None) with
      | Some host =>
          match strrchr_dot host with
          | Some k =>
              let subnet_len := S k in
              if (subnet_len <? buffer_size)%nat
              then Some (strncpy subnet_len host)
              else scan_interfaces rest buffer_size
          | None => scan_interfaces rest buffer_size
          end
      | None => scan_interfaces rest buffer_size
      end
  end.

Definition get_local_ip_and_subnet (P : Platform) (buffer_size : nat)
  : option string :=
  match getifaddrs P with
  | None => None
  | Some ifs => scan_interfaces ifs buffer_size
  end.

End SubnetDetector.
Import SubnetDetector.

(* ================================================================= *)
(** ** Discoverer *)

(** [int hosts_per_thread = (END_HOST - START_HOST + 1) / NUM_THREADS]. *)
Definition hosts_per_thread : Z :=
  Z.quot (END_HOST - START_HOST + 1) NUM_THREADS.

(** The arguments built for discovery thread [i] in [network_thread_main]. *)
Definition thread_args (active_subnet : string) (i : Z) : DiscoveryThreadArgs :=
  let start := START_HOST + i * hosts_per_thread in
  {| start_host := start;
     end_host := if i =? NUM_THREADS - 1 then END_HOST
                 else start + hosts_per_thread - 1;
     subnet := strncpy 16 active_subnet |}.

(** The values [i] takes in [for (i = start_host; i <= end_host; i++)]. *)
Definition host_numbers (a : DiscoveryThreadArgs) : list Z :=
  map (fun k => start_host a + Z.of_nat k)
      (seq 0 (Z.to_nat (end_host a - start_host a + 1))).

(** The indices [0 .. NUM_THREADS - 1] of the creation loop. *)
Definition thread_indices : list Z :=
  map Z.of_nat (seq 0 (Z.to_nat NUM_THREADS)).

(** A discovery thread under way: its prefix and the host numbers its loop
    has still to visit. *)
Record Worker : Type := mkWorker {
  w_subnet : string;
  w_pending : list Z
}.

Section Discovery.
Variable P : Platform.

Definition NetState : Type := (Registry * world P)%type.

(** The candidate address: [char ip[16]; snprintf(ip, sizeof(ip), "%s%d",
    args->subnet, i)]. *)
Definition candidate_ip (subnet0 : string) (i : Z) : string :=
  snprintf_s_d 16 subnet0 i.

(** One iteration of the loop of [discovery_worker], behind the
    [app_is_running] test. *)
Definition discovery_worker_body (subnet0 : string) (i : Z) (st : NetState)
  : NetState :=
  let ip0 := candidate_ip subnet0 i in
  let '(found, w') := probe_ports P (snd st) ip0 COMMON_PORTS in
  (if found then add_host_to_list P (fst st) ip0 None else fst st, w').

(** [discovery_worker] run from its current position to its end. *)
Fixpoint discovery_worker (subnet0 : string) (pending : list Z)
    (st : NetState) : NetState :=
  match pending with
  | [] => st
  | i :: rest =>
      if app_is_running P (snd st)
      then discovery_worker subnet0 rest (discovery_worker_body subnet0 i st)
      else st
  end.

(** One iteration of one thread. *)
Definition worker_step (wk : Worker) (st : NetState) : Worker * NetState :=
  match w_pending wk with
  | [] => (wk, st)
  | i :: rest =>
      if app_is_running P (snd st)
      then ({| w_subnet := w_subnet wk; w_pending := rest |},
            discovery_worker_body (w_subnet wk) i st)
      else ({| w_subnet := w_subnet wk; w_pending := [] |}, st)
  end.

(** The threads run concurrently; the registry is touched only inside
    [add_host_to_list], under the mutex.  A schedule names, step by
    step, the thread that performs its next iteration. *)
Fixpoint step_thread (k : nat) (ws : list Worker) (st : NetState)
  : list Worker * NetState :=
  match ws, k with
  | [], _ => ([], st)
  | wk :: rest, O =>
      let '(wk', st') := worker_step wk st in (wk' :: rest, st')
  | wk :: rest, S k' =>
      let '(rest', st') := step_thread k' rest st in (wk :: rest', st')
  end.

Fixpoint run_schedule (sched : list nat) (ws : list Worker) (st : NetState)
  : list Worker * NetState :=
  match sched with
  | [] => (ws, st)
  | k :: sched' =>
      let '(ws', st') := step_thread k ws st in run_schedule sched' ws' st'
  end.

(** [pthread_join] on every thread: each runs to its end. *)
Definition join_all (ws : list Worker) (st : NetState) : NetState :=
  fold_left (fun s wk => discovery_worker (w_subnet wk) (w_pending wk) s)
            ws st.

(** The threads that [pthread_create] started. *)
Definition spawn_workers (active_subnet : string) : list Worker :=
  map (fun i => let a := thread_args active_subnet i in
                {| w_subnet := subnet a; w_pending := host_numbers a |})
      (filter (pthread_create P) thread_indices).

(** The subnet in force when the threads are created. *)
Definition detect_subnet (active_subnet : string) : string :=
  if strlen active_subnet =? 0 then
    match get_local_ip_and_subnet P 16 with
    | Some s => s
    | None => strncpy 15 DEFAULT_SUBNET
    end
  else active_subnet.

(** Phase 1 of [network_thread_main] up to the joins. *)
Definition discovery_workers (active_subnet : string) (sched : list nat)
    (w : world P) : NetState :=
  let '(ws, st) :=
    run_schedule sched (spawn_workers (detect_subnet active_subnet))
                 (empty_registry, w) in
  join_all ws st.

(** [qsort(discovered_hosts, discovered_hosts_count, ..., compare_hosts)]. *)
Definition sort_registry (r : Registry) : Registry :=
  {| discovered_hosts :=
       fst (qsort (fun n => compare_hosts P (indeterminate P n)) O
                  (discovered_hosts r));
     discovered_hosts_capacity := discovered_hosts_capacity r |}.

(** Phase 1 complete: sentinel added, registry sorted,
    [discovery_complete = true]. *)
Definition discovery_phase (active_subnet : string) (sched : list nat)
    (w : world P) : NetState :=
  let st := discovery_workers active_subnet sched w in
  (sort_registry
     (add_host_to_list P (fst st) INTERNET_CHECK_IP (Some "INTERNET")),
   snd st).

End Discovery.

(* ================================================================= *)
(** ** Monitor *)

Section Monitor.
Variable P : Platform.

(** The body of the sweep behind the probe: the new entry, and whether
    [Mix_PlayChannel(-1, alert_sound, 0)] was called. *)
Definition monitor_update (is_online : bool) (h : MonitoredHost)
  : MonitoredHost * bool :=
  let old_status := status h in
  let '(new_status, failures, alert) :=
    if is_online then (STATUS_UP, 0, false)
    else
      let failures := int_wrap (consecutive_failures h + 1) in
      if failures >=? PING_FAIL_THRESHOLD
      then (STATUS_DOWN, failures, negb (HostStatus_eqb (status h) STATUS_DOWN))
      else (STATUS_UNSTABLE, failures, false) in
  ({| ip := ip h;
      hostname := hostname h;
      status := new_status;
      consecutive_failures := failures;
      flash_timer := if HostStatus_eqb old_status new_status
                     then flash_timer h else 1%Q |},
   alert).

(** One pass of [for (i = 0; i < discovered_hosts_count; i++)]: the
    updated entries and, per entry, the pair ([is_online], alert played). *)
Fixpoint monitor_sweep (hs : list MonitoredHost) (w : world P)
  : list MonitoredHost * list (bool * bool) * world P :=
  match hs with
  | [] => ([], [], w)
  | h :: rest =>
      let '(is_online, w1) := probe_ports P w (ip h) COMMON_PORTS in
      let '(h', alert) := monitor_update is_online h in
      let '(rest', log, w2) := monitor_sweep rest w1 in
      (h' :: rest', (is_online, alert) :: log, w2)
  end.

(** [while (app_is_running) { sweep; sleep }], cut after [fuel] sweeps.
    The result lists, for every sweep made, oldest first, the entries as
    the sweep left them and the sweep's log. *)
Fixpoint monitor_loop (fuel : nat) (hs : list MonitoredHost) (w : world P)
  : list (list MonitoredHost * list (bool * bool)) * world P :=
  match fuel with
  | O => ([], w)
  | S fuel' =>
      if app_is_running P w then
        let '(hs1, log, w1) := monitor_sweep hs w in
        let '(trace, w2) := monitor_loop fuel' hs1 w1 in
        ((hs1, log) :: trace, w2)
      else ([], w)
  end.

(** [network_thread_main]: discovery, then monitoring.  The result is the
    registry as discovery left it and the trace of the sweeps. *)
Definition network_thread_main (active_subnet : string) (sched : list nat)
    (fuel : nat) (w : world P)
  : list MonitoredHost * list (list MonitoredHost * list (bool * bool)) :=
  let st := discovery_phase P active_subnet sched w in
  (discovered_hosts (fst st),
   fst (monitor_loop fuel (discovered_hosts (fst st)) (snd st))).

End Monitor.

(* ================================================================= *)
(** ** Start of [main]: the subnet argument *)

Module Startup.

Inductive call : Type :=
| Printf (text : string)
| InitSdl
| LoadMedia
| Cleanup
| InitStars
| MutexInit
| CreateNetworkThread.

(** How [main] leaves its start-up code. *)
Inductive outcome : Type :=
| Exited (code : Z)
| Running (active_subnet : string).

(** The test on [argv[1]]. *)
Definition valid_subnet_arg (arg : string) : bool :=
  let len := strlen arg in
  (0 <? len) && (len <? 16)
  && match last_char arg with
     | Some c => Ascii.eqb c "."
     | None => false
     end.

(** [main] up to the render loop: the calls made, in order, and the
    outcome.  [init_sdl], [load_media] and [thread_ok] tell whether
    [init_sdl()], [load_media()] and [pthread_create] succeed (the
    [_WIN32] block is not part of this build). *)
Definition main (argv : list string) (init_sdl load_media thread_ok : bool)
  : list call * outcome :=
  let start (pre : list call) (active_subnet : string) :=
    if negb init_sdl then ((pre ++ [InitSdl; Cleanup])%list, Exited 1)
    else if negb load_media
    then ((pre ++ [InitSdl; LoadMedia; Cleanup])%list, Exited 1)
    else if negb thread_ok
    then ((pre ++ [InitSdl; LoadMedia; InitStars; MutexInit;
                   CreateNetworkThread;
                   Printf "Failed to create network thread!"; Cleanup])%list,
          Exited 1)
    else ((pre ++ [InitSdl; LoadMedia; InitStars; MutexInit;
                   CreateNetworkThread])%list,
          Running active_subnet) in
  match argv with
  | _ :: arg :: _ =>
      if valid_subnet_arg arg then
        let active_subnet := strncpy 15 arg in
        start [Printf ("Using user-provided subnet: " ++ active_subnet)]
              active_subnet
      else
        ([Printf ("Invalid subnet format provided: '" ++ arg
                  ++ "'. It should be like '192.168.1.'")],
         Exited 1)
  | _ => start [] ""
  end.

(** The calls that touch the network or start a thread. *)
Definition starts_networking (c : call) : bool :=
  match c with
  | CreateNetworkThread => true
  | _ => false
  end.

End Startup.

(* ================================================================= *)
(** ** Render loop of [main]: summary line and host rows *)

Module Render.

Definition SCREEN_HEIGHT : Z := 600.
Definition FONT_SIZE : Z := 14.

(** One turn of the counting loop: the entry whose address is
    [INTERNET_CHECK_IP] is skipped, the others are counted by status with
    [int] counters. *)
Definition count_host (acc : Z * Z * Z) (h : MonitoredHost) : Z * Z * Z :=
  let '(online_count, unstable_count, down_count) := acc in
  if String.eqb (ip h) INTERNET_CHECK_IP then acc
  else
    match status h with
    | STATUS_UP => (int_wrap (online_count + 1), unstable_count, down_count)
    | STATUS_UNSTABLE =>
        (online_count, int_wrap (unstable_count + 1), down_count)
    | STATUS_DOWN => (online_count, unstable_count, int_wrap (down_count + 1))
    | STATUS_SCANNING => acc
    end.

(** [online_count], [unstable_count] and [down_count] behind the loop. *)
Definition summary_counts (hs : list MonitoredHost) : Z * Z * Z :=
  fold_left count_host hs (0, 0, 0).

(** The number printed by ["Monitoring %d hosts on %s0/24"]. *)
Definition monitoring_count (hs : list MonitoredHost) : Z :=
  Z.of_nat (List.length hs).

(** The text of the status column: for [STATUS_UNSTABLE],
    [snprintf(status_desc, 50, "Unstable (%d)", consecutive_failures)]. *)
Definition status_text (h : MonitoredHost) : string :=
  match status h with
  | STATUS_UP => "Online"
  | STATUS_UNSTABLE =>
      substring 0 49
        ("Unstable ("
           ++ NilZero.string_of_int (Z.to_int (consecutive_failures h)) ++ ")")
  | STATUS_DOWN => "DOWN"
  | STATUS_SCANNING => "Scanning..."
  end.

(** [y_offset] when the loop over the hosts starts: 10, then the title,
    the summary and the column headers. *)
Definition first_row_y : Z :=
  10 + (FONT_SIZE + 5) + (FONT_SIZE + 15) + (FONT_SIZE + 5).

(** The loop over the hosts: for each entry the [y_offset] of its row and
    the three texts drawn there; [y_offset += FONT_SIZE + 4], on an [int],
    after each. *)
Fixpoint host_rows (y_offset : Z) (hs : list MonitoredHost)
  : list (Z * string * string * string) :=
  match hs with
  | [] => []
  | h :: rest =>
      (y_offset, ip h, hostname h, status_text h)
        :: host_rows (int_wrap (y_offset + (FONT_SIZE + 4))) rest
  end.

Definition render_rows (hs : list MonitoredHost)
  : list (Z * string * string * string) :=
  host_rows first_row_y hs.

End Render.

(* ================================================================= *)
(** ** Vocabulary of the properties *)

(** The registry after the last sweep of a trace ([hs] when no sweep was
    made). *)
Definition final_hosts (hs : list MonitoredHost)
    (trace : list (list MonitoredHost * list (bool * bool)))
  : list MonitoredHost :=
  last (map fst trace) hs.

(** What a trace says about entry [i], sweep by sweep: its status after the
    sweep, whether it was found online, whether the alert was played. *)
Definition host_column (i : nat)
    (trace : list (list MonitoredHost * list (bool * bool)))
  : list (HostStatus * bool * bool) :=
  flat_map (fun rec : list MonitoredHost * list (bool * bool) =>
              match nth_error (fst rec) i, nth_error (snd rec) i with
              | Some h, Some (online, alert) => [(status h, online, alert)]
              | _, _ => []
              end) trace.

Definition col_status (e : HostStatus * bool * bool) : HostStatus := fst (fst e).
Definition col_online (e : HostStatus * bool * bool) : bool := snd (fst e).
Definition col_alert (e : HostStatus * bool * bool) : bool := snd e.

(** The number of failed sweeps since the last successful one. *)
Definition count_failure (n : nat) (online : bool) : nat :=
  if online then O else S n.

Definition trailing_failures (outcomes : list bool) : nat :=
  fold_left count_failure outcomes O.

(** The status the failure-threshold state machine gives to a number of
    consecutive failures. *)
Definition classify (n : nat) : HostStatus :=
  match n with
  | O => STATUS_UP
  | 1%nat | 2%nat => STATUS_UNSTABLE
  | _ => STATUS_DOWN
  end.

(** An entry as discovery leaves it: [STATUS_UP], no failure. *)
Definition fresh (h : MonitoredHost) : Prop :=
  status h = STATUS_UP /\ consecutive_failures h = 0.

(** The state an entry is in, given the number [n] of failed sweeps since
    the last successful one, as long as the [int] counter can hold [n]. *)
Definition tracks (h : MonitoredHost) (n : nat) : Prop :=
  Z.of_nat n <= INT_MAX ->
  consecutive_failures h = Z.of_nat n /\ status h = classify n.

(** Whether a sweep takes an entry into [STATUS_DOWN]. *)
Definition enters_down (before after : HostStatus) : bool :=
  negb (HostStatus_eqb before STATUS_DOWN) && HostStatus_eqb after STATUS_DOWN.

(** The number of maximal runs of [STATUS_DOWN] that begin in a sequence of
    statuses, [before] being the status ahead of the sequence. *)
Fixpoint down_runs (before : HostStatus) (l : list HostStatus) : nat :=
  match l with
  | [] => O
  | s :: t => ((if enters_down before s then 1 else 0) + down_runs s t)%nat
  end.

(** The status ahead of each sweep: the initial one, then what each sweep
    but the last left. *)
Fixpoint statuses_before (initial : HostStatus) (l : list HostStatus)
  : list HostStatus :=
  match l with
  | [] => []
  | s :: t => initial :: statuses_before s t
  end.

(** The passage of one registry entry through a series of sweeps: from
    its initial value, along its column of a trace, to its final value. *)
Inductive host_run
  : MonitoredHost -> list (HostStatus * bool * bool) -> MonitoredHost -> Prop :=
| host_run_nil (h : MonitoredHost) : host_run h [] h
| host_run_cons (h : MonitoredHost) (online : bool)
    (col : list (HostStatus * bool * bool)) (h' : MonitoredHost) :
    host_run (fst (monitor_update online h)) col h' ->
    host_run h
      ((status (fst (monitor_update online h)), online,
        snd (monitor_update online h)) :: col)
      h'.

Definition is_sentinel (h : MonitoredHost) : bool :=
  String.eqb (hostname h) "INTERNET".

(** Whether [inet_pton] accepts the address text of an entry. *)
Definition has_address (h : MonitoredHost) : bool :=
  match inet_pton (ip h) with
  | Some _ => true
  | None => false
  end.

(** Every entry not named ["INTERNET"] has an address text that
    [inet_pton] accepts. *)
Definition addressed (hs : list MonitoredHost) : Prop :=
  Forall (fun h => is_sentinel h = false -> has_address h = true) hs.

(** The integer [compare_hosts] compares for an entry whose address text
    [inet_pton] accepts: [s_addr] as the host reads it. *)
Definition host_key (P : Platform) (h : MonitoredHost) : Z :=
  match inet_pton (ip h) with
  | Some q => s_addr (host_order P) q
  | None => 0
  end.

Definition key_le (P : Platform) (a b : MonitoredHost) : Prop :=
  host_key P a <= host_key P b.

(** Ascending numeric order of two entries with dotted-quad addresses. *)
Definition numeric_le (a b : MonitoredHost) : Prop :=
  forall qa qb, inet_pton (ip a) = Some qa -> inet_pton (ip b) = Some qb ->
                numeric_value qa <= numeric_value qb.

(** Two dotted quads of one /24 network. *)
Definition same_slash24 (qa qb : Z * Z * Z * Z) : Prop :=
  fst (fst (fst qa)) = fst (fst (fst qb))
  /\ snd (fst (fst qa)) = snd (fst (fst qb))
  /\ snd (fst qa) = snd (fst qb).

(** Ascending numeric order of two entries that both have dotted-quad
    addresses. *)
Definition numeric_ascending (a b : MonitoredHost) : Prop :=
  exists qa qb, inet_pton (ip a) = Some qa /\ inet_pton (ip b) = Some qb
                /\ numeric_value qa <= numeric_value qb.

(** A dotted quad with its octets in reverse order. *)
Definition octets_reversed (q : Z * Z * Z * Z) : Z * Z * Z * Z :=
  let '(o1, o2, o3, o4) := q in (o4, o3, o2, o1).

(** The text of an octet, as [%d] prints it. *)
Definition octet_text (n : Z) : string := NilZero.string_of_int (Z.to_int n).

(** The prefix ["a.b.c."] of the /24 network a.b.c.0. *)
Definition dotted_prefix (a b c : Z) : string :=
  octet_text a ++ "." ++ octet_text b ++ "." ++ octet_text c ++ ".".

Definition octet (n : Z) : Prop := 0 <= n <= 255.

(** Every entry not named ["INTERNET"] has a dotted-quad address of the
    network a.b.c.0/24. *)
Definition one_network (a b c : Z) (hs : list MonitoredHost) : Prop :=
  Forall (fun h => is_sentinel h = false ->
                   exists d, inet_pton (ip h) = Some (a, b, c, d)) hs.

(** The conditions on the subnet argument, as the interface states them. *)
Definition well_formed_subnet (arg : string) : Prop :=
  (0 < String.length arg)%nat /\ (String.length arg < 16)%nat
  /\ last_char arg = Some "."%char.

(** The number of characters [%d] prints for [i]. *)
Definition decimal_digits (i : Z) : nat :=
  String.length (NilZero.string_of_int (Z.to_int i)).

(** A text of [n] copies of one character. *)
Fixpoint string_repeat (c : ascii) (n : nat) : string :=
  match n with
  | O => EmptyString
  | S n' => String c (string_repeat c n')
  end.

(** The candidate addresses of the host numbers 1..254 under a prefix. *)
Definition candidates (subnet0 : string) : list string :=
  map (fun k => candidate_ip subnet0 (Z.of_nat k)) (seq 1 254).

(** A discovery thread of the given prefix whose pending host numbers all
    belong to the block of a thread that [pthread_create] started. *)
Definition owned (P : Platform) (prefix : string) (wk : Worker) : Prop :=
  w_subnet wk = strncpy 16 prefix
  /\ exists k, In k (filter (pthread_create P) thread_indices)
               /\ incl (w_pending wk) (host_numbers (thread_args prefix k)).

(** An address that a created discovery thread probes under the prefix. *)
Definition probed_by_discovery (P : Platform) (prefix ip0 : string) : Prop :=
  exists k i,
    In k (filter (pthread_create P) thread_indices)
    /\ In i (host_numbers (thread_args prefix k))
    /\ ip0 = candidate_ip (strncpy 16 prefix) i.

(** An interface [get_local_ip_and_subnet] settles on: preferred by name,
    with an address text whose part up to the last dot fits the buffer. *)
Definition qualifies (buffer_size : nat) (ifa : ifaddr) : bool :=
  preferred (ifa_name ifa)
  && match ifa_host ifa with
     | Some host =>
         match strrchr_dot host with
         | Some k => (S k <? buffer_size)%nat
         | None => false
         end
     | None => false
     end.

(** The part of an address text up to and including its last dot. *)
Definition up_to_last_dot (host : string) : string :=
  match strrchr_dot host with
  | Some k => substring 0 (S k) host
  | None => EmptyString
  end.

(** An entry as a discovery thread writes it: the address is a candidate
    that a created thread probes and that some probe found answering, the
    hostname is what [getnameinfo] gives for it, or ["N/A"]. *)
Definition discovered_entry (P : Platform) (prefix : string)
    (h : MonitoredHost) : Prop :=
  probed_by_discovery P prefix (ip h)
  /\ In (ip h) (candidates (strncpy 16 prefix))
  /\ (exists w : world P, fst (probe_ports P w (ip h) COMMON_PORTS) = true)
  /\ hostname h = match getnameinfo P (ip h) with
                  | Some name => name
                  | None => "N/A"
                  end.

(** The entry [add_host_to_list(INTERNET_CHECK_IP, "INTERNET")] writes. *)
Definition sentinel_entry (h : MonitoredHost) : Prop :=
  ip h = INTERNET_CHECK_IP /\ hostname h = "INTERNET".

(** The entries fit the allocated array, and the array is at most twice
    as large as needed (ten slots at least). *)
Definition capacity_ok (r : Registry) : Prop :=
  discovered_hosts_count r <= discovered_hosts_capacity r
  /\ discovered_hosts_capacity r <= Z.max 10 (2 * discovered_hosts_count r).

(** On a network whose answers are given by [reach], whether an address
    answers on one of the probed ports. *)
Definition responds (reach : string -> Z -> bool) (ip0 : string) : bool :=
  existsb (reach ip0) COMMON_PORTS.

(** A host number is still to be visited by one of the threads. *)
Definition pending_somewhere (ws : list Worker) (i : Z) : Prop :=
  exists wk, In wk ws /\ In i (w_pending wk).

(** What [get_local_ip_and_subnet] copies out for an interface. *)
Definition subnet_of_interface (ifa : ifaddr) : string :=
  match ifa_host ifa with
  | Some host => up_to_last_dot host
  | None => EmptyString
  end.

(** The command line passes the check of [main]: no subnet argument, or
    one that is accepted. *)
Definition argv_ok (argv : list string) : bool :=
  match argv with
  | _ :: arg :: _ => Startup.valid_subnet_arg arg
  | _ => true
  end.

(** The number of entries, the one for [INTERNET_CHECK_IP] apart, that
    have a given status. *)
Definition shown_with (s : HostStatus) (hs : list MonitoredHost) : Z :=
  Z.of_nat
    (List.length
       (filter (fun h => negb (String.eqb (ip h) INTERNET_CHECK_IP)
                         && HostStatus_eqb (status h) s) hs)).

(** How a sweep may change an entry: address and hostname stay, the
    status is never [STATUS_SCANNING] afterwards, and [flash_timer] is set
    to 1 when the status has changed and left alone when it has not. *)
Definition swept (h h' : MonitoredHost) : Prop :=
  ip h' = ip h /\ hostname h' = hostname h
  /\ status h' <> STATUS_SCANNING
  /\ (status h' = status h -> flash_timer h' = flash_timer h)
  /\ (status h' <> status h -> flash_timer h' = 1%Q).

(* ================================================================= *)
(** ** Concrete platforms, for the examples *)

(** A little-endian host on which nothing answers. *)
Definition silent_platform : Platform :=
  {| world := unit;
     check_port := fun w _ _ => (false, w);
     app_is_running := fun _ => true;
     getnameinfo := fun _ => None;
     getifaddrs := None;
     pthread_create := fun _ => true;
     host_order := LittleEndian;
     indeterminate := fun _ => (0, 0);
     unterminated := fun _ => EmptyString |}.

(** A little-endian host that reaches [8.8.8.8] on port 443 and [.5] of the
    scanned subnet on port 22. *)
Definition google_platform : Platform :=
  {| world := unit;
     check_port := fun w ip0 p =>
       ((String.eqb ip0 "8.8.8.8" && (p =? 443))
        || (String.eqb ip0 "10.0.0.5" && (p =? 22)), w);
     app_is_running := fun _ => true;
     getnameinfo := fun ip0 =>
       if String.eqb ip0 "8.8.8.8" then Some "dns.google" else None;
     getifaddrs := None;
     pthread_create := fun _ => true;
     host_order := LittleEndian;
     indeterminate := fun _ => (0, 0);
     unterminated := fun _ => EmptyString |}.

(** A host whose probes answer from a script: the world is the list of
    the answers still to come ([false] once it is used up). *)
Definition scripted_platform : Platform :=
  {| world := list bool;
     check_port := fun w _ _ =>
       match w with
       | [] => (false, [])
       | b :: w' => (b, w')
       end;
     app_is_running := fun _ => true;
     getnameinfo := fun _ => None;
     getifaddrs := None;
     pthread_create := fun _ => true;
     host_order := LittleEndian;
     indeterminate := fun _ => (0, 0);
     unterminated := fun _ => EmptyString |}.

(** A host on which every probe would succeed, with the quit flag already
    cleared, and with a loopback, a wireless and a wired interface. *)
Definition stopped_platform : Platform :=
  {| world := unit;
     check_port := fun w _ _ => (true, w);
     app_is_running := fun _ => false;
     getnameinfo := fun _ => None;
     getifaddrs := Some [ {| ifa_name := "lo"; ifa_host := Some "127.0.0.1" |};
                          {| ifa_name := "wlan0"; ifa_host := Some "192.168.7.23" |};
                          {| ifa_name := "eth0"; ifa_host := Some "10.1.2.3" |} ];
     pthread_create := fun _ => true;
     host_order := LittleEndian;
     indeterminate := fun _ => (0, 0);
     unterminated := fun _ => EmptyString |}.

Definition example_host (ip0 name : string) (s : HostStatus) (n : Z)
  : MonitoredHost :=
  {| ip := ip0; hostname := name; status := s;
     consecutive_failures := n; flash_timer := 0%Q |}.

(* ================================================================= *)
(** * Properties *)

(** ** Strings *)

Lemma substring_0_short (n : nat) (s : string) :
  (String.length s <= n)%nat -> substring 0 n s = s.
Proof.
  revert n; induction s as [|c s IH]; intros [|n] H; simpl in *;
    try reflexivity; try lia.
  f_equal. apply IH. lia.
Qed.

Lemma substring_0_length (n : nat) (s : string) :
  String.length (substring 0 n s) = Nat.min n (String.length s).
Proof.
  revert n; induction s as [|c s IH]; intros [|n]; simpl; try reflexivity.
  now rewrite IH.
Qed.

Lemma string_length_app (s t : string) :
  String.length (s ++ t) = (String.length s + String.length t)%nat.
Proof. induction s as [|c s IH]; simpl; [reflexivity | now rewrite IH]. Qed.

Lemma substring_0_app (n : nat) (p s : string) :
  (String.length p <= n)%nat ->
  substring 0 n (p ++ s) = p ++ substring 0 (n - String.length p) s.
Proof.
  revert n; induction p as [|c p IH]; intros n H; simpl in *.
  - now rewrite Nat.sub_0_r.
  - destruct n as [|n]; [lia|]. simpl. f_equal. apply IH. lia.
Qed.

Lemma string_repeat_length (c : ascii) (n : nat) :
  String.length (string_repeat c n) = n.
Proof. induction n as [|n IH]; simpl; [reflexivity | now rewrite IH]. Qed.

Lemma strncpy_short (n : nat) (s : string) :
  (String.length s <= n)%nat -> strncpy n s = s.
Proof. apply substring_0_short. Qed.

Lemma HostStatus_eqb_eq (a b : HostStatus) :
  HostStatus_eqb a b = true <-> a = b.
Proof. destruct a, b; simpl; split; congruence. Qed.

(* ================================================================= *)
(** ** Discoverer: the split of the host numbers *)

Lemma hosts_per_thread_value : hosts_per_thread = 5.
Proof. reflexivity. Qed.

Lemma thread_args_start (s : string) (i : Z) :
  start_host (thread_args s i) = 1 + 5 * i.
Proof.
  unfold thread_args; cbn [start_host].
  rewrite hosts_per_thread_value. unfold START_HOST. lia.
Qed.

Lemma thread_args_end (s : string) (i : Z) :
  end_host (thread_args s i) = if i =? 49 then 254 else 5 * i + 5.
Proof.
  unfold thread_args; cbn [end_host].
  rewrite hosts_per_thread_value.
  unfold NUM_THREADS, END_HOST, START_HOST.
  replace (50 - 1) with 49 by lia. destruct (i =? 49); lia.
Qed.

Lemma host_numbers_spec (a : DiscoveryThreadArgs) (h : Z) :
  In h (host_numbers a) <-> start_host a <= h <= end_host a.
Proof.
  unfold host_numbers. rewrite in_map_iff. split.
  - intros (k & <- & Hk). apply in_seq in Hk. lia.
  - intros H. exists (Z.to_nat (h - start_host a)). split; [lia|].
    apply in_seq. lia.
Qed.

Lemma thread_indices_spec (i : Z) :
  In i thread_indices <-> 0 <= i < NUM_THREADS.
Proof.
  unfold thread_indices, NUM_THREADS. rewrite in_map_iff. split.
  - intros (k & <- & Hk). apply in_seq in Hk. lia.
  - intros H. exists (Z.to_nat i). split; [lia|]. apply in_seq. lia.
Qed.

Lemma thread_blocks_concat (s : string) :
  List.concat (map (fun i => host_numbers (thread_args s i)) thread_indices)
  = map Z.of_nat (seq 1 254).
Proof. vm_compute. reflexivity. Qed.

Lemma spawn_workers_pending (P : Platform) (s : string) :
  map w_pending (spawn_workers P s)
  = map (fun i => host_numbers (thread_args s i))
        (filter (pthread_create P) thread_indices).
Proof. unfold spawn_workers. rewrite map_map. reflexivity. Qed.

Lemma concat_filter_perm {A B : Type} (f : A -> list B) (p : A -> bool)
    (l : list A) :
  Permutation (List.concat (map f l))
              (List.concat (map f (filter p l))
                 ++ List.concat (map f (filter (fun x => negb (p x)) l))).
Proof.
  induction l as [|a l IH]; cbn [map List.concat filter]; [constructor|].
  destruct (p a); cbn [negb map List.concat].
  - rewrite <- app_assoc. now apply Permutation_app_head.
  - rewrite Permutation_app_swap_app. now apply Permutation_app_head.
Qed.

(** C8. The creation loop of [network_thread_main] runs over the 50
    thread indices 0..49 and gives them the host numbers 1..254 in
    consecutive blocks: five numbers for each of the first 49 threads, the
    remaining nine (five and the remainder of 254 by 50) for the last;
    each block starts where the one before ends, and the 50 blocks put
    one behind the other are the list 1, 2, ..., 254, so that every host
    number of 1..254 lies in the block of exactly one thread and no other
    number lies in any.  A thread that [pthread_create] starts visits
    exactly the numbers of its block: when every thread is started, the
    50 threads between them visit each of 1..254 once; in any case no
    number is visited twice, and a number is visited exactly when the
    thread of its block was started. *)
Theorem discovery_ranges_partition (P : Platform) (s : string) :
  (forall i, In i thread_indices <-> 0 <= i < NUM_THREADS)
  /\ List.length thread_indices = 50%nat
  /\ (forall i, 0 <= i < NUM_THREADS - 1 ->
        end_host (thread_args s i) - start_host (thread_args s i) + 1
          = hosts_per_thread
        /\ start_host (thread_args s (i + 1)) = end_host (thread_args s i) + 1)
  /\ start_host (thread_args s 0) = START_HOST
  /\ end_host (thread_args s (NUM_THREADS - 1)) = END_HOST
  /\ end_host (thread_args s (NUM_THREADS - 1))
       - start_host (thread_args s (NUM_THREADS - 1)) + 1
     = hosts_per_thread + Z.rem (END_HOST - START_HOST + 1) NUM_THREADS
  /\ List.concat (map (fun i => host_numbers (thread_args s i)) thread_indices)
     = map Z.of_nat (seq 1 254)
  /\ (forall h, START_HOST <= h <= END_HOST <->
        exists i, In i thread_indices
                  /\ In h (host_numbers (thread_args s i)))
  /\ (forall i j h, In i thread_indices -> In j thread_indices ->
        In h (host_numbers (thread_args s i)) ->
        In h (host_numbers (thread_args s j)) -> i = j)
  /\ map w_pending (spawn_workers P s)
     = map (fun i => host_numbers (thread_args s i))
           (filter (pthread_create P) thread_indices)
  /\ ((forall i, In i thread_indices -> pthread_create P i = true) ->
      List.length (spawn_workers P s) = 50%nat
      /\ List.concat (map w_pending (spawn_workers P s))
         = map Z.of_nat (seq 1 254))
  /\ NoDup (List.concat (map w_pending (spawn_workers P s)))
  /\ (forall h, In h (List.concat (map w_pending (spawn_workers P s))) <->
        exists i, In i thread_indices /\ pthread_create P i = true
                  /\ In h (host_numbers (thread_args s i))).
Proof.
  assert (Hin : forall i h, In h (host_numbers (thread_args s i)) <->
                  1 + 5 * i <= h <= if i =? 49 then 254 else 5 * i + 5).
  { intros i h. rewrite host_numbers_spec, thread_args_start, thread_args_end.
    reflexivity. }
  split; [exact thread_indices_spec|]. split; [reflexivity|].
  split; [|split; [|split; [|split; [|split; [|split; [|split;
    [|split; [|split; [|split]]]]]]]]].
  - intros i Hi. unfold NUM_THREADS in Hi. split.
    + rewrite thread_args_start, thread_args_end, hosts_per_thread_value.
      destruct (Z.eqb_spec i 49); lia.
    + rewrite thread_args_start, thread_args_end.
      destruct (Z.eqb_spec i 49); lia.
  - reflexivity.
  - reflexivity.
  - reflexivity.
  - apply thread_blocks_concat.
  - intros h. unfold START_HOST, END_HOST. split.
    + intros [H1 H254].
      destruct (Z_lt_le_dec h 246) as [Hlt|Hge].
      * exists ((h - 1) / 5).
        assert (Hd := Z.div_mod (h - 1) 5 ltac:(lia)).
        assert (Hm := Z.mod_pos_bound (h - 1) 5 ltac:(lia)).
        split; [apply thread_indices_spec; unfold NUM_THREADS; lia|].
        apply Hin. destruct (Z.eqb_spec ((h - 1) / 5) 49); lia.
      * exists 49. split; [apply thread_indices_spec; unfold NUM_THREADS; lia|].
        apply Hin. simpl. lia.
    + intros (i & Hi & H). apply thread_indices_spec in Hi.
      unfold NUM_THREADS in Hi. apply Hin in H.
      destruct (Z.eqb_spec i 49); lia.
  - intros i j h Hi Hj H1 H2.
    apply thread_indices_spec in Hi. apply thread_indices_spec in Hj.
    unfold NUM_THREADS in Hi, Hj. apply Hin in H1. apply Hin in H2.
    destruct (Z.eqb_spec i 49), (Z.eqb_spec j 49); lia.
  - apply spawn_workers_pending.
  - intros Hall.
    assert (Hfilter : filter (pthread_create P) thread_indices = thread_indices).
    { apply forallb_filter_id, forallb_forall. exact Hall. }
    split.
    + rewrite <- (length_map w_pending), spawn_workers_pending, Hfilter.
      now rewrite length_map.
    + rewrite spawn_workers_pending, Hfilter. apply thread_blocks_concat.
  - rewrite spawn_workers_pending.
    apply (NoDup_app_remove_r _
             (List.concat (map (fun i => host_numbers (thread_args s i))
                          (filter (fun x => negb (pthread_create P x))
                                  thread_indices)))).
    apply (Permutation_NoDup
             (concat_filter_perm (fun i => host_numbers (thread_args s i))
                                 (pthread_create P) thread_indices)).
    rewrite thread_blocks_concat.
    apply Finite.Injective_map_NoDup; [|apply seq_NoDup].
    intros x y Hxy. lia.
  - intros h. rewrite spawn_workers_pending, in_concat. split.
    + intros (block & Hblock & Hh). apply in_map_iff in Hblock.
      destruct Hblock as (i & <- & Hi). apply filter_In in Hi.
      exists i. tauto.
    + intros (i & Hi & Hc & Hh).
      exists (host_numbers (thread_args s i)). split; [|exact Hh].
      apply in_map_iff. exists i. split; [reflexivity|].
      apply filter_In. tauto.
Qed.

(** With every thread started, 50 threads visit 1..254 once each; host
    250 is visited by the last thread and by no other. *)
Lemma discovery_ranges_partition_witness :
  List.length (spawn_workers silent_platform "10.0.0.") = 50%nat
  /\ List.concat (map w_pending (spawn_workers silent_platform "10.0.0."))
     = map Z.of_nat (seq 1 254)
  /\ In 250 (host_numbers (thread_args "10.0.0." 49))
  /\ forall j, In j thread_indices ->
       In 250 (host_numbers (thread_args "10.0.0." j)) -> 49 = j.
Proof.
  pose proof (discovery_ranges_partition silent_platform "10.0.0.")
    as (Hidx & _ & _ & _ & _ & _ & _ & _ & Huniq & _ & Hall & _).
  assert (H250 : In 250 (host_numbers (thread_args "10.0.0." 49))).
  { apply host_numbers_spec.
    rewrite thread_args_start, thread_args_end. simpl. lia. }
  destruct (Hall (fun i _ => eq_refl)) as [Hlen Hcat].
  split; [exact Hlen|]. split; [exact Hcat|]. split; [exact H250|].
  intros j Hj Hin.
  apply (Huniq 49 j 250); [apply Hidx; unfold NUM_THREADS; lia
                          | exact Hj | exact H250 | exact Hin].
Defined.

(* ================================================================= *)
(** ** Start-up: the subnet argument *)

Lemma valid_subnet_arg_spec (arg : string) :
  Startup.valid_subnet_arg arg = true <-> well_formed_subnet arg.
Proof.
  unfold Startup.valid_subnet_arg, well_formed_subnet, strlen.
  rewrite !andb_true_iff, !Z.ltb_lt.
  destruct (last_char arg) as [c|].
  - rewrite Ascii.eqb_eq. split.
    + intros [[H1 H2] ->]. repeat split; lia.
    + intros (H1 & H2 & H3). injection H3 as ->. repeat split; lia.
  - split.
    + intros [_ H]; discriminate.
    + intros (_ & _ & H); discriminate.
Qed.

Lemma detect_subnet_given (P : Platform) (arg : string) :
  (0 < String.length arg)%nat -> detect_subnet P arg = arg.
Proof.
  intros H. unfold detect_subnet, strlen.
  destruct (Z.eqb_spec (Z.of_nat (String.length arg)) 0); [lia | reflexivity].
Qed.

Lemma spawn_workers_subnet (P : Platform) (s : string) (wk : Worker) :
  In wk (spawn_workers P s) -> w_subnet wk = strncpy 16 s.
Proof.
  unfold spawn_workers. rewrite in_map_iff.
  intros (i & <- & _). reflexivity.
Qed.

(** C9. [main] accepts its subnet argument exactly when the argument is
    not empty, has fewer than 16 characters and ends in a dot.  Any other
    argument makes [main] print the complaint and return 1 at once: no
    other call is made, in particular the network thread is not created.
    An accepted argument becomes [active_subnet] unchanged, and it is the
    prefix every discovery thread receives. *)
Theorem subnet_argument_validation
    (prog arg : string) (rest : list string)
    (init_sdl load_media thread_ok : bool) :
  (Startup.valid_subnet_arg arg = true <-> well_formed_subnet arg)
  /\ (~ well_formed_subnet arg ->
      exists text code,
        Startup.main (prog :: arg :: rest) init_sdl load_media thread_ok
          = ([Startup.Printf text], Startup.Exited code)
        /\ code <> 0
        /\ existsb Startup.starts_networking [Startup.Printf text] = false)
  /\ (well_formed_subnet arg ->
      (exists calls out,
         Startup.main (prog :: arg :: rest) init_sdl load_media thread_ok
           = (Startup.Printf ("Using user-provided subnet: " ++ arg) :: calls,
              out)
         /\ (out = Startup.Running arg \/ out = Startup.Exited 1)
         /\ (init_sdl = true -> load_media = true -> thread_ok = true ->
             out = Startup.Running arg))
      /\ forall P : Platform,
           detect_subnet P arg = arg
           /\ forall wk, In wk (spawn_workers P (detect_subnet P arg)) ->
                         w_subnet wk = arg).
Proof.
  split; [apply valid_subnet_arg_spec|]. split.
  - intros Hbad. unfold Startup.main.
    destruct (Startup.valid_subnet_arg arg) eqn:E.
    + apply valid_subnet_arg_spec in E. contradiction.
    + eexists. exists 1. split; [reflexivity|]. split; [lia | reflexivity].
  - intros Hok. pose proof Hok as (Hpos & Hlen & _).
    assert (Hcopy : strncpy 15 arg = arg) by (apply strncpy_short; lia).
    split.
    + unfold Startup.main.
      apply valid_subnet_arg_spec in Hok. rewrite Hok, Hcopy.
      destruct init_sdl, load_media, thread_ok; simpl;
        eexists; eexists; (split; [reflexivity|]); split;
        solve [ now left | now right | congruence | reflexivity ].
    + intros P. rewrite (detect_subnet_given P arg Hpos).
      split; [reflexivity|].
      intros wk Hwk. rewrite (spawn_workers_subnet P arg wk Hwk).
      apply strncpy_short. lia.
Qed.

(** The argument ["abc"] is refused; ["192.168.1."] is taken as it is. *)
Lemma subnet_argument_validation_witness :
  (exists text code,
     Startup.main ["netmonitor"; "abc"] true true true
       = ([Startup.Printf text], Startup.Exited code)
     /\ code <> 0
     /\ existsb Startup.starts_networking [Startup.Printf text] = false)
  /\ detect_subnet silent_platform "192.168.1." = "192.168.1.".
Proof.
  split.
  - apply (proj1 (proj2 (subnet_argument_validation
                           "netmonitor" "abc" [] true true true))).
    intros (_ & _ & H). discriminate H.
  - apply (proj2 (proj2 (subnet_argument_validation
                           "netmonitor" "192.168.1." [] true true true))).
    repeat split; simpl; lia.
Defined.

(* ================================================================= *)
(** ** Discoverer: the candidate address *)

Lemma host_range_forall (test : Z -> bool) :
  forallb test (map Z.of_nat (seq 1 254)) = true ->
  forall i, START_HOST <= i <= END_HOST -> test i = true.
Proof.
  intros H i Hi. rewrite forallb_forall in H. apply H.
  apply in_map_iff. exists (Z.to_nat i). unfold START_HOST, END_HOST in Hi.
  split; [lia | apply in_seq; lia].
Qed.

Lemma decimal_digits_host (i : Z) :
  START_HOST <= i <= END_HOST ->
  decimal_digits i = if i <? 10 then 1%nat else if i <? 100 then 2%nat else 3%nat.
Proof.
  intros Hi. apply Nat.eqb_eq.
  revert i Hi.
  apply (host_range_forall
           (fun i => Nat.eqb (decimal_digits i)
                       (if i <? 10 then 1%nat
                        else if i <? 100 then 2%nat else 3%nat))).
  vm_compute. reflexivity.
Qed.

Lemma format_s_d_length (prefix : string) (i : Z) :
  String.length (format_s_d prefix i)
  = (String.length prefix + decimal_digits i)%nat.
Proof. unfold format_s_d, decimal_digits. apply string_length_app. Qed.

Lemma candidate_ip_length (prefix : string) (i : Z) :
  (String.length (candidate_ip prefix i) <= 15)%nat.
Proof.
  unfold candidate_ip, snprintf_s_d. rewrite substring_0_length.
  cbn [Nat.pred]. lia.
Qed.

Lemma candidate_ip_exact_iff (prefix : string) (i : Z) :
  candidate_ip prefix i = format_s_d prefix i
  <-> (String.length prefix + decimal_digits i <= 15)%nat.
Proof.
  rewrite <- format_s_d_length. split.
  - intros <-. apply candidate_ip_length.
  - intros H. unfold candidate_ip, snprintf_s_d. now apply substring_0_short.
Qed.

Lemma candidate_ip_collision (prefix : string) :
  (13 <= String.length prefix <= 15)%nat ->
  candidate_ip prefix 100 = candidate_ip prefix 101.
Proof.
  intros H. unfold candidate_ip, snprintf_s_d, format_s_d.
  cbn [Nat.pred].
  rewrite !substring_0_app by lia.
  f_equal.
  assert (Hk : (15 - String.length prefix = 0 \/ 15 - String.length prefix = 1
                \/ 15 - String.length prefix = 2)%nat) by lia.
  destruct Hk as [-> | [-> | ->]]; reflexivity.
Qed.

(** C10, as the code has it.  A discovery thread probes the first 15
    characters of the prefix followed by the decimal host number.  For a
    host number of 1..254 (one, two or three digits) this is the whole
    text exactly when prefix and digits together have at most 15
    characters: always for a prefix of at most 12 characters, and for
    longer prefixes still for the host numbers with few enough digits.
    When the text is longer it is cut, so that for a prefix of 13 to 15
    characters the host numbers 100 and 101 give the same address, and the
    whole text of such a host number is the address of no host number. *)
Theorem candidate_ip_truncation (prefix : string) (i : Z) :
  START_HOST <= i <= END_HOST ->
  candidate_ip prefix i = substring 0 15 (format_s_d prefix i)
  /\ decimal_digits i
     = (if i <? 10 then 1%nat else if i <? 100 then 2%nat else 3%nat)
  /\ (candidate_ip prefix i = format_s_d prefix i
      <-> (String.length prefix + decimal_digits i <= 15)%nat)
  /\ ((String.length prefix <= 12)%nat ->
      candidate_ip prefix i = format_s_d prefix i)
  /\ ((13 <= String.length prefix <= 15)%nat ->
      candidate_ip prefix 100 = candidate_ip prefix 101)
  /\ ((15 < String.length prefix + decimal_digits i)%nat ->
      forall j, candidate_ip prefix j <> format_s_d prefix i).
Proof.
  intros Hi. pose proof (decimal_digits_host i Hi) as Hd.
  split; [reflexivity|]. split; [exact Hd|].
  split; [apply candidate_ip_exact_iff|]. split; [|split].
  - intros Hlen. apply candidate_ip_exact_iff. rewrite Hd.
    destruct (i <? 10); [lia|]. destruct (i <? 100); lia.
  - apply candidate_ip_collision.
  - intros Hlong j Heq.
    pose proof (candidate_ip_length prefix j) as Hj.
    rewrite Heq, format_s_d_length in Hj. lia.
Qed.

(** With the 12-character prefix ["192.168.100."] host 254 is probed as
    ["192.168.100.254"]. *)
Lemma candidate_ip_truncation_witness :
  candidate_ip "192.168.100." 254 = "192.168.100.254".
Proof.
  pose proof (candidate_ip_truncation "192.168.100." 254) as H.
  destruct H as (_ & _ & _ & Hshort & _).
  - unfold START_HOST, END_HOST. lia.
  - rewrite Hshort; [reflexivity | simpl; lia].
Defined.

(** C10, as stated, fails: the 13-character prefix ["10.100.100.1."] passes
    the check of [main], and host number 5 is probed under its whole
    address ["10.100.100.1.5"]; nothing is cut. *)
Lemma candidate_ip_long_prefix_not_cut :
  Startup.valid_subnet_arg "10.100.100.1." = true
  /\ String.length "10.100.100.1." = 13%nat
  /\ candidate_ip "10.100.100.1." 5 = "10.100.100.1.5"
  /\ format_s_d "10.100.100.1." 5 = "10.100.100.1.5"
  /\ ~ (forall prefix i,
          (13 <= String.length prefix <= 15)%nat ->
          START_HOST <= i <= END_HOST ->
          candidate_ip prefix i <> format_s_d prefix i).
Proof.
  repeat split; try reflexivity.
  intros H. apply (H "10.100.100.1." 5).
  - simpl. lia.
  - unfold START_HOST, END_HOST. lia.
  - reflexivity.
Qed.

(* ================================================================= *)
(** ** HostRegistry *)

Lemma ip_known_In (hs : list MonitoredHost) (ip0 : string) :
  ip_known hs ip0 = true <-> In ip0 (ips hs).
Proof.
  unfold ip_known, ips. rewrite existsb_exists, in_map_iff.
  split; intros (h & H1 & H2).
  - exists h. apply String.eqb_eq in H2. now split.
  - exists h. split; [exact H2|]. now apply String.eqb_eq.
Qed.

Lemma ip_known_not_In (hs : list MonitoredHost) (ip0 : string) :
  ip_known hs ip0 = false <-> ~ In ip0 (ips hs).
Proof.
  rewrite <- ip_known_In. destruct (ip_known hs ip0); split; congruence.
Qed.

Lemma add_host_known (P : Platform) (r : Registry) (ip0 : string)
    (o : option string) :
  In ip0 (ips (discovered_hosts r)) -> add_host_to_list P r ip0 o = r.
Proof.
  intros H. apply ip_known_In in H. unfold add_host_to_list. now rewrite H.
Qed.

Lemma add_host_new (P : Platform) (r : Registry) (ip0 : string)
    (o : option string) :
  ~ In ip0 (ips (discovered_hosts r)) ->
  discovered_hosts (add_host_to_list P r ip0 o)
  = (discovered_hosts r
       ++ [ {| ip := strncpy 15 ip0;
               hostname := resolve_hostname P (List.length (discovered_hosts r))
                                            ip0 o;
               status := STATUS_UP;
               consecutive_failures := 0;
               flash_timer := 1%Q |} ])%list.
Proof.
  intros H. apply ip_known_not_In in H. unfold add_host_to_list.
  now rewrite H.
Qed.

(** What one call of [add_host_to_list] leaves of an invariant that holds
    of the registry and of every new entry. *)
Lemma add_host_cases (P : Platform) (r : Registry) (ip0 : string)
    (o : option string) :
  add_host_to_list P r ip0 o = r
  \/ (~ In ip0 (ips (discovered_hosts r))
      /\ exists name,
           discovered_hosts (add_host_to_list P r ip0 o)
           = (discovered_hosts r
                ++ [ {| ip := strncpy 15 ip0; hostname := name;
                        status := STATUS_UP; consecutive_failures := 0;
                        flash_timer := 1%Q |} ])%list).
Proof.
  destruct (ip_known (discovered_hosts r) ip0) eqn:E.
  - left. apply add_host_known. now apply ip_known_In.
  - right. apply ip_known_not_In in E. split; [exact E|].
    eexists. now apply add_host_new.
Qed.

Lemma add_host_nodup (P : Platform) (r : Registry) (ip0 : string)
    (o : option string) :
  (String.length ip0 <= 15)%nat ->
  NoDup (ips (discovered_hosts r)) ->
  NoDup (ips (discovered_hosts (add_host_to_list P r ip0 o))).
Proof.
  intros Hlen Hnd.
  destruct (add_host_cases P r ip0 o) as [-> | (Hnew & name & ->)];
    [exact Hnd|].
  unfold ips. rewrite map_app. simpl.
  rewrite strncpy_short by exact Hlen.
  apply (Permutation_NoDup (Permutation_cons_append _ _)).
  constructor; assumption.
Qed.

(** An invariant of the registry that every insertion by a discovery
    thread keeps holds throughout discovery. *)
Section DiscoveryInvariant.
Variable P : Platform.
Variable I : Registry -> Prop.
Hypothesis I_add : forall r ip0,
  (String.length ip0 <= 15)%nat -> I r -> I (add_host_to_list P r ip0 None).

Lemma discovery_worker_body_inv (s : string) (i : Z) (st : NetState P) :
  I (fst st) -> I (fst (discovery_worker_body P s i st)).
Proof.
  intros H. unfold discovery_worker_body.
  destruct (probe_ports P (snd st) (candidate_ip s i) COMMON_PORTS)
    as [found w'].
  destruct found; simpl; [|exact H].
  apply I_add; [apply candidate_ip_length | exact H].
Qed.

Lemma discovery_worker_inv (s : string) (pending : list Z) :
  forall st, I (fst st) -> I (fst (discovery_worker P s pending st)).
Proof.
  induction pending as [|i rest IH]; intros st H; simpl; [exact H|].
  destruct (app_is_running P (snd st)); [|exact H].
  apply IH. now apply discovery_worker_body_inv.
Qed.

Lemma worker_step_inv (wk : Worker) (st : NetState P) :
  I (fst st) -> I (fst (snd (worker_step P wk st))).
Proof.
  intros H. unfold worker_step.
  destruct (w_pending wk) as [|i rest]; [exact H|].
  destruct (app_is_running P (snd st)); simpl; [|exact H].
  now apply discovery_worker_body_inv.
Qed.

Lemma step_thread_inv (k : nat) (ws : list Worker) :
  forall st, I (fst st) -> I (fst (snd (step_thread P k ws st))).
Proof.
  revert k; induction ws as [|wk rest IH]; intros k st H;
    [destruct k; exact H|].
  destruct k as [|k]; simpl.
  - pose proof (worker_step_inv wk st H) as H'.
    destruct (worker_step P wk st) as [wk' st']. exact H'.
  - pose proof (IH k st H) as H'.
    destruct (step_thread P k rest st) as [rest' st']. exact H'.
Qed.

Lemma run_schedule_inv (sched : list nat) :
  forall ws st, I (fst st) -> I (fst (snd (run_schedule P sched ws st))).
Proof.
  induction sched as [|k sched IH]; intros ws st H; simpl; [exact H|].
  pose proof (step_thread_inv k ws st H) as H'.
  destruct (step_thread P k ws st) as [ws' st']. now apply IH.
Qed.

Lemma join_all_inv (ws : list Worker) :
  forall st, I (fst st) -> I (fst (join_all P ws st)).
Proof.
  unfold join_all. induction ws as [|wk rest IH]; intros st H; simpl;
    [exact H|].
  apply IH. now apply discovery_worker_inv.
Qed.

Lemma discovery_workers_inv (s : string) (sched : list nat) (w : world P) :
  I empty_registry -> I (fst (discovery_workers P s sched w)).
Proof.
  intros H0. unfold discovery_workers.
  pose proof (run_schedule_inv sched (spawn_workers P (detect_subnet P s))
                (empty_registry, w) H0) as H.
  destruct (run_schedule P sched (spawn_workers P (detect_subnet P s))
              (empty_registry, w)) as [ws st].
  now apply join_all_inv.
Qed.

End DiscoveryInvariant.

(* ================================================================= *)
(** ** [qsort] rearranges; the sweeps leave identities alone *)

Lemma qsort_insert_perm {A : Type} (compar : nat -> A -> A -> Z) (x : A)
    (l : list A) :
  forall n, Permutation (fst (qsort_insert compar n x l)) (x :: l).
Proof.
  induction l as [|y t IH]; intros n; cbn [qsort_insert]; [reflexivity|].
  destruct (compar n x y <=? 0); cbn [fst]; [reflexivity|].
  rewrite IH. apply perm_swap.
Qed.

Lemma qsort_perm {A : Type} (compar : nat -> A -> A -> Z) (l : list A) :
  forall n, Permutation (fst (qsort compar n l)) l.
Proof.
  induction l as [|x t IH]; intros n; cbn [qsort]; [reflexivity|].
  rewrite qsort_insert_perm. constructor. apply IH.
Qed.

Lemma sort_registry_perm (P : Platform) (r : Registry) :
  Permutation (discovered_hosts (sort_registry P r)) (discovered_hosts r).
Proof. apply qsort_perm. Qed.

Lemma monitor_update_ip (online : bool) (h : MonitoredHost) :
  ip (fst (monitor_update online h)) = ip h.
Proof.
  unfold monitor_update. destruct online; [reflexivity|].
  destruct (int_wrap (consecutive_failures h + 1) >=? PING_FAIL_THRESHOLD);
    reflexivity.
Qed.

Lemma monitor_update_hostname (online : bool) (h : MonitoredHost) :
  hostname (fst (monitor_update online h)) = hostname h.
Proof.
  unfold monitor_update. destruct online; [reflexivity|].
  destruct (int_wrap (consecutive_failures h + 1) >=? PING_FAIL_THRESHOLD);
    reflexivity.
Qed.

(** The sweep, one entry at a time. *)
Lemma monitor_sweep_cons (P : Platform) (h : MonitoredHost)
    (rest : list MonitoredHost) (w : world P) :
  monitor_sweep P (h :: rest) w
  = let pr := probe_ports P w (ip h) COMMON_PORTS in
    let up := monitor_update (fst pr) h in
    let r := monitor_sweep P rest (snd pr) in
    (fst up :: fst (fst r), (fst pr, snd up) :: snd (fst r), snd r).
Proof.
  cbn [monitor_sweep].
  destruct (probe_ports P w (ip h) COMMON_PORTS) as [online w1].
  cbn [fst snd].
  destruct (monitor_update online h) as [h' alert].
  destruct (monitor_sweep P rest w1) as [[rest' log] w2]. reflexivity.
Qed.

Lemma monitor_sweep_ips (P : Platform) (hs : list MonitoredHost) :
  forall w, ips (fst (fst (monitor_sweep P hs w))) = ips hs.
Proof.
  induction hs as [|h rest IH]; intros w; [reflexivity|].
  rewrite monitor_sweep_cons. cbn [fst snd ips map].
  rewrite monitor_update_ip. f_equal. apply IH.
Qed.

Lemma monitor_sweep_hostnames (P : Platform) (hs : list MonitoredHost) :
  forall w, map hostname (fst (fst (monitor_sweep P hs w))) = map hostname hs.
Proof.
  induction hs as [|h rest IH]; intros w; [reflexivity|].
  rewrite monitor_sweep_cons. cbn [fst snd map].
  rewrite monitor_update_hostname. f_equal. apply IH.
Qed.

(** The loop, one sweep at a time. *)
Lemma monitor_loop_step (P : Platform) (fuel : nat) (hs : list MonitoredHost)
    (w : world P) :
  monitor_loop P (S fuel) hs w
  = if app_is_running P w then
      let s := monitor_sweep P hs w in
      let r := monitor_loop P fuel (fst (fst s)) (snd s) in
      ((fst (fst s), snd (fst s)) :: fst r, snd r)
    else ([], w).
Proof.
  cbn [monitor_loop]. destruct (app_is_running P w); [|reflexivity].
  destruct (monitor_sweep P hs w) as [[hs1 log] w1]. cbn [fst snd].
  destruct (monitor_loop P fuel hs1 w1) as [trace w2]. reflexivity.
Qed.

Lemma monitor_loop_ips (P : Platform) (fuel : nat) :
  forall hs w rec,
    In rec (fst (monitor_loop P fuel hs w)) -> ips (fst rec) = ips hs.
Proof.
  induction fuel as [|fuel IH]; intros hs w rec Hin; [contradiction|].
  rewrite monitor_loop_step in Hin.
  destruct (app_is_running P w); [|contradiction].
  cbn [fst snd] in Hin. destruct Hin as [<- | Hin].
  - apply monitor_sweep_ips.
  - rewrite (IH _ _ _ Hin). apply monitor_sweep_ips.
Qed.

Lemma discovery_nodup (P : Platform) (s : string) (sched : list nat)
    (w : world P) :
  NoDup (ips (discovered_hosts (fst (discovery_phase P s sched w)))).
Proof.
  unfold discovery_phase. cbn [fst].
  apply (Permutation_NoDup
           (Permutation_map ip (Permutation_sym (sort_registry_perm P _)))).
  apply add_host_nodup; [simpl; lia|].
  apply (discovery_workers_inv P
           (fun r => NoDup (ips (discovered_hosts r)))).
  - intros r ip0 Hlen Hr. now apply add_host_nodup.
  - constructor.
Qed.

(** C6. Calling [add_host_to_list] with an address that an entry already
    carries returns the registry as it was, whatever the override: same
    entries, same fields, same capacity.  As a result the addresses of the
    registry are pairwise different at every point of the network thread:
    while the discovery threads run (under any schedule), when discovery is
    complete, and after every monitoring sweep. *)
Theorem add_existing_ip_is_noop (P : Platform) :
  (forall (r : Registry) (ip0 : string) (hostname_override : option string),
      In ip0 (ips (discovered_hosts r)) ->
      add_host_to_list P r ip0 hostname_override = r)
  /\ (forall (active_subnet : string) (sched : list nat) (w : world P),
        NoDup (ips (discovered_hosts
                      (fst (snd (run_schedule P sched
                                   (spawn_workers P (detect_subnet P active_subnet))
                                   (empty_registry, w)))))))
  /\ (forall (active_subnet : string) (sched : list nat) (fuel : nat)
             (w : world P),
        NoDup (ips (fst (network_thread_main P active_subnet sched fuel w)))
        /\ forall rec,
             In rec (snd (network_thread_main P active_subnet sched fuel w)) ->
             NoDup (ips (fst rec))).
Proof.
  split; [|split].
  - intros r ip0 o H. now apply add_host_known.
  - intros s sched w.
    apply (run_schedule_inv P (fun r => NoDup (ips (discovered_hosts r)))).
    + intros r ip0 Hlen Hr. now apply add_host_nodup.
    + constructor.
  - intros s sched fuel w. unfold network_thread_main. cbn [fst snd].
    split; [apply discovery_nodup|].
    intros rec Hin. rewrite (monitor_loop_ips P fuel _ _ rec Hin).
    apply discovery_nodup.
Qed.

(** Adding ["10.0.0.5"] a second time, now with an override, changes
    nothing. *)
Lemma add_existing_ip_is_noop_witness :
  let r := add_host_to_list silent_platform empty_registry "10.0.0.5" None in
  add_host_to_list silent_platform r "10.0.0.5" (Some "printer") = r.
Proof.
  apply (proj1 (add_existing_ip_is_noop silent_platform)).
  simpl. left. reflexivity.
Defined.

(** C7.  For an address that no entry carries, [add_host_to_list]
    appends exactly one entry: status [STATUS_UP], no failures,
    [flash_timer] set to 1.  Its hostname is the override, verbatim, when
    one is given that fits the 256-byte field with its terminator (fewer
    than 255 characters, which [strncpy(..., 255)] copies together with a
    terminator); without an override it is the name [getnameinfo] finds,
    or ["N/A"] when [getnameinfo] fails.  Behind an override of 255
    characters or more [strncpy] stores no terminator: what is read back
    is its first 255 characters and whatever the memory behind them
    holds.  The address is stored as given when it fits [char ip[16]]. *)
Theorem add_new_ip_appends_entry (P : Platform) (r : Registry) (ip0 : string)
    (hostname_override : option string) :
  ~ In ip0 (ips (discovered_hosts r)) ->
  exists h,
    discovered_hosts (add_host_to_list P r ip0 hostname_override)
      = (discovered_hosts r ++ [h])%list
    /\ status h = STATUS_UP
    /\ consecutive_failures h = 0
    /\ flash_timer h = 1%Q
    /\ ip h = strncpy 15 ip0
    /\ ((String.length ip0 <= 15)%nat -> ip h = ip0)
    /\ (forall o, hostname_override = Some o ->
                  (String.length o < 255)%nat -> hostname h = o)
    /\ (hostname_override = None ->
        hostname h = match getnameinfo P ip0 with
                     | Some name => name
                     | None => "N/A"
                     end)
    /\ (forall o, hostname_override = Some o ->
                  (255 <= String.length o)%nat ->
                  hostname h
                  = substring 0 255 o
                      ++ unterminated P (List.length (discovered_hosts r))).
Proof.
  intros Hnew. eexists. split; [now apply add_host_new|].
  cbn [status consecutive_failures flash_timer ip hostname].
  repeat split; try reflexivity.
  - intros Hlen. now apply strncpy_short.
  - intros o -> Hlen. cbn [resolve_hostname].
    apply Nat.ltb_lt in Hlen. rewrite Hlen. apply strncpy_short.
    apply Nat.ltb_lt in Hlen. lia.
  - intros ->. reflexivity.
  - intros o -> Hlen. cbn [resolve_hostname].
    apply Nat.ltb_ge in Hlen. now rewrite Hlen.
Qed.

(** The sentinel, added to an empty registry: the one call in [main.c]
    that passes an override. *)
Lemma add_new_ip_appends_entry_witness :
  exists h,
    discovered_hosts
      (add_host_to_list silent_platform empty_registry INTERNET_CHECK_IP
         (Some "INTERNET"))
      = [h]
    /\ status h = STATUS_UP
    /\ consecutive_failures h = 0
    /\ ip h = "8.8.8.8"
    /\ hostname h = "INTERNET".
Proof.
  destruct (add_new_ip_appends_entry silent_platform empty_registry
              INTERNET_CHECK_IP (Some "INTERNET"))
    as (h & Hh & Hs & Hf & _ & _ & Hip & Hname & _).
  - simpl. tauto.
  - exists h. repeat split; try assumption.
    + apply Hip. simpl. lia.
    + apply (Hname "INTERNET" eq_refl). simpl. lia.
Defined.

(* ================================================================= *)
(** ** Monitor: one sweep *)

Lemma probe_ports_made (P : Platform) (ip0 : string) (ports : list Z) :
  forall w, fst (probe_ports P w ip0 ports)
            = existsb (fun ok => ok) (probes_made P w ip0 ports).
Proof.
  induction ports as [|p ps IH]; intros w; [reflexivity|].
  cbn [probe_ports probes_made].
  destruct (check_port P w ip0 p) as [ok w'].
  destruct ok; [reflexivity|]. cbn [existsb orb]. apply IH.
Qed.

Lemma probe_ports_all_failed (P : Platform) (ip0 : string) (ports : list Z) :
  forall w, fst (probe_ports P w ip0 ports) = false ->
            probes_made P w ip0 ports = repeat false (List.length ports).
Proof.
  induction ports as [|p ps IH]; intros w H; [reflexivity|].
  cbn [probe_ports probes_made] in *.
  destruct (check_port P w ip0 p) as [ok w'].
  destruct ok; [discriminate H|]. cbn [List.length repeat].
  f_equal. now apply IH.
Qed.

Lemma int_wrap_in_range (z : Z) : INT_MIN <= z <= INT_MAX -> int_wrap z = z.
Proof.
  unfold int_wrap, INT_MIN, INT_MAX. intros H.
  rewrite Z.mod_small; lia.
Qed.

Lemma int_wrap_succ (z : Z) : int_wrap (int_wrap z + 1) = int_wrap (z + 1).
Proof.
  unfold int_wrap.
  replace ((z + 2 ^ 31) mod 2 ^ 32 - 2 ^ 31 + 1 + 2 ^ 31)
    with ((z + 2 ^ 31) mod 2 ^ 32 + 1) by lia.
  rewrite Z.add_mod_idemp_l by lia.
  f_equal. f_equal. lia.
Qed.

Lemma monitor_update_online (h : MonitoredHost) :
  status (fst (monitor_update true h)) = STATUS_UP
  /\ consecutive_failures (fst (monitor_update true h)) = 0
  /\ snd (monitor_update true h) = false.
Proof. repeat split. Qed.

Lemma monitor_update_offline (h : MonitoredHost) :
  let h' := fst (monitor_update false h) in
  consecutive_failures h' = int_wrap (consecutive_failures h + 1)
  /\ status h' = (if PING_FAIL_THRESHOLD <=? consecutive_failures h'
                  then STATUS_DOWN else STATUS_UNSTABLE)
  /\ snd (monitor_update false h) = enters_down (status h) (status h').
Proof.
  unfold monitor_update, enters_down. cbv zeta.
  rewrite Z.geb_leb.
  destruct (PING_FAIL_THRESHOLD <=? int_wrap (consecutive_failures h + 1)) eqn:E;
    cbn [fst snd status consecutive_failures]; rewrite E; repeat split.
  - cbn [HostStatus_eqb]. now rewrite andb_true_r.
  - cbn [HostStatus_eqb]. now rewrite andb_false_r.
Qed.

Lemma monitor_update_alert (online : bool) (h : MonitoredHost) :
  snd (monitor_update online h)
  = enters_down (status h) (status (fst (monitor_update online h))).
Proof.
  destruct online.
  - destruct (status h) eqn:E; unfold monitor_update, enters_down;
      cbn [fst snd status]; rewrite ?E; reflexivity.
  - apply monitor_update_offline.
Qed.

Lemma monitor_sweep_nth (P : Platform) (hs : list MonitoredHost) :
  forall (w : world P) (i : nat) (h : MonitoredHost),
    nth_error hs i = Some h ->
    exists w_i : world P,
      let online := fst (probe_ports P w_i (ip h) COMMON_PORTS) in
      nth_error (fst (fst (monitor_sweep P hs w))) i
        = Some (fst (monitor_update online h))
      /\ nth_error (snd (fst (monitor_sweep P hs w))) i
        = Some (online, snd (monitor_update online h)).
Proof.
  induction hs as [|h0 rest IH]; intros w i h Hi.
  - destruct i; discriminate Hi.
  - rewrite monitor_sweep_cons. cbv zeta. cbn [fst snd].
    destruct i as [|i].
    + injection Hi as ->. exists w. split; reflexivity.
    + cbn [nth_error] in *. apply (IH _ _ _ Hi).
Qed.

(** C1. In a monitoring sweep every entry of the registry is probed and
    rewritten.  If one of the probes of its ports succeeds, the entry
    gets [STATUS_UP] and a failure count of 0, whatever its status was
    (also from [STATUS_DOWN]).  If all eight probes fail, the failure count
    is incremented (as an [int]: by one, unless it was [INT_MAX]), and the
    status is [STATUS_DOWN] when the new count is at least 3 and
    [STATUS_UNSTABLE] otherwise.  Address and hostname stay. *)
Theorem monitor_sweep_updates_every_host (P : Platform)
    (hs : list MonitoredHost) (w : world P) (i : nat) (h : MonitoredHost) :
  nth_error hs i = Some h ->
  exists (w_i : world P) (h' : MonitoredHost) (alert : bool),
    let probes := probes_made P w_i (ip h) COMMON_PORTS in
    let is_online := existsb (fun ok => ok) probes in
    nth_error (fst (fst (monitor_sweep P hs w))) i = Some h'
    /\ nth_error (snd (fst (monitor_sweep P hs w))) i = Some (is_online, alert)
    /\ ip h' = ip h /\ hostname h' = hostname h
    /\ (is_online = true ->
        status h' = STATUS_UP /\ consecutive_failures h' = 0)
    /\ (is_online = false ->
        probes = repeat false (List.length COMMON_PORTS)
        /\ consecutive_failures h' = int_wrap (consecutive_failures h + 1)
        /\ (INT_MIN <= consecutive_failures h < INT_MAX ->
            consecutive_failures h' = consecutive_failures h + 1)
        /\ status h' = (if PING_FAIL_THRESHOLD <=? consecutive_failures h'
                        then STATUS_DOWN else STATUS_UNSTABLE)).
Proof.
  intros Hi. destruct (monitor_sweep_nth P hs w i h Hi) as (w_i & H1 & H2).
  cbv zeta in H1, H2. rewrite probe_ports_made in H1, H2.
  exists w_i. eexists. eexists. cbv zeta.
  split; [exact H1|]. split; [exact H2|].
  split; [apply monitor_update_ip|]. split; [apply monitor_update_hostname|].
  split.
  - intros ->. split; reflexivity.
  - intros Hoff. rewrite Hoff.
    destruct (monitor_update_offline h) as (Hcf & Hst & _). cbv zeta in Hcf, Hst.
    split; [|split; [exact Hcf|split; [|exact Hst]]].
    + apply probe_ports_all_failed. now rewrite probe_ports_made.
    + intros Hr. rewrite Hcf. apply int_wrap_in_range.
      unfold INT_MIN, INT_MAX in *. lia.
Qed.

(** A host that is [STATUS_DOWN] with 7 failures answers on its second
    port: the sweep sets it to [STATUS_UP] with 0 failures. *)
Lemma monitor_sweep_updates_every_host_witness :
  exists h',
    nth_error
      (fst (fst (monitor_sweep scripted_platform
                   [example_host "10.0.0.5" "nas" STATUS_DOWN 7]
                   [false; true]))) 0
      = Some h'
    /\ status h' = STATUS_UP /\ consecutive_failures h' = 0.
Proof.
  destruct (monitor_sweep_updates_every_host scripted_platform
              [example_host "10.0.0.5" "nas" STATUS_DOWN 7]
              [false; true] 0 (example_host "10.0.0.5" "nas" STATUS_DOWN 7)
              eq_refl)
    as (w_i & h' & alert & H1 & _ & _ & _ & _ & _).
  exists h'. split; [exact H1|].
  vm_compute in H1. injection H1 as <-. split; reflexivity.
Defined.

(* ================================================================= *)
(** ** Monitor: series of sweeps *)

Lemma last_cons_default {A : Type} (a d : A) (l : list A) :
  last (a :: l) d = last l a.
Proof.
  revert a d; induction l as [|b l IH]; intros a d; [reflexivity|].
  change (last (a :: b :: l) d) with (last (b :: l) d).
  rewrite IH. symmetry. apply IH.
Qed.

Lemma final_hosts_cons (hs : list MonitoredHost)
    (rec : list MonitoredHost * list (bool * bool))
    (trace : list (list MonitoredHost * list (bool * bool))) :
  final_hosts hs (rec :: trace) = final_hosts (fst rec) trace.
Proof. unfold final_hosts. cbn [map]. apply last_cons_default. Qed.

(** Every entry runs through the sweeps of [monitor_loop] on its own, and
    its column has one row for each sweep. *)
Lemma monitor_loop_host_run (P : Platform) (fuel : nat) :
  forall (hs : list MonitoredHost) (w : world P) (i : nat) (h : MonitoredHost),
    nth_error hs i = Some h ->
    exists h',
      nth_error (final_hosts hs (fst (monitor_loop P fuel hs w))) i = Some h'
      /\ host_run h (host_column i (fst (monitor_loop P fuel hs w))) h'
      /\ List.length (host_column i (fst (monitor_loop P fuel hs w)))
         = List.length (fst (monitor_loop P fuel hs w)).
Proof.
  induction fuel as [|fuel IH]; intros hs w i h Hi.
  - exists h. split; [exact Hi | split; [constructor | reflexivity]].
  - rewrite monitor_loop_step.
    destruct (app_is_running P w).
    + cbv zeta. cbn [fst snd].
      destruct (monitor_sweep_nth P hs w i h Hi) as (w_i & H1 & H2).
      cbv zeta in H1, H2.
      destruct (IH _ (snd (monitor_sweep P hs w)) i _ H1)
        as (h' & Hf & Hrun & Hlen).
      exists h'. rewrite final_hosts_cons. cbn [fst].
      split; [exact Hf|].
      unfold host_column in *. cbn [flat_map fst snd]. rewrite H1, H2.
      cbn [app List.length]. split; [|now rewrite Hlen].
      constructor. exact Hrun.
    + exists h. split; [exact Hi | split; [constructor | reflexivity]].
Qed.

Lemma host_run_alerts (h h' : MonitoredHost)
    (col : list (HostStatus * bool * bool)) :
  host_run h col h' ->
  map col_alert col
  = map (fun p => enters_down (fst p) (snd p))
        (combine (statuses_before (status h) (map col_status col))
                 (map col_status col)).
Proof.
  induction 1 as [h | h online col h' Hrun IH]; [reflexivity|].
  cbn [map statuses_before combine col_alert col_status fst snd].
  f_equal; [apply monitor_update_alert | exact IH].
Qed.

Lemma host_run_alert_count (h h' : MonitoredHost)
    (col : list (HostStatus * bool * bool)) :
  host_run h col h' ->
  count_occ bool_dec (map col_alert col) true
  = down_runs (status h) (map col_status col).
Proof.
  induction 1 as [h | h online col h' Hrun IH]; [reflexivity|].
  cbn [map down_runs col_alert col_status fst snd].
  rewrite <- IH, monitor_update_alert.
  destruct (enters_down (status h) (status (fst (monitor_update online h))));
    reflexivity.
Qed.

Lemma statuses_before_combine_nth (l : list HostStatus) :
  forall (k : nat) (s0 s a : HostStatus),
    nth_error (statuses_before s0 l) k = Some s ->
    nth_error l k = Some a ->
    nth_error (combine (statuses_before s0 l) l) k = Some (s, a).
Proof.
  induction l as [|b l IH]; intros k s0 s a Hs Ha.
  - destruct k; discriminate Ha.
  - destruct k as [|k]; cbn in *.
    + congruence.
    + now apply IH.
Qed.

(** C2. Along any series of sweeps and for any entry of the registry, the
    alert is played in a sweep exactly when that sweep takes the entry
    from a status other than [STATUS_DOWN] into [STATUS_DOWN]; in
    particular it is not played in a sweep that finds the entry already
    [STATUS_DOWN].  So the number of alerts equals the number of runs of
    [STATUS_DOWN] the entry enters: one alert per run, at its first
    sweep. *)
Theorem alert_once_per_down_run (P : Platform) (fuel : nat)
    (hs : list MonitoredHost) (w : world P) (i : nat) (h : MonitoredHost) :
  nth_error hs i = Some h ->
  let col := host_column i (fst (monitor_loop P fuel hs w)) in
  let after := map col_status col in
  let before := statuses_before (status h) after in
  List.length col = List.length (fst (monitor_loop P fuel hs w))
  /\ map col_alert col
    = map (fun p => enters_down (fst p) (snd p)) (combine before after)
  /\ (forall k e s, nth_error col k = Some e -> nth_error before k = Some s ->
        (col_alert e = true <-> s <> STATUS_DOWN /\ col_status e = STATUS_DOWN)
        /\ (s = STATUS_DOWN -> col_alert e = false))
  /\ count_occ bool_dec (map col_alert col) true
     = down_runs (status h) after.
Proof.
  intros Hi. cbv zeta.
  destruct (monitor_loop_host_run P fuel hs w i h Hi) as (h' & _ & Hrun & Hlen).
  pose proof (host_run_alerts _ _ _ Hrun) as Hal.
  split; [exact Hlen|].
  split; [exact Hal|]. split; [|now apply (host_run_alert_count h h')].
  intros k e s He Hs.
  assert (Hk : col_alert e = enters_down s (col_status e)).
  { pose proof (map_nth_error col_alert _ _ He) as Ha.
    rewrite Hal in Ha.
    pose proof (map_nth_error col_status _ _ He) as Hst.
    pose proof (statuses_before_combine_nth _ _ _ _ _ Hs Hst) as Hc.
    rewrite (map_nth_error _ _ _ Hc) in Ha. cbn [fst snd] in Ha. congruence. }
  rewrite Hk. unfold enters_down. rewrite andb_true_iff, negb_true_iff.
  rewrite HostStatus_eqb_eq. split.
  - split.
    + intros [H1 H2]. split; [|exact H2]. intros ->. discriminate H1.
    + intros [H1 H2]. split; [|exact H2].
      destruct s; try reflexivity. now elim H1.
  - intros ->. reflexivity.
Qed.

(** A host that never answers, over five sweeps: unstable twice, then
    down, with the one alert in the third sweep. *)
Lemma alert_once_per_down_run_witness :
  let col := host_column 0
               (fst (monitor_loop scripted_platform 5
                       [example_host "10.0.0.5" "nas" STATUS_UP 0] [])) in
  map col_status col
    = [STATUS_UNSTABLE; STATUS_UNSTABLE; STATUS_DOWN; STATUS_DOWN; STATUS_DOWN]
  /\ map col_alert col = [false; false; true; false; false]
  /\ count_occ bool_dec (map col_alert col) true = 1%nat.
Proof.
  cbv zeta.
  destruct (alert_once_per_down_run scripted_platform 5
              [example_host "10.0.0.5" "nas" STATUS_UP 0] [] 0
              (example_host "10.0.0.5" "nas" STATUS_UP 0) eq_refl)
    as (_ & Hal & _ & Hcount).
  split; [vm_compute; reflexivity|]. split.
  - rewrite Hal. vm_compute. reflexivity.
  - rewrite Hcount. vm_compute. reflexivity.
Defined.

(* ================================================================= *)
(** ** Monitor: the failure threshold *)

Lemma classify_down (n : nat) : classify n = STATUS_DOWN <-> (3 <= n)%nat.
Proof.
  destruct n as [|[|[|n]]]; cbn; split; intros H;
    try discriminate H; try lia; reflexivity.
Qed.

Lemma classify_unstable (n : nat) :
  classify n = STATUS_UNSTABLE <-> (1 <= n <= 2)%nat.
Proof.
  destruct n as [|[|[|n]]]; cbn; split; intros H;
    try discriminate H; try lia; reflexivity.
Qed.

Lemma classify_threshold (n : nat) :
  (if PING_FAIL_THRESHOLD <=? Z.of_nat (S n) then STATUS_DOWN
   else STATUS_UNSTABLE) = classify (S n).
Proof.
  unfold PING_FAIL_THRESHOLD.
  destruct (Z.leb_spec 3 (Z.of_nat (S n))); destruct n as [|[|n]];
    try reflexivity; lia.
Qed.

Lemma monitor_update_tracks (online : bool) (h : MonitoredHost) (n : nat) :
  tracks h n -> tracks (fst (monitor_update online h)) (count_failure n online).
Proof.
  intros Hh. destruct online; cbn [count_failure].
  - intros _. split; reflexivity.
  - intros Hn. unfold INT_MAX in *.
    destruct Hh as [Hcf Hst]; [unfold INT_MAX; lia|].
    destruct (monitor_update_offline h) as (Hcf' & Hst' & _).
    cbv zeta in Hcf', Hst'.
    assert (Hnew : consecutive_failures (fst (monitor_update false h))
                   = Z.of_nat (S n)).
    { rewrite Hcf', Hcf. rewrite int_wrap_in_range;
        unfold INT_MIN, INT_MAX; lia. }
    split; [exact Hnew|].
    rewrite Hst', Hnew. apply classify_threshold.
Qed.

Lemma host_run_tracks (h h' : MonitoredHost)
    (col : list (HostStatus * bool * bool)) :
  host_run h col h' ->
  forall n, tracks h n ->
            tracks h' (fold_left count_failure (map col_online col) n).
Proof.
  induction 1 as [h | h online col h' Hrun IH]; intros n Hn; [exact Hn|].
  cbn [map fold_left col_online fst snd].
  apply IH. now apply monitor_update_tracks.
Qed.

Lemma add_host_fresh (P : Platform) (r : Registry) (ip0 : string)
    (o : option string) :
  Forall fresh (discovered_hosts r) ->
  Forall fresh (discovered_hosts (add_host_to_list P r ip0 o)).
Proof.
  intros H.
  destruct (add_host_cases P r ip0 o) as [-> | (_ & name & ->)]; [exact H|].
  apply Forall_app. split; [exact H|].
  constructor; [split; reflexivity | constructor].
Qed.

Lemma discovery_fresh (P : Platform) (s : string) (sched : list nat)
    (w : world P) :
  Forall fresh (discovered_hosts (fst (discovery_phase P s sched w))).
Proof.
  unfold discovery_phase. cbn [fst].
  apply (Permutation_Forall (Permutation_sym (sort_registry_perm P _))).
  apply add_host_fresh.
  apply (discovery_workers_inv P (fun r => Forall fresh (discovered_hosts r))).
  - intros r ip0 _ Hr. now apply add_host_fresh.
  - constructor.
Qed.

(** Once discovery is complete every entry of the registry is
    [STATUS_UP] with no failure; none is [STATUS_SCANNING]. *)
Theorem discovery_leaves_hosts_up (P : Platform) (active_subnet : string)
    (sched : list nat) (w : world P) :
  Forall (fun h => status h = STATUS_UP /\ consecutive_failures h = 0
                   /\ status h <> STATUS_SCANNING)
         (discovered_hosts (fst (discovery_phase P active_subnet sched w))).
Proof.
  pose proof (discovery_fresh P active_subnet sched w) as H.
  revert H. apply Forall_impl. intros h [Hs Hc].
  repeat split; try assumption. rewrite Hs. discriminate.
Qed.

(** C3, as the code has it.  In every state the network thread reaches
    once discovery is complete, an entry is [STATUS_DOWN] exactly when at
    least 3 sweeps have failed for it since the last successful one (or
    since discovery), and [STATUS_UNSTABLE] exactly when 1 or 2 have,
    provided that number of failures fits the 32-bit failure counter. *)
Theorem status_follows_failure_count (P : Platform) (active_subnet : string)
    (sched : list nat) (fuel : nat) (w : world P) (i : nat)
    (h : MonitoredHost) :
  let run := network_thread_main P active_subnet sched fuel w in
  let failures :=
    trailing_failures (map col_online (host_column i (snd run))) in
  nth_error (fst run) i = Some h ->
  Z.of_nat failures <= INT_MAX ->
  exists h',
    nth_error (final_hosts (fst run) (snd run)) i = Some h'
    /\ List.length (host_column i (snd run)) = List.length (snd run)
    /\ consecutive_failures h' = Z.of_nat failures
    /\ (status h' = STATUS_DOWN <-> (3 <= failures)%nat)
    /\ (status h' = STATUS_UNSTABLE <-> (1 <= failures <= 2)%nat).
Proof.
  cbv zeta. unfold network_thread_main. cbn [fst snd].
  intros Hi Hfit.
  destruct (monitor_loop_host_run P fuel _ (snd (discovery_phase P active_subnet sched w))
              i h Hi) as (h' & Hf & Hrun & Hlen).
  exists h'. split; [exact Hf|]. split; [exact Hlen|].
  assert (Hfresh : fresh h).
  { pose proof (discovery_fresh P active_subnet sched w) as HF.
    rewrite Forall_forall in HF. apply HF. eapply nth_error_In. exact Hi. }
  destruct (host_run_tracks _ _ _ Hrun 0%nat) as [Hcf Hst].
  - intros _. destruct Hfresh as [Hs Hc]. split; [exact Hc | exact Hs].
  - exact Hfit.
  - split; [exact Hcf|]. fold (trailing_failures
        (map col_online (host_column i (fst (monitor_loop P fuel
           (discovered_hosts (fst (discovery_phase P active_subnet sched w)))
           (snd (discovery_phase P active_subnet sched w))))))) in Hst.
    rewrite Hst. split; [apply classify_down | apply classify_unstable].
Qed.

(** The sentinel on a network where nothing answers: after four sweeps it
    is [STATUS_DOWN]. *)
Lemma status_follows_failure_count_witness :
  let run := network_thread_main silent_platform "" [] 4 tt in
  exists h',
    nth_error (final_hosts (fst run) (snd run)) 0 = Some h'
    /\ status h' = STATUS_DOWN.
Proof.
  cbv zeta.
  destruct (status_follows_failure_count silent_platform "" [] 4 tt 0
              {| ip := "8.8.8.8"; hostname := "INTERNET"; status := STATUS_UP;
                 consecutive_failures := 0; flash_timer := 1%Q |})
    as (h' & Hf & _ & _ & Hdown & _).
  - vm_compute. reflexivity.
  - vm_compute. discriminate.
  - exists h'. split; [exact Hf|]. apply Hdown.
    apply Nat.leb_le. vm_compute. reflexivity.
Defined.

(** *** The counter wraps *)

Lemma int_wrap_add_l (a b : Z) : int_wrap (int_wrap a + b) = int_wrap (a + b).
Proof.
  unfold int_wrap.
  replace ((a + 2 ^ 31) mod 2 ^ 32 - 2 ^ 31 + b + 2 ^ 31)
    with ((a + 2 ^ 31) mod 2 ^ 32 + b) by lia.
  rewrite Z.add_mod_idemp_l by lia.
  f_equal. f_equal. lia.
Qed.

Lemma silent_probe (ip0 : string) (ports : list Z) (w : world silent_platform) :
  probe_ports silent_platform w ip0 ports = (false, tt).
Proof.
  revert w; induction ports as [|p ps IH]; intros []; [reflexivity|].
  cbn [probe_ports]. change (check_port silent_platform tt ip0 p) with (false, tt).
  apply IH.
Qed.

Lemma silent_sweep (h : MonitoredHost) :
  monitor_sweep silent_platform [h] tt
  = ([fst (monitor_update false h)], [(false, snd (monitor_update false h))], tt).
Proof.
  rewrite monitor_sweep_cons. cbv zeta. rewrite silent_probe. reflexivity.
Qed.

Lemma silent_loop_step (n : nat) (h : MonitoredHost) :
  fst (monitor_loop silent_platform (S n) [h] tt)
  = ([fst (monitor_update false h)], [(false, snd (monitor_update false h))])
      :: fst (monitor_loop silent_platform n [fst (monitor_update false h)] tt).
Proof.
  rewrite monitor_loop_step.
  change (app_is_running silent_platform tt) with true.
  cbv zeta. rewrite silent_sweep. reflexivity.
Qed.

Lemma silent_loop_outcomes (n : nat) :
  forall h,
    map col_online
        (host_column 0 (fst (monitor_loop silent_platform n [h] tt)))
    = repeat false n.
Proof.
  induction n as [|n IH]; intros h; [reflexivity|].
  rewrite silent_loop_step. unfold host_column in *.
  cbn [flat_map fst snd nth_error app map col_online repeat].
  f_equal. apply IH.
Qed.

Lemma silent_loop_final (n : nat) :
  forall h,
    exists h',
      nth_error (final_hosts [h] (fst (monitor_loop silent_platform n [h] tt))) 0
        = Some h'
      /\ ((0 < n)%nat ->
          consecutive_failures h'
          = int_wrap (consecutive_failures h + Z.of_nat n)
          /\ status h' = if PING_FAIL_THRESHOLD <=? consecutive_failures h'
                         then STATUS_DOWN else STATUS_UNSTABLE)
      /\ (n = 0%nat -> h' = h).
Proof.
  induction n as [|n IH]; intros h.
  - exists h. repeat split; try reflexivity; lia.
  - rewrite silent_loop_step, final_hosts_cons. cbn [fst].
    destruct (IH (fst (monitor_update false h))) as (h' & Hf & Hpos & H0).
    destruct (monitor_update_offline h) as (Hcf1 & Hst1 & _).
    cbv zeta in Hcf1, Hst1.
    exists h'. split; [exact Hf|]. split; [|lia].
    intros _. destruct n as [|n].
    + rewrite (H0 eq_refl). split; [|exact Hst1].
      rewrite Hcf1. reflexivity.
    + destruct Hpos as [Hcf Hst]; [lia|]. split; [|exact Hst].
      rewrite Hcf, Hcf1, int_wrap_add_l. f_equal. lia.
Qed.

Lemma trailing_failures_all_failed (n k : nat) :
  fold_left count_failure (repeat false n) k = (n + k)%nat.
Proof.
  revert k; induction n as [|n IH]; intros k; [reflexivity|].
  cbn [repeat fold_left count_failure]. rewrite IH. lia.
Qed.

Lemma silent_discovery :
  discovery_phase silent_platform "" [] tt
  = ({| discovered_hosts :=
          [ {| ip := "8.8.8.8"; hostname := "INTERNET"; status := STATUS_UP;
               consecutive_failures := 0; flash_timer := 1%Q |} ];
        discovered_hosts_capacity := 10 |}, tt).
Proof. vm_compute. reflexivity. Qed.

(** C3, as stated, fails once the counter has wrapped: on a network where
    nothing answers, after 2^31 sweeps the sentinel has failed 2^31 times
    in a row, its counter has gone from [INT_MAX] to [INT_MIN], and its
    status is [STATUS_UNSTABLE], not [STATUS_DOWN]. *)
Lemma failure_counter_wraps :
  let run :=
    network_thread_main silent_platform "" [] (Z.to_nat 2147483648) tt in
  let failures :=
    trailing_failures (map col_online (host_column 0 (snd run))) in
  exists h',
    map hostname (fst run) = ["INTERNET"]
    /\ nth_error (final_hosts (fst run) (snd run)) 0 = Some h'
    /\ (3 <= failures)%nat
    /\ consecutive_failures h' = INT_MIN
    /\ status h' = STATUS_UNSTABLE.
Proof.
  cbv zeta. unfold network_thread_main. rewrite silent_discovery.
  cbn [fst snd discovered_hosts].
  destruct (silent_loop_final (Z.to_nat 2147483648)
              {| ip := "8.8.8.8"; hostname := "INTERNET"; status := STATUS_UP;
                 consecutive_failures := 0; flash_timer := 1%Q |})
    as (h' & Hf & Hpos & _).
  destruct Hpos as [Hcf Hst]; [lia|].
  cbn [consecutive_failures] in Hcf.
  rewrite Z2Nat.id in Hcf by lia.
  change (int_wrap (0 + 2147483648)) with INT_MIN in Hcf.
  exists h'. split; [reflexivity|]. split; [exact Hf|]. split; [|split].
  - rewrite silent_loop_outcomes. unfold trailing_failures.
    rewrite trailing_failures_all_failed. lia.
  - exact Hcf.
  - rewrite Hst, Hcf. reflexivity.
Qed.

(* ================================================================= *)
(** ** Discoverer: the sentinel *)

Lemma filter_length_perm {A : Type} (f : A -> bool) (l l' : list A) :
  Permutation l l' ->
  List.length (filter f l) = List.length (filter f l').
Proof.
  induction 1 as [|x l l' _ IH|x y l|l l' l'' _ IH1 _ IH2]; cbn [filter].
  - reflexivity.
  - destruct (f x); cbn [List.length]; now rewrite IH.
  - destruct (f x), (f y); reflexivity.
  - now rewrite IH1.
Qed.

Lemma filter_none {A : Type} (f : A -> bool) (l : list A) :
  (forall x, In x l -> f x = false) -> filter f l = [].
Proof.
  induction l as [|x l IH]; intros H; [reflexivity|].
  cbn [filter]. rewrite (H x (or_introl eq_refl)).
  apply IH. intros y Hy. apply H. now right.
Qed.

Lemma add_sentinel_count (P : Platform) (r : Registry) :
  List.length
    (filter is_sentinel
       (discovered_hosts
          (add_host_to_list P r INTERNET_CHECK_IP (Some "INTERNET"))))
  = (List.length (filter is_sentinel (discovered_hosts r))
     + if ip_known (discovered_hosts r) INTERNET_CHECK_IP then 0 else 1)%nat.
Proof.
  destruct (ip_known (discovered_hosts r) INTERNET_CHECK_IP) eqn:E.
  - rewrite add_host_known by now apply ip_known_In. lia.
  - rewrite add_host_new by now apply ip_known_not_In.
    rewrite filter_app, length_app. reflexivity.
Qed.

Lemma add_sentinel_present (P : Platform) (r : Registry) :
  In INTERNET_CHECK_IP
     (ips (discovered_hosts
             (add_host_to_list P r INTERNET_CHECK_IP (Some "INTERNET")))).
Proof.
  destruct (ip_known (discovered_hosts r) INTERNET_CHECK_IP) eqn:E.
  - rewrite add_host_known; now apply ip_known_In.
  - rewrite add_host_new by now apply ip_known_not_In.
    unfold ips. rewrite map_app. apply in_or_app. right. now left.
Qed.

(** C5, as the code has it.  When every discovery thread has finished,
    [network_thread_main] calls [add_host_to_list("8.8.8.8", "INTERNET")]
    whatever the probes returned.  The call appends the ["INTERNET"] entry
    unless a discovery thread has already registered 8.8.8.8, in which
    case it changes nothing.  So once discovery is complete the registry
    always holds an entry for 8.8.8.8, and it holds one more ["INTERNET"]
    entry than the threads left, or as many when they had registered
    8.8.8.8.  It holds exactly one ["INTERNET"] entry whenever no thread
    registered 8.8.8.8 or a host whose resolved name is ["INTERNET"]. *)
Theorem sentinel_added_after_discovery (P : Platform) (active_subnet : string)
    (sched : list nat) (w : world P) :
  let found := discovered_hosts (fst (discovery_workers P active_subnet sched w)) in
  let final := discovered_hosts (fst (discovery_phase P active_subnet sched w)) in
  In INTERNET_CHECK_IP (ips final)
  /\ List.length (filter is_sentinel final)
     = (List.length (filter is_sentinel found)
        + if ip_known found INTERNET_CHECK_IP then 0 else 1)%nat
  /\ ((forall h, In h found ->
         ip h <> INTERNET_CHECK_IP /\ hostname h <> "INTERNET") ->
      List.length (filter is_sentinel final) = 1%nat
      /\ forall h, In h final -> is_sentinel h = true ->
                   ip h = INTERNET_CHECK_IP).
Proof.
  cbv zeta. unfold discovery_phase. cbn [fst].
  set (r := fst (discovery_workers P active_subnet sched w)).
  pose proof (sort_registry_perm P
                (add_host_to_list P r INTERNET_CHECK_IP (Some "INTERNET")))
    as Hperm.
  assert (Hcount :
    List.length
      (filter is_sentinel
         (discovered_hosts
            (sort_registry P
               (add_host_to_list P r INTERNET_CHECK_IP (Some "INTERNET")))))
    = (List.length (filter is_sentinel (discovered_hosts r))
       + if ip_known (discovered_hosts r) INTERNET_CHECK_IP then 0 else 1)%nat).
  { rewrite (filter_length_perm is_sentinel _ _ Hperm).
    apply add_sentinel_count. }
  split; [|split; [exact Hcount|]].
  - apply (Permutation_in _ (Permutation_map ip (Permutation_sym Hperm))).
    apply add_sentinel_present.
  - intros Hnone.
    assert (Hnew : ~ In INTERNET_CHECK_IP (ips (discovered_hosts r))).
    { unfold ips. rewrite in_map_iff. intros (h & Hip & Hin).
      now apply (proj1 (Hnone h Hin)). }
    assert (Hzero : filter is_sentinel (discovered_hosts r) = []).
    { apply filter_none. intros h Hin.
      destruct (is_sentinel h) eqn:E; [|reflexivity].
      apply String.eqb_eq in E. now elim (proj2 (Hnone h Hin)). }
    split.
    + rewrite Hcount, Hzero.
      apply ip_known_not_In in Hnew. now rewrite Hnew.
    + intros h Hin Hs.
      apply (Permutation_in _ Hperm) in Hin.
      rewrite add_host_new in Hin by exact Hnew.
      apply in_app_or in Hin. destruct Hin as [Hin | [<- | []]].
      * apply String.eqb_eq in Hs. now elim (proj2 (Hnone h Hin)).
      * reflexivity.
Qed.

(** Scanning ["10.0.0."] where only 10.0.0.5 answers: two entries, the
    host first, one sentinel. *)
Lemma sentinel_added_after_discovery_witness :
  let final :=
    discovered_hosts (fst (discovery_phase google_platform "10.0.0." [] tt)) in
  List.length (filter is_sentinel final) = 1%nat
  /\ map ip final = ["10.0.0.5"; "8.8.8.8"].
Proof.
  cbv zeta. split.
  - apply (proj2 (proj2 (sentinel_added_after_discovery
                           google_platform "10.0.0." [] tt))).
    intros h Hin. vm_compute in Hin. destruct Hin as [<- | []].
    split; intros E; discriminate E.
  - vm_compute. reflexivity.
Defined.

(** C5, as stated, fails when the scanned subnet is that of the sentinel:
    with the argument ["8.8.8."], which [main] accepts, and 8.8.8.8
    answering on port 443, a discovery thread registers 8.8.8.8 under its
    resolved name; the later call for the sentinel finds the address
    present and adds nothing, and the complete registry has no
    ["INTERNET"] entry. *)
Lemma sentinel_missing_on_its_own_subnet :
  let final :=
    discovered_hosts (fst (discovery_phase google_platform "8.8.8." [] tt)) in
  Startup.valid_subnet_arg "8.8.8." = true
  /\ map ip final = ["8.8.8.8"]
  /\ map hostname final = ["dns.google"]
  /\ List.length (filter is_sentinel final) <> 1%nat.
Proof.
  cbv zeta. split; [reflexivity|]. split; [vm_compute; reflexivity|].
  split; [vm_compute; reflexivity|].
  vm_compute. discriminate.
Qed.

(* ================================================================= *)
(** ** [sort()]: what [qsort] with [compare_hosts] yields *)

Section SortShape.
Variable P : Platform.
Variable locals_at : nat -> Z * Z.

Lemma compare_hosts_sentinel_l (u : Z * Z) (a b : MonitoredHost) :
  is_sentinel a = true -> compare_hosts P u a b = 1.
Proof. unfold compare_hosts, is_sentinel. now intros ->. Qed.

Lemma compare_hosts_sentinel_r (u : Z * Z) (a b : MonitoredHost) :
  is_sentinel a = false -> is_sentinel b = true -> compare_hosts P u a b = -1.
Proof. unfold compare_hosts, is_sentinel. now intros -> ->. Qed.

Lemma s_addr_of_key (u : Z) (h : MonitoredHost) :
  has_address h = true -> s_addr_of P u (ip h) = host_key P h.
Proof.
  unfold has_address, s_addr_of, host_key.
  destruct (inet_pton (ip h)); [reflexivity | discriminate].
Qed.

Lemma compare_hosts_addressed (u : Z * Z) (a b : MonitoredHost) :
  is_sentinel a = false -> is_sentinel b = false ->
  has_address a = true -> has_address b = true ->
  compare_hosts P u a b
  = if host_key P a <? host_key P b then -1
    else if host_key P a >? host_key P b then 1 else 0.
Proof.
  unfold compare_hosts, is_sentinel. intros -> -> Ha Hb. cbv zeta.
  now rewrite (s_addr_of_key _ a Ha), (s_addr_of_key _ b Hb).
Qed.

Lemma compare_hosts_plain (u : Z * Z) (a b : MonitoredHost) :
  is_sentinel a = false -> is_sentinel b = false ->
  has_address a = true -> has_address b = true ->
  (compare_hosts P u a b <=? 0) = (host_key P a <=? host_key P b).
Proof.
  intros Ha Hb Ha' Hb'. rewrite (compare_hosts_addressed u a b Ha Hb Ha' Hb').
  destruct (Z.ltb_spec (host_key P a) (host_key P b)).
  - symmetry. apply Z.leb_le. lia.
  - destruct (Z.gtb_spec (host_key P a) (host_key P b)).
    + symmetry. apply Z.leb_gt. lia.
    + symmetry. apply Z.leb_le. lia.
Qed.

Lemma insert_sentinel (x : MonitoredHost) (l : list MonitoredHost) :
  is_sentinel x = true ->
  forall n,
    fst (qsort_insert (fun k => compare_hosts P (locals_at k)) n x l)
    = (l ++ [x])%list.
Proof.
  intros Hx. induction l as [|y t IH]; intros n; [reflexivity|].
  cbn [qsort_insert app]. rewrite (compare_hosts_sentinel_l _ x y Hx).
  cbn. now rewrite IH.
Qed.

Lemma insert_plain_app (x : MonitoredHost) (front back : list MonitoredHost) :
  is_sentinel x = false ->
  Forall (fun h => is_sentinel h = true) back ->
  forall n,
    fst (qsort_insert (fun k => compare_hosts P (locals_at k)) n x
                      (front ++ back))
    = (fst (qsort_insert (fun k => compare_hosts P (locals_at k)) n x front)
         ++ back)%list.
Proof.
  intros Hx Hback. induction front as [|y t IH]; intros n.
  - destruct back as [|s back']; [reflexivity|].
    cbn [app qsort_insert].
    apply Forall_inv in Hback.
    now rewrite (compare_hosts_sentinel_r _ x s Hx Hback).
  - cbn [app qsort_insert].
    destruct (compare_hosts P (locals_at n) x y <=? 0); [reflexivity|].
    cbn [fst app]. now rewrite IH.
Qed.

Lemma insert_plain_sorted (x : MonitoredHost) (front : list MonitoredHost) :
  is_sentinel x = false -> has_address x = true ->
  Forall (fun h => is_sentinel h = false /\ has_address h = true) front ->
  StronglySorted (key_le P) front ->
  forall n,
    StronglySorted (key_le P)
      (fst (qsort_insert (fun k => compare_hosts P (locals_at k)) n x front)).
Proof.
  intros Hx Hx' Hfront Hsorted.
  induction front as [|y t IH]; intros n; cbn [qsort_insert fst].
  - repeat constructor.
  - apply Forall_cons_iff in Hfront. destruct Hfront as [[Hy Hy'] Ht].
    apply StronglySorted_inv in Hsorted. destruct Hsorted as [Hts Hyt].
    rewrite (compare_hosts_plain _ x y Hx Hy Hx' Hy').
    destruct (Z.leb_spec (host_key P x) (host_key P y)) as [Hle | Hgt];
      cbn [fst].
    + constructor; [now constructor|].
      constructor; [exact Hle|].
      apply (Forall_impl _ (P := key_le P y)); [|exact Hyt].
      intros z Hz. unfold key_le in *. lia.
    + constructor; [now apply IH|].
      apply (Permutation_Forall
               (Permutation_sym (qsort_insert_perm _ x t (S n)))).
      constructor; [unfold key_le; lia | exact Hyt].
Qed.

Lemma qsort_shape (l : list MonitoredHost) :
  addressed l ->
  forall n,
  exists front back,
    fst (qsort (fun k => compare_hosts P (locals_at k)) n l)
    = (front ++ back)%list
    /\ Forall (fun h => is_sentinel h = false /\ has_address h = true) front
    /\ Forall (fun h => is_sentinel h = true) back
    /\ StronglySorted (key_le P) front.
Proof.
  intros Hl n.
  induction l as [|x t IH].
  - exists [], []. repeat split; constructor.
  - apply Forall_cons_iff in Hl. destruct Hl as [Hxa Ht].
    destruct (IH Ht) as (front & back & Heq & Hf & Hb & Hs).
    cbn [qsort]. rewrite Heq.
    destruct (is_sentinel x) eqn:Hx.
    + exists front, (back ++ [x])%list.
      rewrite (insert_sentinel x _ Hx), app_assoc.
      repeat split; try assumption.
      apply Forall_app. split; [exact Hb | now repeat constructor].
    + exists (fst (qsort_insert (fun k => compare_hosts P (locals_at k))
                                (snd (qsort (fun k => compare_hosts P (locals_at k))
                                            n t))
                                x front)), back.
      rewrite (insert_plain_app x front back Hx Hb).
      repeat split; try assumption.
      * apply (Permutation_Forall
                 (Permutation_sym (qsort_insert_perm _ x front _))).
        constructor; [split; [exact Hx | now apply Hxa] | exact Hf].
      * apply insert_plain_sorted; [exact Hx | now apply Hxa | exact Hf | exact Hs].
Qed.

End SortShape.

Lemma StronglySorted_weaken {A : Type} (R R' : A -> A -> Prop) (l : list A) :
  (forall a b, In a l -> In b l -> R a b -> R' a b) ->
  StronglySorted R l -> StronglySorted R' l.
Proof.
  intros Himp Hs. induction Hs as [|a l Hl IH Ha]; constructor.
  - apply IH. intros x y Hx Hy. apply Himp; now right.
  - rewrite Forall_forall in *. intros x Hx.
    apply Himp; [now left | now right | now apply Ha].
Qed.

Lemma numeric_value_big_endian (q : Z * Z * Z * Z) :
  s_addr BigEndian q = numeric_value q.
Proof. reflexivity. Qed.

Lemma s_addr_little_endian_slash24 (qa qb : Z * Z * Z * Z) :
  same_slash24 qa qb ->
  (s_addr LittleEndian qa <= s_addr LittleEndian qb
   <-> numeric_value qa <= numeric_value qb).
Proof.
  destruct qa as [[[a1 a2] a3] a4], qb as [[[b1 b2] b3] b4].
  unfold same_slash24, numeric_value, s_addr. cbn [fst snd].
  intros (-> & -> & ->). lia.
Qed.

Lemma sort_registry_shape (P : Platform) (r : Registry) :
  addressed (discovered_hosts r) ->
  exists front back,
    discovered_hosts (sort_registry P r) = (front ++ back)%list
    /\ Permutation (front ++ back) (discovered_hosts r)
    /\ Forall (fun h => is_sentinel h = false /\ has_address h = true) front
    /\ Forall (fun h => is_sentinel h = true) back
    /\ StronglySorted (key_le P) front.
Proof.
  intros Hr.
  destruct (qsort_shape P (indeterminate P) (discovered_hosts r) Hr O)
    as (front & back & Heq & Hf & Hb & Hs).
  exists front, back. cbn [sort_registry discovered_hosts].
  split; [exact Heq|]. split; [rewrite <- Heq; apply qsort_perm|].
  repeat split; assumption.
Qed.

(** What [sort()] does to a registry whose entries, those named
    ["INTERNET"] apart, all have an address text that [inet_pton] accepts:
    the entries named ["INTERNET"] come behind all the others, and the
    others are in ascending order of [s_addr] as the host reads it.  On a
    big-endian host that is the ascending numeric order of the addresses;
    on a little-endian host it is so among entries of one /24 network. *)
Theorem sort_registry_order (P : Platform) (r : Registry) :
  addressed (discovered_hosts r) ->
  exists front back,
    discovered_hosts (sort_registry P r) = (front ++ back)%list
    /\ Permutation (front ++ back) (discovered_hosts r)
    /\ Forall (fun h => is_sentinel h = false) front
    /\ Forall (fun h => is_sentinel h = true) back
    /\ StronglySorted (key_le P) front
    /\ (host_order P = BigEndian -> StronglySorted numeric_le front)
    /\ (host_order P = LittleEndian ->
        StronglySorted
          (fun a b => forall qa qb,
             inet_pton (ip a) = Some qa -> inet_pton (ip b) = Some qb ->
             same_slash24 qa qb -> numeric_value qa <= numeric_value qb)
          front).
Proof.
  intros Hr.
  destruct (sort_registry_shape P r Hr)
    as (front & back & Heq & Hperm & Hf & Hb & Hs).
  exists front, back.
  split; [exact Heq|]. split; [exact Hperm|].
  split; [revert Hf; apply Forall_impl; tauto|].
  split; [exact Hb|]. split; [exact Hs|]. split.
  - intros Hbe. revert Hs. apply StronglySorted_weaken.
    intros a b _ _ Hab qa qb Ha Hb'.
    unfold key_le, host_key in Hab.
    rewrite Ha, Hb', Hbe in Hab. exact Hab.
  - intros Hle. revert Hs. apply StronglySorted_weaken.
    intros a b _ _ Hab qa qb Ha Hb' Hsame.
    unfold key_le, host_key in Hab.
    rewrite Ha, Hb', Hle in Hab.
    now apply (s_addr_little_endian_slash24 qa qb Hsame).
Qed.

(** Three hosts of one network and the sentinel, registered out of
    order. *)
Lemma sort_registry_order_witness :
  let r := {| discovered_hosts :=
                [ example_host "10.0.0.200" "nas" STATUS_UP 0;
                  example_host "8.8.8.8" "INTERNET" STATUS_UP 0;
                  example_host "10.0.0.7" "printer" STATUS_UP 0;
                  example_host "10.0.0.31" "N/A" STATUS_UP 0 ];
              discovered_hosts_capacity := 10 |} in
  map ip (discovered_hosts (sort_registry silent_platform r))
  = ["10.0.0.7"; "10.0.0.31"; "10.0.0.200"; "8.8.8.8"]
  /\ exists front back,
       discovered_hosts (sort_registry silent_platform r)
       = (front ++ back)%list
       /\ Forall (fun h => is_sentinel h = false) front
       /\ Forall (fun h => is_sentinel h = true) back
       /\ StronglySorted (key_le silent_platform) front.
Proof.
  cbv zeta. split; [vm_compute; reflexivity|].
  destruct (sort_registry_order silent_platform
              {| discovered_hosts :=
                   [ example_host "10.0.0.200" "nas" STATUS_UP 0;
                     example_host "8.8.8.8" "INTERNET" STATUS_UP 0;
                     example_host "10.0.0.7" "printer" STATUS_UP 0;
                     example_host "10.0.0.31" "N/A" STATUS_UP 0 ];
                 discovered_hosts_capacity := 10 |})
    as (front & back & Heq & _ & Hf & Hb & Hs & _).
  - repeat constructor.
  - exists front, back. repeat split; assumption.
Defined.

(* ================================================================= *)
(** * Further properties of the code *)

(** ** Discoverer: what the threads register *)

Lemma incl_tail {A : Type} (x : A) (l l' : list A) :
  incl (x :: l) l' -> incl l l'.
Proof. intros H y Hy. apply H. now right. Qed.

Lemma thread_block_in_range (prefix : string) (k i : Z) :
  In k thread_indices -> In i (host_numbers (thread_args prefix k)) ->
  START_HOST <= i <= END_HOST.
Proof.
  unfold thread_indices. rewrite in_map_iff. intros (n & <- & Hn).
  apply in_seq in Hn. change (Z.to_nat NUM_THREADS) with 50%nat in Hn.
  rewrite host_numbers_spec, thread_args_start, thread_args_end.
  unfold START_HOST, END_HOST.
  destruct (Z.eqb_spec (Z.of_nat n) 49); lia.
Qed.

(** An invariant of the registry that is kept whenever a created thread
    registers a candidate of its block that a probe has found holds
    throughout discovery. *)
Section DiscoveryProbed.
Variable P : Platform.
Variable prefix : string.
Variable I : Registry -> Prop.

Let created (i : Z) : Prop :=
  exists k, In k (filter (pthread_create P) thread_indices)
            /\ In i (host_numbers (thread_args prefix k)).

Hypothesis I_add : forall (r : Registry) (i : Z) (w : world P),
  created i ->
  fst (probe_ports P w (candidate_ip (strncpy 16 prefix) i) COMMON_PORTS) = true ->
  I r ->
  I (add_host_to_list P r (candidate_ip (strncpy 16 prefix) i) None).

Lemma body_probed (i : Z) (st : NetState P) :
  created i -> I (fst st) ->
  I (fst (discovery_worker_body P (strncpy 16 prefix) i st)).
Proof.
  intros Hi H. unfold discovery_worker_body.
  destruct (probe_ports P (snd st) (candidate_ip (strncpy 16 prefix) i)
              COMMON_PORTS) as [found w'] eqn:E.
  destruct found; cbn [fst]; [|exact H].
  apply (I_add _ _ (snd st)); [exact Hi | now rewrite E | exact H].
Qed.

Lemma worker_probed (pending : list Z) :
  Forall created pending ->
  forall st, I (fst st) ->
             I (fst (discovery_worker P (strncpy 16 prefix) pending st)).
Proof.
  induction 1 as [|i rest Hi _ IH]; intros st H; cbn [discovery_worker];
    [exact H|].
  destruct (app_is_running P (snd st)); [|exact H].
  apply IH. now apply body_probed.
Qed.

Lemma owned_created (wk : Worker) :
  owned P prefix wk -> Forall created (w_pending wk).
Proof.
  intros (_ & k & Hk & Hincl). apply Forall_forall. intros i Hi.
  exists k. split; [exact Hk | now apply Hincl].
Qed.

Lemma worker_step_probed (wk : Worker) (st : NetState P) :
  owned P prefix wk -> I (fst st) ->
  owned P prefix (fst (worker_step P wk st))
  /\ I (fst (snd (worker_step P wk st))).
Proof.
  intros Hown H. unfold worker_step.
  destruct (w_pending wk) as [|i rest] eqn:E; [now split|].
  pose proof Hown as (Hsub & k & Hk & Hincl). rewrite E in Hincl.
  destruct (app_is_running P (snd st)); cbn [fst snd]; split.
  - split; [exact Hsub|]. exists k. split; [exact Hk|].
    cbn [w_pending]. now apply incl_tail in Hincl.
  - rewrite Hsub. apply body_probed; [|exact H].
    exists k. split; [exact Hk|]. apply Hincl. now left.
  - split; [exact Hsub|]. exists k. split; [exact Hk|].
    intros x [].
  - exact H.
Qed.

Lemma step_thread_probed (k : nat) (ws : list Worker) :
  forall st, Forall (owned P prefix) ws -> I (fst st) ->
             Forall (owned P prefix) (fst (step_thread P k ws st))
             /\ I (fst (snd (step_thread P k ws st))).
Proof.
  revert k; induction ws as [|wk rest IH]; intros k st Hws H.
  - destruct k; now split.
  - apply Forall_cons_iff in Hws. destruct Hws as [Hwk Hrest].
    destruct k as [|k]; cbn [step_thread].
    + destruct (worker_step_probed wk st Hwk H) as [H1 H2].
      destruct (worker_step P wk st) as [wk' st']. cbn [fst snd] in *.
      split; [now constructor | exact H2].
    + destruct (IH k st Hrest H) as [H1 H2].
      destruct (step_thread P k rest st) as [rest' st']. cbn [fst snd] in *.
      split; [now constructor | exact H2].
Qed.

Lemma run_schedule_probed (sched : list nat) :
  forall ws st, Forall (owned P prefix) ws -> I (fst st) ->
                Forall (owned P prefix) (fst (run_schedule P sched ws st))
                /\ I (fst (snd (run_schedule P sched ws st))).
Proof.
  induction sched as [|k sched IH]; intros ws st Hws H; cbn [run_schedule];
    [now split|].
  destruct (step_thread_probed k ws st Hws H) as [H1 H2].
  destruct (step_thread P k ws st) as [ws' st']. now apply IH.
Qed.

Lemma join_all_probed (ws : list Worker) :
  forall st, Forall (owned P prefix) ws -> I (fst st) ->
             I (fst (join_all P ws st)).
Proof.
  unfold join_all. induction ws as [|wk rest IH]; intros st Hws H;
    cbn [fold_left]; [exact H|].
  apply Forall_cons_iff in Hws. destruct Hws as [Hwk Hrest].
  apply IH; [exact Hrest|].
  destruct Hwk as [Hsub Hk]. rewrite Hsub.
  apply worker_probed; [|exact H].
  apply owned_created. now split.
Qed.

Lemma spawn_workers_owned : Forall (owned P prefix) (spawn_workers P prefix).
Proof.
  unfold spawn_workers. apply Forall_forall. intros wk Hwk.
  apply in_map_iff in Hwk. destruct Hwk as (k & <- & Hk).
  split; [reflexivity|]. exists k. split; [exact Hk|]. apply incl_refl.
Qed.

End DiscoveryProbed.

Lemma discovery_workers_probed (P : Platform) (I : Registry -> Prop)
    (active_subnet : string) (sched : list nat) (w : world P) :
  (forall (r : Registry) (i : Z) (w' : world P),
      (exists k, In k (filter (pthread_create P) thread_indices)
                 /\ In i (host_numbers
                            (thread_args (detect_subnet P active_subnet) k))) ->
      fst (probe_ports P w'
             (candidate_ip (strncpy 16 (detect_subnet P active_subnet)) i)
             COMMON_PORTS) = true ->
      I r ->
      I (add_host_to_list P r
           (candidate_ip (strncpy 16 (detect_subnet P active_subnet)) i) None)) ->
  I empty_registry ->
  I (fst (discovery_workers P active_subnet sched w)).
Proof.
  intros Hadd H0. unfold discovery_workers.
  destruct (run_schedule_probed P (detect_subnet P active_subnet) I Hadd sched
              (spawn_workers P (detect_subnet P active_subnet))
              (empty_registry, w)
              (spawn_workers_owned P (detect_subnet P active_subnet)) H0)
    as [Hws H].
  destruct (run_schedule P sched (spawn_workers P (detect_subnet P active_subnet))
              (empty_registry, w)) as [ws st].
  now apply (join_all_probed P (detect_subnet P active_subnet) I Hadd).
Qed.

Lemma candidate_in_candidates (prefix : string) (i : Z) :
  START_HOST <= i <= END_HOST -> In (candidate_ip prefix i) (candidates prefix).
Proof.
  unfold START_HOST, END_HOST, candidates. intros Hi. apply in_map_iff.
  exists (Z.to_nat i). split; [f_equal; lia | apply in_seq; lia].
Qed.

Lemma created_thread_index (P : Platform) (k : Z) :
  In k (filter (pthread_create P) thread_indices) -> In k thread_indices.
Proof. intros H. now apply filter_In in H. Qed.

Lemma discovery_workers_entries (P : Platform) (active_subnet : string)
    (sched : list nat) (w : world P) :
  Forall (discovered_entry P (detect_subnet P active_subnet))
         (discovered_hosts (fst (discovery_workers P active_subnet sched w))).
Proof.
  apply (discovery_workers_probed P
           (fun r => Forall (discovered_entry P (detect_subnet P active_subnet))
                            (discovered_hosts r))); [|constructor].
  intros r i w' (k & Hk & Hi) Hfound Hr.
  set (ip0 := candidate_ip (strncpy 16 (detect_subnet P active_subnet)) i) in *.
  destruct (ip_known (discovered_hosts r) ip0) eqn:E.
  - rewrite add_host_known by now apply ip_known_In. exact Hr.
  - rewrite add_host_new by now apply ip_known_not_In.
    apply Forall_app. split; [exact Hr|]. constructor; [|constructor].
    assert (Hcopy : strncpy 15 ip0 = ip0)
      by (apply strncpy_short, candidate_ip_length).
    unfold discovered_entry. cbn [ip hostname resolve_hostname].
    rewrite Hcopy. repeat split.
    + exists k, i. repeat split; assumption.
    + apply candidate_in_candidates.
      apply (thread_block_in_range (detect_subnet P active_subnet) k);
        [now apply (created_thread_index P) | exact Hi].
    + now exists w'.
Qed.

(** Every entry the discovery threads leave is the candidate address of a
    host number in the block of a created thread, was found answering by a
    probe, and carries the name [getnameinfo] gave it or ["N/A"]; the
    complete registry holds such entries and, besides, at most the
    sentinel entry.  This holds for every schedule of the threads and also
    when discovery is cut short. *)
Theorem discovery_registers_only_probed_candidates (P : Platform)
    (active_subnet : string) (sched : list nat) (w : world P) :
  Forall (discovered_entry P (detect_subnet P active_subnet))
         (discovered_hosts (fst (discovery_workers P active_subnet sched w)))
  /\ Forall (fun h => discovered_entry P (detect_subnet P active_subnet) h
                      \/ sentinel_entry h)
            (discovered_hosts (fst (discovery_phase P active_subnet sched w))).
Proof.
  pose proof (discovery_workers_entries P active_subnet sched w) as Hfound.
  split; [exact Hfound|].
  unfold discovery_phase. cbn [fst].
  apply (Permutation_Forall (Permutation_sym (sort_registry_perm P _))).
  set (r := fst (discovery_workers P active_subnet sched w)) in *.
  destruct (ip_known (discovered_hosts r) INTERNET_CHECK_IP) eqn:E.
  - rewrite add_host_known by now apply ip_known_In.
    revert Hfound. apply Forall_impl. intros h Hh. now left.
  - rewrite add_host_new by now apply ip_known_not_In.
    apply Forall_app. split.
    + revert Hfound. apply Forall_impl. intros h Hh. now left.
    + constructor; [|constructor]. right. split; reflexivity.
Qed.

(** ** HostRegistry: size and capacity *)

Lemma candidates_length (prefix : string) :
  List.length (candidates prefix) = 254%nat.
Proof. unfold candidates. now rewrite length_map, length_seq. Qed.

Lemma add_host_length (P : Platform) (r : Registry) (ip0 : string)
    (o : option string) :
  (List.length (discovered_hosts (add_host_to_list P r ip0 o))
   <= S (List.length (discovered_hosts r)))%nat.
Proof.
  destruct (add_host_cases P r ip0 o) as [-> | (_ & name & ->)]; [lia|].
  rewrite length_app. cbn. lia.
Qed.

Lemma add_host_capacity (P : Platform) (r : Registry) (ip0 : string)
    (o : option string) :
  capacity_ok r -> capacity_ok (add_host_to_list P r ip0 o).
Proof.
  intros [H1 H2].
  destruct (ip_known (discovered_hosts r) ip0) eqn:E.
  - rewrite add_host_known by now apply ip_known_In. now split.
  - unfold add_host_to_list. rewrite E.
    unfold capacity_ok, discovered_hosts_count, grow in *.
    cbn [discovered_hosts discovered_hosts_capacity].
    rewrite length_app. cbn [List.length].
    unfold discovered_hosts_count.
    destruct (Z.geb_spec (Z.of_nat (List.length (discovered_hosts r)))
                         (discovered_hosts_capacity r));
      [destruct (Z.eqb_spec (discovered_hosts_capacity r) 0)|]; lia.
Qed.



(** The discovery threads register at most 254 entries and the complete
    registry holds at most 255; the entries fit the allocated array, which
    stays within 510 slots, so that none of the [int] computations on
    count and capacity can overflow. *)
Theorem registry_is_bounded (P : Platform) (active_subnet : string)
    (sched : list nat) (w : world P) :
  let found := fst (discovery_workers P active_subnet sched w) in
  let final := fst (discovery_phase P active_subnet sched w) in
  (List.length (discovered_hosts found) <= 254)%nat
  /\ (List.length (discovered_hosts final) <= 255)%nat
  /\ capacity_ok final
  /\ discovered_hosts_capacity final <= 510.
Proof.
  cbv zeta.
  assert (Hlen : (List.length (discovered_hosts
                    (fst (discovery_workers P active_subnet sched w)))
                  <= 254)%nat).
  { rewrite <- (candidates_length (strncpy 16 (detect_subnet P active_subnet))).
    rewrite <- (length_map ip).
    apply NoDup_incl_length.
    - apply (discovery_workers_inv P
               (fun r => NoDup (ips (discovered_hosts r)))); [|constructor].
      intros r ip0 Hl Hr. now apply add_host_nodup.
    - intros x Hx. apply in_map_iff in Hx. destruct Hx as (h & <- & Hh).
      pose proof (discovery_workers_entries P active_subnet sched w) as HF.
      rewrite Forall_forall in HF. apply (HF h Hh). }
  assert (Hcap : capacity_ok
                   (add_host_to_list P
                      (fst (discovery_workers P active_subnet sched w))
                      INTERNET_CHECK_IP (Some "INTERNET"))).
  { apply add_host_capacity.
    apply (discovery_workers_inv P capacity_ok).
    - intros r ip0 _ Hr. now apply add_host_capacity.
    - split; cbn; lia. }
  assert (Hlen' : (List.length (discovered_hosts
                     (add_host_to_list P
                        (fst (discovery_workers P active_subnet sched w))
                        INTERNET_CHECK_IP (Some "INTERNET"))) <= 255)%nat).
  { pose proof (add_host_length P
                  (fst (discovery_workers P active_subnet sched w))
                  INTERNET_CHECK_IP (Some "INTERNET")). lia. }
  split; [exact Hlen|].
  unfold discovery_phase. cbn [fst].
  set (r := add_host_to_list P _ _ _) in *.
  assert (Hsame : List.length (discovered_hosts (sort_registry P r))
                  = List.length (discovered_hosts r)).
  { apply Permutation_length, sort_registry_perm. }
  unfold capacity_ok, discovered_hosts_count in *.
  cbn [sort_registry discovered_hosts_capacity] in *.
  change (fst (qsort (fun n => compare_hosts P (indeterminate P n)) O
                     (discovered_hosts r)))
    with (discovered_hosts (sort_registry P r)).
  rewrite Hsame. repeat split; lia.
Qed.

(** ** Discoverer: on a stable network every answering host is found *)

Lemma add_host_keeps (P : Platform) (r : Registry) (ip0 x : string)
    (o : option string) :
  In x (ips (discovered_hosts r)) ->
  In x (ips (discovered_hosts (add_host_to_list P r ip0 o))).
Proof.
  intros H.
  destruct (add_host_cases P r ip0 o) as [-> | (_ & name & ->)]; [exact H|].
  unfold ips. rewrite map_app. apply in_or_app. now left.
Qed.

Lemma add_host_registers (P : Platform) (r : Registry) (ip0 : string)
    (o : option string) :
  (String.length ip0 <= 15)%nat ->
  In ip0 (ips (discovered_hosts (add_host_to_list P r ip0 o))).
Proof.
  intros Hlen.
  destruct (add_host_cases P r ip0 o) as [E | (_ & name & E)]; rewrite E.
  - apply ip_known_In. unfold add_host_to_list in E.
    destruct (ip_known (discovered_hosts r) ip0) eqn:K; [reflexivity|].
    apply (f_equal (fun x => List.length (discovered_hosts x))) in E.
    cbn [discovered_hosts] in E. rewrite length_app in E. cbn in E. lia.
  - unfold ips. rewrite map_app. apply in_or_app. right.
    cbn [map ip]. rewrite strncpy_short by exact Hlen. now left.
Qed.

Section StableNetwork.
Variable P : Platform.
Variable reach : string -> Z -> bool.
Hypothesis stable : forall w ip0 p, fst (check_port P w ip0 p) = reach ip0 p.
Hypothesis running : forall w, app_is_running P w = true.

Lemma probe_ports_stable (ip0 : string) (ports : list Z) :
  forall w, fst (probe_ports P w ip0 ports) = existsb (reach ip0) ports.
Proof.
  induction ports as [|p ps IH]; intros w; [reflexivity|].
  cbn [probe_ports existsb]. rewrite <- (stable w ip0 p).
  destruct (check_port P w ip0 p) as [ok w']. cbn [fst].
  destruct ok; [reflexivity|]. apply IH.
Qed.

Lemma body_keeps (sub : string) (i : Z) (st : NetState P) (x : string) :
  In x (ips (discovered_hosts (fst st))) ->
  In x (ips (discovered_hosts (fst (discovery_worker_body P sub i st)))).
Proof.
  intros H. unfold discovery_worker_body.
  destruct (probe_ports P (snd st) (candidate_ip sub i) COMMON_PORTS)
    as [found w'].
  destruct found; cbn [fst]; [now apply add_host_keeps | exact H].
Qed.

Lemma body_registers (sub : string) (i : Z) (st : NetState P) :
  responds reach (candidate_ip sub i) = true ->
  In (candidate_ip sub i)
     (ips (discovered_hosts (fst (discovery_worker_body P sub i st)))).
Proof.
  intros H. unfold discovery_worker_body.
  pose proof (probe_ports_stable (candidate_ip sub i) COMMON_PORTS (snd st))
    as Hp.
  destruct (probe_ports P (snd st) (candidate_ip sub i) COMMON_PORTS)
    as [found w'].
  cbn [fst] in Hp. unfold responds in H. rewrite H in Hp. subst found.
  cbn [fst]. apply add_host_registers, candidate_ip_length.
Qed.

Lemma worker_keeps (sub : string) (pending : list Z) (x : string) :
  forall st,
    In x (ips (discovered_hosts (fst st))) ->
    In x (ips (discovered_hosts (fst (discovery_worker P sub pending st)))).
Proof.
  induction pending as [|i rest IH]; intros st H; cbn [discovery_worker];
    [exact H|].
  rewrite running. apply IH. now apply body_keeps.
Qed.

Lemma worker_registers (sub : string) (pending : list Z) (i : Z) :
  In i pending -> responds reach (candidate_ip sub i) = true ->
  forall st,
    In (candidate_ip sub i)
       (ips (discovered_hosts (fst (discovery_worker P sub pending st)))).
Proof.
  intros Hi Hr. induction pending as [|j rest IH]; intros st; [contradiction|].
  cbn [discovery_worker]. rewrite running.
  destruct Hi as [-> | Hi].
  - apply worker_keeps. now apply body_registers.
  - now apply IH.
Qed.

Lemma join_all_keeps (ws : list Worker) (x : string) :
  forall st,
    In x (ips (discovered_hosts (fst st))) ->
    In x (ips (discovered_hosts (fst (join_all P ws st)))).
Proof.
  unfold join_all. induction ws as [|wk rest IH]; intros st H;
    cbn [fold_left]; [exact H|].
  apply IH. now apply worker_keeps.
Qed.

Lemma join_all_registers (ws : list Worker) (i : Z) :
  forall (wk : Worker) st,
    In wk ws -> In i (w_pending wk) ->
    responds reach (candidate_ip (w_subnet wk) i) = true ->
    In (candidate_ip (w_subnet wk) i)
       (ips (discovered_hosts (fst (join_all P ws st)))).
Proof.
  unfold join_all. induction ws as [|wk0 rest IH]; intros wk st Hwk Hi Hr;
    [contradiction|].
  cbn [fold_left]. destruct Hwk as [-> | Hwk].
  - apply (join_all_keeps rest). now apply worker_registers.
  - now apply IH.
Qed.

(** What one step of the schedule leaves of the work: the registry keeps
    its addresses, the threads keep their prefixes, and a host number
    that was pending is pending still or, if its candidate answers,
    registered. *)
Definition step_progress (sub : string) (ws : list Worker) (st : NetState P)
    (ws' : list Worker) (st' : NetState P) : Prop :=
  (forall x, In x (ips (discovered_hosts (fst st))) ->
             In x (ips (discovered_hosts (fst st'))))
  /\ Forall (fun wk => w_subnet wk = sub) ws'
  /\ (forall i, pending_somewhere ws i ->
                pending_somewhere ws' i
                \/ (responds reach (candidate_ip sub i) = true ->
                    In (candidate_ip sub i) (ips (discovered_hosts (fst st'))))).

Lemma step_thread_progress (sub : string) (k : nat) (ws : list Worker) :
  forall st,
    Forall (fun wk => w_subnet wk = sub) ws ->
    step_progress sub ws st (fst (step_thread P k ws st))
                  (snd (step_thread P k ws st)).
Proof.
  revert k; induction ws as [|wk rest IH]; intros k st Hsub.
  - assert (E : step_thread P k [] st = ([], st)) by (destruct k; reflexivity).
    rewrite E. repeat split; [auto | constructor | now left].
  - apply Forall_cons_iff in Hsub. destruct Hsub as [Hwk Hrest].
    destruct k as [|k]; cbn [step_thread].
    + unfold worker_step.
      destruct (w_pending wk) as [|i0 rest0] eqn:E; cbn [fst snd].
      * repeat split; [auto | now constructor | now left].
      * rewrite running. cbn [fst snd]. repeat split.
        -- intros x. apply body_keeps.
        -- now constructor.
        -- intros i (wk1 & [<- | Hin] & Hi).
           ++ rewrite E in Hi. destruct Hi as [<- | Hi].
              ** right. intros Hr. rewrite Hwk. now apply body_registers.
              ** left. eexists. split; [now left | exact Hi].
           ++ left. exists wk1. split; [now right | exact Hi].
    + destruct (IH k st Hrest) as (H1 & H2 & H3).
      destruct (step_thread P k rest st) as [rest' st']. cbn [fst snd] in *.
      repeat split; [exact H1 | now constructor |].
      intros i (wk1 & [<- | Hin] & Hi).
      * left. exists wk. split; [now left | exact Hi].
      * destruct (H3 i (ex_intro _ wk1 (conj Hin Hi))) as [(wk2 & Hin2 & Hi2) | Hr].
        -- left. exists wk2. split; [now right | exact Hi2].
        -- now right.
Qed.

Lemma run_schedule_progress (sub : string) (sched : list nat) :
  forall ws st,
    Forall (fun wk => w_subnet wk = sub) ws ->
    step_progress sub ws st (fst (run_schedule P sched ws st))
                  (snd (run_schedule P sched ws st)).
Proof.
  induction sched as [|k sched IH]; intros ws st Hsub; cbn [run_schedule].
  - repeat split; [auto | exact Hsub | now left].
  - destruct (step_thread_progress sub k ws st Hsub) as (H1 & H2 & H3).
    destruct (step_thread P k ws st) as [ws' st']. cbn [fst snd] in *.
    destruct (IH ws' st' H2) as (K1 & K2 & K3).
    repeat split; [auto | exact K2 |].
    intros i Hi. destruct (H3 i Hi) as [Hp | Hr].
    + apply (K3 i Hp).
    + right. intros Hresp. apply K1. now apply Hr.
Qed.

Lemma discovery_workers_complete (active_subnet : string) (sched : list nat)
    (w : world P) (k i : Z) :
  In k (filter (pthread_create P) thread_indices) ->
  In i (host_numbers (thread_args (detect_subnet P active_subnet) k)) ->
  responds reach
    (candidate_ip (strncpy 16 (detect_subnet P active_subnet)) i) = true ->
  In (candidate_ip (strncpy 16 (detect_subnet P active_subnet)) i)
     (ips (discovered_hosts (fst (discovery_workers P active_subnet sched w)))).
Proof.
  intros Hk Hi Hr. unfold discovery_workers.
  set (prefix := detect_subnet P active_subnet) in *.
  assert (Hsub : Forall (fun wk => w_subnet wk = strncpy 16 prefix)
                        (spawn_workers P prefix)).
  { apply Forall_forall. intros wk Hwk. now apply spawn_workers_subnet in Hwk. }
  assert (Hpend : pending_somewhere (spawn_workers P prefix) i).
  { exists {| w_subnet := subnet (thread_args prefix k);
              w_pending := host_numbers (thread_args prefix k) |}.
    split; [|exact Hi].
    unfold spawn_workers. apply in_map_iff. exists k. now split. }
  destruct (run_schedule_progress (strncpy 16 prefix) sched
              (spawn_workers P prefix) (empty_registry, w) Hsub)
    as (_ & H2 & H3).
  destruct (run_schedule P sched (spawn_workers P prefix) (empty_registry, w))
    as [ws st]. cbn [fst snd] in *.
  destruct (H3 i Hpend) as [(wk & Hwk & Hiw) | Hreg].
  - rewrite Forall_forall in H2. rewrite <- (H2 wk Hwk) in *.
    now apply (join_all_registers ws i wk st).
  - apply join_all_keeps. now apply Hreg.
Qed.

End StableNetwork.

Lemma add_sentinel_ips (P : Platform) (r : Registry) (x : string) :
  In x (ips (discovered_hosts
               (add_host_to_list P r INTERNET_CHECK_IP (Some "INTERNET"))))
  <-> In x (ips (discovered_hosts r)) \/ x = INTERNET_CHECK_IP.
Proof.
  destruct (ip_known (discovered_hosts r) INTERNET_CHECK_IP) eqn:E.
  - rewrite add_host_known by now apply ip_known_In.
    apply ip_known_In in E. split; [now left|]. intros [H | ->]; assumption.
  - rewrite add_host_new by now apply ip_known_not_In.
    unfold ips. rewrite map_app, in_app_iff. cbn [map ip In].
    change (strncpy 15 INTERNET_CHECK_IP) with INTERNET_CHECK_IP.
    intuition (subst; auto).
Qed.

(** On a network whose answers do not change while discovery runs, and
    when no shutdown is requested, the discovery threads register exactly
    the candidate addresses of the created threads' blocks that answer on
    one of the eight ports, whatever the schedule of the threads; the
    complete registry holds these addresses and 8.8.8.8. *)
Theorem discovery_finds_exactly_the_answering_hosts (P : Platform)
    (reach : string -> Z -> bool) (active_subnet : string)
    (sched : list nat) (w : world P) (ip0 : string) :
  (forall w' ip1 p, fst (check_port P w' ip1 p) = reach ip1 p) ->
  (forall w', app_is_running P w' = true) ->
  (In ip0 (ips (discovered_hosts
                  (fst (discovery_workers P active_subnet sched w))))
   <-> probed_by_discovery P (detect_subnet P active_subnet) ip0
       /\ responds reach ip0 = true)
  /\ (In ip0 (ips (discovered_hosts
                     (fst (discovery_phase P active_subnet sched w))))
      <-> (probed_by_discovery P (detect_subnet P active_subnet) ip0
           /\ responds reach ip0 = true)
          \/ ip0 = INTERNET_CHECK_IP).
Proof.
  intros Hstable Hrun.
  assert (Hfound :
    In ip0 (ips (discovered_hosts
                   (fst (discovery_workers P active_subnet sched w))))
    <-> probed_by_discovery P (detect_subnet P active_subnet) ip0
        /\ responds reach ip0 = true).
  { split.
    - intros Hin. apply in_map_iff in Hin. destruct Hin as (h & <- & Hh).
      pose proof (discovery_workers_entries P active_subnet sched w) as HF.
      rewrite Forall_forall in HF.
      destruct (HF h Hh) as (Hp & _ & (w' & Hw') & _).
      split; [exact Hp|].
      unfold responds. now rewrite <- (probe_ports_stable P reach Hstable _ _ w').
    - intros ((k & i & Hk & Hi & ->) & Hr).
      now apply (discovery_workers_complete P reach Hstable Hrun
                   active_subnet sched w k i). }
  split; [exact Hfound|].
  unfold discovery_phase. cbn [fst].
  rewrite <- Hfound, <- add_sentinel_ips.
  split; apply Permutation_in, Permutation_map.
  - apply sort_registry_perm.
  - apply Permutation_sym, sort_registry_perm.
Qed.

(** Host 5 of ["10.0.0."] answers on port 22: it is registered when the
    threads 3, 1 and 0 take the first steps. *)
Lemma discovery_finds_exactly_the_answering_hosts_witness :
  In "10.0.0.5"
     (ips (discovered_hosts
             (fst (discovery_workers google_platform "10.0.0." [3; 1; 0]%nat tt)))).
Proof.
  apply (proj1 (discovery_finds_exactly_the_answering_hosts google_platform
                  (fun ip1 p => (String.eqb ip1 "8.8.8.8" && (p =? 443))
                                || (String.eqb ip1 "10.0.0.5" && (p =? 22)))
                  "10.0.0." [3; 1; 0]%nat tt "10.0.0.5"
                  (fun _ _ _ => eq_refl) (fun _ => eq_refl))).
  split; [|reflexivity].
  exists 0, 5. split; [vm_compute; tauto|].
  split; [|reflexivity].
  apply host_numbers_spec. rewrite thread_args_start, thread_args_end.
  simpl. lia.
Defined.

(** ** Discoverer: shutdown requested before the network thread starts *)

Lemma worker_cancelled (P : Platform) (sub : string) (pending : list Z)
    (st : NetState P) :
  app_is_running P (snd st) = false -> discovery_worker P sub pending st = st.
Proof. intros H. destruct pending; cbn [discovery_worker]; now rewrite ?H. Qed.

Lemma step_thread_cancelled (P : Platform) (k : nat) (ws : list Worker) :
  forall st, app_is_running P (snd st) = false ->
             snd (step_thread P k ws st) = st.
Proof.
  revert k; induction ws as [|wk rest IH]; intros k st H.
  - destruct k; reflexivity.
  - destruct k as [|k]; cbn [step_thread].
    + unfold worker_step. destruct (w_pending wk); [reflexivity|].
      now rewrite H.
    + pose proof (IH k st H) as E.
      destruct (step_thread P k rest st) as [rest' st']. exact E.
Qed.

Lemma run_schedule_cancelled (P : Platform) (sched : list nat) :
  forall ws st, app_is_running P (snd st) = false ->
                snd (run_schedule P sched ws st) = st.
Proof.
  induction sched as [|k sched IH]; intros ws st H; cbn [run_schedule];
    [reflexivity|].
  pose proof (step_thread_cancelled P k ws st H) as E.
  destruct (step_thread P k ws st) as [ws' st']. cbn [snd] in E. subst st'.
  now apply IH.
Qed.

Lemma join_all_cancelled (P : Platform) (ws : list Worker) :
  forall st, app_is_running P (snd st) = false -> join_all P ws st = st.
Proof.
  unfold join_all. induction ws as [|wk rest IH]; intros st H;
    cbn [fold_left]; [reflexivity|].
  rewrite worker_cancelled by exact H. now apply IH.
Qed.

(** If [app_is_running] is already false when the network thread starts,
    no discovery thread probes or registers anything, under any schedule;
    the sentinel is inserted all the same, so the complete registry is the
    sentinel entry alone; and the monitoring loop ends without a sweep. *)
Theorem shutdown_before_discovery (P : Platform) (active_subnet : string)
    (sched : list nat) (fuel : nat) (w : world P) :
  app_is_running P w = false ->
  discovery_workers P active_subnet sched w = (empty_registry, w)
  /\ discovered_hosts (fst (discovery_phase P active_subnet sched w))
     = [ {| ip := INTERNET_CHECK_IP; hostname := "INTERNET";
            status := STATUS_UP; consecutive_failures := 0;
            flash_timer := 1%Q |} ]
  /\ snd (discovery_phase P active_subnet sched w) = w
  /\ snd (network_thread_main P active_subnet sched fuel w) = [].
Proof.
  intros Hstop.
  assert (Hw : discovery_workers P active_subnet sched w = (empty_registry, w)).
  { unfold discovery_workers.
    pose proof (run_schedule_cancelled P sched
                  (spawn_workers P (detect_subnet P active_subnet))
                  (empty_registry, w) Hstop) as E.
    destruct (run_schedule P sched _ _) as [ws st]. cbn [snd] in E. subst st.
    now apply join_all_cancelled. }
  assert (Hphase : discovery_phase P active_subnet sched w
                   = ({| discovered_hosts :=
                           [ {| ip := INTERNET_CHECK_IP; hostname := "INTERNET";
                                status := STATUS_UP; consecutive_failures := 0;
                                flash_timer := 1%Q |} ];
                         discovered_hosts_capacity := 10 |}, w)).
  { unfold discovery_phase. rewrite Hw. reflexivity. }
  split; [exact Hw|]. unfold network_thread_main. rewrite Hphase. cbn [fst snd].
  repeat split.
  destruct fuel as [|fuel]; cbn [monitor_loop]; [reflexivity|].
  now rewrite Hstop.
Qed.

(** On a platform where every port answers but the window is already
    closed, nothing is registered and no sweep is made. *)
Lemma shutdown_before_discovery_witness :
  discovery_workers stopped_platform "" [2; 0; 7]%nat tt = (empty_registry, tt)
  /\ snd (network_thread_main stopped_platform "" [2; 0; 7]%nat 3 tt) = [].
Proof.
  destruct (shutdown_before_discovery stopped_platform "" [2; 0; 7]%nat 3 tt
              eq_refl) as (H1 & _ & _ & H2).
  split; [exact H1 | exact H2].
Defined.

(* ================================================================= *)
(** ** SubnetDetector *)

Lemma last_char_cons (c x : ascii) (t : string) :
  last_char t = Some x -> last_char (String c t) = Some x.
Proof. destruct t; [discriminate | intros H; exact H]. Qed.

Lemma strrchr_dot_spec (host : string) :
  forall k, strrchr_dot host = Some k ->
            (k < String.length host)%nat
            /\ last_char (substring 0 (S k) host) = Some "."%char
            /\ String.length (substring 0 (S k) host) = S k
            /\ String.prefix (substring 0 (S k) host) host = true.
Proof.
  induction host as [|c rest IH]; intros k H; [discriminate H|].
  cbn [strrchr_dot] in H.
  destruct (strrchr_dot rest) as [k'|].
  - injection H as <-. destruct (IH k' eq_refl) as (H1 & H2 & H3 & H4).
    cbn [String.length]. split; [lia|].
    change (substring 0 (S (S k')) (String c rest))
      with (String c (substring 0 (S k') rest)).
    split; [now apply last_char_cons|]. split.
    + cbn [String.length]. now rewrite H3.
    + cbn [String.prefix]. rewrite H4.
      destruct (ascii_dec c c); [reflexivity | congruence].
  - destruct (Ascii.eqb_spec c ".") as [-> | Hne]; [|discriminate H].
    injection H as <-. cbn [String.length]. split; [lia|].
    change (substring 0 1 (String "." rest))
      with (String "."%char (substring 0 0 rest)).
    assert (E : substring 0 0 rest = EmptyString) by (destruct rest; reflexivity).
    rewrite E. repeat split.
    cbn [String.prefix].
    destruct (ascii_dec "." "."); [now destruct rest | congruence].
Qed.

Lemma scan_interfaces_find (ifs : list ifaddr) (buffer_size : nat) :
  scan_interfaces ifs buffer_size
  = option_map subnet_of_interface (find (qualifies buffer_size) ifs).
Proof.
  induction ifs as [|ifa rest IH]; [reflexivity|].
  cbn [scan_interfaces find]. unfold qualifies at 1.
  destruct (preferred (ifa_name ifa)); cbn [andb]; [|exact IH].
  destruct (ifa_host ifa) as [host|] eqn:Eh; [|exact IH].
  destruct (strrchr_dot host) as [k|] eqn:Ek; [|exact IH].
  destruct (S k <? buffer_size)%nat; [|exact IH].
  cbn [option_map]. unfold subnet_of_interface, up_to_last_dot.
  now rewrite Eh, Ek.
Qed.

Lemma get_local_ip_and_subnet_find (P : Platform) (buffer_size : nat) :
  get_local_ip_and_subnet P buffer_size
  = match getifaddrs P with
    | None => None
    | Some ifs =>
        option_map subnet_of_interface (find (qualifies buffer_size) ifs)
    end.
Proof.
  unfold get_local_ip_and_subnet. destruct (getifaddrs P); [|reflexivity].
  apply scan_interfaces_find.
Qed.

Lemma detected_subnet_format (P : Platform) (buffer_size : nat) (s : string) :
  get_local_ip_and_subnet P buffer_size = Some s ->
  (0 < String.length s < buffer_size)%nat
  /\ last_char s = Some "."%char
  /\ exists ifs ifa host,
       getifaddrs P = Some ifs /\ In ifa ifs
       /\ preferred (ifa_name ifa) = true
       /\ ifa_host ifa = Some host
       /\ String.prefix s host = true.
Proof.
  rewrite get_local_ip_and_subnet_find. intros Hs.
  destruct (getifaddrs P) as [ifs|]; [|discriminate Hs].
  destruct (find (qualifies buffer_size) ifs) as [ifa|] eqn:Ef;
    [|discriminate Hs].
  injection Hs as <-. apply find_some in Ef. destruct Ef as [Hin Hq].
  unfold qualifies in Hq. apply andb_true_iff in Hq. destruct Hq as [Hp Hq].
  unfold subnet_of_interface, up_to_last_dot.
  destruct (ifa_host ifa) as [host|] eqn:Eh; [|discriminate Hq].
  destruct (strrchr_dot host) as [k|] eqn:Ek; [|discriminate Hq].
  apply Nat.ltb_lt in Hq.
  destruct (strrchr_dot_spec host k Ek) as (H1 & H2 & H3 & H4).
  rewrite H3. split; [lia|]. split; [exact H2|].
  exists ifs, ifa, host. repeat split; assumption.
Qed.

(** [get_local_ip_and_subnet] answers with the first interface, in the
    order of [getifaddrs], whose name starts with "en", "eth" or "wl" and
    whose address text up to its last dot fits the buffer; it fails when
    [getifaddrs] fails or no interface qualifies.  What it returns is that
    beginning of the address text: it is not empty, ends in a dot and is
    shorter than the buffer. *)
Theorem detected_subnet_is_first_match (P : Platform) (buffer_size : nat) :
  get_local_ip_and_subnet P buffer_size
  = match getifaddrs P with
    | None => None
    | Some ifs =>
        option_map subnet_of_interface (find (qualifies buffer_size) ifs)
    end
  /\ (forall s, get_local_ip_and_subnet P buffer_size = Some s ->
        (0 < String.length s < buffer_size)%nat
        /\ last_char s = Some "."%char
        /\ exists ifs ifa host,
             getifaddrs P = Some ifs /\ In ifa ifs
             /\ preferred (ifa_name ifa) = true
             /\ ifa_host ifa = Some host
             /\ String.prefix s host = true)
  /\ (get_local_ip_and_subnet P buffer_size = None <->
      getifaddrs P = None
      \/ exists ifs, getifaddrs P = Some ifs
                     /\ forall ifa, In ifa ifs -> qualifies buffer_size ifa = false).
Proof.
  split; [apply get_local_ip_and_subnet_find|].
  split; [intros s; apply detected_subnet_format|].
  rewrite get_local_ip_and_subnet_find.
  destruct (getifaddrs P) as [ifs|]; [|split; [now left | reflexivity]].
  destruct (find (qualifies buffer_size) ifs) as [ifa|] eqn:Ef; cbn [option_map].
  - split; [discriminate|].
    intros [H | (ifs' & H & Hall)]; [discriminate H|].
    injection H as <-. apply find_some in Ef. destruct Ef as [Hin Hq].
    rewrite (Hall ifa Hin) in Hq. discriminate Hq.
  - split; [|reflexivity]. intros _. right. exists ifs. split; [reflexivity|].
    intros ifa Hin. apply (find_none _ _ Ef ifa Hin).
Qed.

Lemma detect_subnet_well_formed (P : Platform) (s : string) :
  s = EmptyString \/ well_formed_subnet s ->
  well_formed_subnet (detect_subnet P s)
  /\ strncpy 16 (detect_subnet P s) = detect_subnet P s.
Proof.
  intros Hs.
  assert (Hwf : well_formed_subnet (detect_subnet P s)).
  { destruct Hs as [-> | Hwf].
    - unfold detect_subnet. cbn [strlen String.length Z.of_nat Z.eqb].
      destruct (get_local_ip_and_subnet P 16) as [d|] eqn:E.
      + destruct (detected_subnet_format P 16 d E) as (H1 & H2 & _).
        repeat split; [lia | lia | exact H2].
      + repeat split; cbn; lia.
    - rewrite detect_subnet_given; [exact Hwf | apply Hwf]. }
  split; [exact Hwf|]. apply strncpy_short.
  destruct Hwf as (_ & H & _). lia.
Qed.

(* ================================================================= *)
(** ** Start-up: from the command line to the discovery threads *)

Lemma main_running_subnet (argv : list string)
    (init_sdl load_media thread_ok : bool) (s : string) :
  snd (Startup.main argv init_sdl load_media thread_ok) = Startup.Running s ->
  s = EmptyString \/ well_formed_subnet s.
Proof.
  unfold Startup.main.
  destruct argv as [|prog [|arg rest]].
  - destruct init_sdl, load_media, thread_ok; cbn; intros H;
      try discriminate H; injection H as <-; now left.
  - destruct init_sdl, load_media, thread_ok; cbn; intros H;
      try discriminate H; injection H as <-; now left.
  - destruct (Startup.valid_subnet_arg arg) eqn:E; [|discriminate].
    apply valid_subnet_arg_spec in E.
    assert (Hcopy : strncpy 15 arg = arg).
    { apply strncpy_short. destruct E as (_ & H & _). lia. }
    rewrite Hcopy.
    destruct init_sdl, load_media, thread_ok; cbn; intros H;
      try discriminate H; injection H as <-; now right.
Qed.

(** Whenever [main] gets as far as the network thread, the prefix the
    discovery threads scan has 1 to 15 characters and ends in a dot,
    whether it comes from the command line, from an interface or from the
    built-in default; every thread receives it unshortened. *)
Theorem scanned_prefix_is_well_formed (P : Platform) (argv : list string)
    (init_sdl load_media thread_ok : bool) (s : string) :
  snd (Startup.main argv init_sdl load_media thread_ok) = Startup.Running s ->
  well_formed_subnet (detect_subnet P s)
  /\ (s <> EmptyString -> detect_subnet P s = s)
  /\ (s = EmptyString -> get_local_ip_and_subnet P 16 = None ->
      detect_subnet P s = DEFAULT_SUBNET)
  /\ forall wk, In wk (spawn_workers P (detect_subnet P s)) ->
                w_subnet wk = detect_subnet P s.
Proof.
  intros Hrun. apply main_running_subnet in Hrun.
  destruct (detect_subnet_well_formed P s Hrun) as [Hwf Hcopy].
  split; [exact Hwf|]. split; [|split].
  - intros Hne. apply detect_subnet_given.
    destruct s; [congruence | cbn; lia].
  - intros -> Hnone. unfold detect_subnet.
    cbn [strlen String.length Z.of_nat Z.eqb]. now rewrite Hnone.
  - intros wk Hwk. rewrite (spawn_workers_subnet P _ wk Hwk). exact Hcopy.
Qed.

(** Started without an argument on a machine whose first qualifying
    interface is [wlan0] at 192.168.7.23, the threads scan ["192.168.7."]. *)
Lemma scanned_prefix_is_well_formed_witness :
  detect_subnet stopped_platform "" = "192.168.7."
  /\ well_formed_subnet (detect_subnet stopped_platform "").
Proof.
  split; [reflexivity|].
  apply (scanned_prefix_is_well_formed stopped_platform ["netmonitor"]
           true true true "" eq_refl).
Defined.

(** The ways [main] leaves its start-up code.  It reaches the render loop
    exactly when the command line passes the check and [init_sdl],
    [load_media] and the creation of the network thread all succeed;
    otherwise it returns 1.  [load_media] is attempted only after
    [init_sdl] succeeded, the network thread only after both; a refused
    argument ends [main] before anything is initialised; every later
    failure ends with [cleanup]. *)
Theorem main_startup_paths (argv : list string)
    (init_sdl load_media thread_ok : bool) :
  let calls := fst (Startup.main argv init_sdl load_media thread_ok) in
  let out := snd (Startup.main argv init_sdl load_media thread_ok) in
  ((exists s, out = Startup.Running s)
   <-> argv_ok argv = true /\ init_sdl = true /\ load_media = true
       /\ thread_ok = true)
  /\ ((forall s, out <> Startup.Running s) -> out = Startup.Exited 1)
  /\ (argv_ok argv = false ->
      ~ In Startup.InitSdl calls /\ ~ In Startup.Cleanup calls)
  /\ (In Startup.LoadMedia calls -> init_sdl = true)
  /\ (In Startup.CreateNetworkThread calls ->
      init_sdl = true /\ load_media = true)
  /\ (In Startup.InitSdl calls -> out = Startup.Exited 1 ->
      last calls Startup.InitSdl = Startup.Cleanup).
Proof.
  cbv zeta. unfold Startup.main, argv_ok.
  destruct argv as [|prog [|arg rest]];
    [| |destruct (Startup.valid_subnet_arg arg)];
    destruct init_sdl, load_media, thread_ok; cbn;
    repeat split; intros;
    repeat match goal with
           | H : exists _, _ |- _ => destruct H
           | H : _ /\ _ |- _ => destruct H
           | H : _ \/ _ |- _ => destruct H
           | H : False |- _ => destruct H
           end;
    try discriminate; try congruence; try (eexists; reflexivity);
    try (exfalso; eapply H; reflexivity);
    try (intros [? | ?]; discriminate);
    intuition discriminate.
Qed.

(* ================================================================= *)
(** ** Discoverer: distinct host numbers, distinct candidates *)

Lemma to_int_not_nil (z : Z) :
  Z.to_int z <> Decimal.Pos Decimal.Nil /\ Z.to_int z <> Decimal.Neg Decimal.Nil.
Proof.
  split; intros H; pose proof (DecimalZ.of_to z) as E; rewrite H in E;
    cbn in E; subst z; discriminate H.
Qed.

Lemma decimal_text_inj (a b : Z) :
  NilZero.string_of_int (Z.to_int a) = NilZero.string_of_int (Z.to_int b) ->
  a = b.
Proof.
  intros H. apply (f_equal NilZero.int_of_string) in H.
  destruct (to_int_not_nil a) as [Ha1 Ha2].
  destruct (to_int_not_nil b) as [Hb1 Hb2].
  rewrite !NilZero.isi in H by assumption.
  injection H as H. now apply DecimalZ.to_int_inj.
Qed.

Lemma string_app_inv_head (p s t : string) : p ++ s = p ++ t -> s = t.
Proof.
  induction p as [|c p IH]; cbn; intros H; [exact H|].
  injection H as H. now apply IH.
Qed.

(** Under a prefix of at most 12 characters, where every formatted
    address fits the 15 characters, different host numbers in 1..254 are
    probed at different addresses: the 254 candidates are pairwise
    different. *)
Theorem short_prefix_candidates_distinct (prefix : string) :
  (String.length prefix <= 12)%nat ->
  (forall i j, START_HOST <= i <= END_HOST -> START_HOST <= j <= END_HOST ->
               candidate_ip prefix i = candidate_ip prefix j -> i = j)
  /\ NoDup (candidates prefix).
Proof.
  intros Hlen.
  assert (Hexact : forall i, START_HOST <= i <= END_HOST ->
                     candidate_ip prefix i = format_s_d prefix i).
  { intros i Hi. apply candidate_ip_exact_iff.
    rewrite (decimal_digits_host i Hi).
    destruct (i <? 10); [lia|]. destruct (i <? 100); lia. }
  assert (Hinj : forall i j, START_HOST <= i <= END_HOST ->
                   START_HOST <= j <= END_HOST ->
                   candidate_ip prefix i = candidate_ip prefix j -> i = j).
  { intros i j Hi Hj. rewrite (Hexact i Hi), (Hexact j Hj).
    unfold format_s_d. intros H. apply string_app_inv_head in H.
    now apply decimal_text_inj. }
  split; [exact Hinj|].
  unfold candidates. apply Finite.Injective_map_NoDup_in; [|apply seq_NoDup].
  intros a b Ha Hb Hab. apply in_seq in Ha. apply in_seq in Hb.
  apply Nat2Z.inj. apply Hinj; unfold START_HOST, END_HOST; try lia.
  exact Hab.
Qed.

(** Under ["192.168.100."] the candidates of the host numbers 25 and 250
    differ. *)
Lemma short_prefix_candidates_distinct_witness :
  candidate_ip "192.168.100." 25 <> candidate_ip "192.168.100." 250.
Proof.
  intros H.
  assert (E : 25 = 250).
  { apply (proj1 (short_prefix_candidates_distinct "192.168.100."
                    ltac:(simpl; lia)) 25 250);
      [unfold START_HOST, END_HOST; lia .. | exact H]. }
  discriminate E.
Defined.

(* ================================================================= *)
(** ** [compare_hosts] as an ordering *)

(** [compare_hosts] returns -1, 0 or 1, whatever its locals hold.  An
    entry named ["INTERNET"] is reported behind every entry it is
    compared with, so that two such entries, or one such entry compared
    with itself, are each reported behind the other.  Among the other
    entries whose address text [inet_pton] accepts it is a consistent
    three-way comparison that does not depend on what the locals held:
    swapping the arguments negates the result, an entry compares equal to
    itself, and "not behind" is transitive; what it compares is the
    numeric value of the address on a big-endian host and, there being no
    [ntohl], the numeric value of the address with its octets reversed on
    a little-endian host.  For two entries whose address texts
    [inet_pton] rejects it compares what the two locals [addr_a] and
    [addr_b] held on entry, and nothing else: an entry can be reported
    ahead of itself, or behind itself. *)
Theorem compare_hosts_laws (P : Platform) :
  (forall u a b, compare_hosts P u a b = -1 \/ compare_hosts P u a b = 0
                 \/ compare_hosts P u a b = 1)
  /\ (forall u s x, is_sentinel s = true -> compare_hosts P u s x = 1)
  /\ (forall u a s, is_sentinel a = false -> is_sentinel s = true ->
                    compare_hosts P u a s = -1)
  /\ (forall u u' s t, is_sentinel s = true -> is_sentinel t = true ->
                       compare_hosts P u s t = 1 /\ compare_hosts P u' t s = 1)
  /\ (forall u u' a b,
        is_sentinel a = false -> is_sentinel b = false ->
        has_address a = true -> has_address b = true ->
        compare_hosts P u a b = compare_hosts P u' a b
        /\ compare_hosts P u a b = - compare_hosts P u' b a)
  /\ (forall u a, is_sentinel a = false -> has_address a = true ->
                  compare_hosts P u a a = 0)
  /\ (forall u u' u'' a b c,
        is_sentinel a = false -> is_sentinel b = false ->
        is_sentinel c = false ->
        has_address a = true -> has_address b = true ->
        has_address c = true ->
        compare_hosts P u a b <= 0 -> compare_hosts P u' b c <= 0 ->
        compare_hosts P u'' a c <= 0)
  /\ (forall u a b qa qb,
        is_sentinel a = false -> is_sentinel b = false ->
        inet_pton (ip a) = Some qa -> inet_pton (ip b) = Some qb ->
        (compare_hosts P u a b <= 0 <->
         match host_order P with
         | BigEndian => numeric_value qa <= numeric_value qb
         | LittleEndian =>
             numeric_value (octets_reversed qa)
             <= numeric_value (octets_reversed qb)
         end))
  /\ (forall addr_a addr_b a b,
        is_sentinel a = false -> is_sentinel b = false ->
        has_address a = false -> has_address b = false ->
        compare_hosts P (addr_a, addr_b) a b
        = if addr_a <? addr_b then -1
          else if addr_a >? addr_b then 1 else 0).
Proof.
  split; [|split; [|split; [|split; [|split; [|split; [|split; [|split]]]]]]].
  - intros u a b. unfold compare_hosts.
    destruct (String.eqb (hostname a) "INTERNET"); [now right; right|].
    destruct (String.eqb (hostname b) "INTERNET"); [now left|].
    cbv zeta. destruct (_ <? _); [now left|].
    destruct (_ >? _); [now right; right | now right; left].
  - intros u s x Hs. now apply compare_hosts_sentinel_l.
  - intros u a s Ha Hs. now apply compare_hosts_sentinel_r.
  - intros u u' s t Hs Ht. split; now apply compare_hosts_sentinel_l.
  - intros u u' a b Ha Hb Ha' Hb'.
    rewrite (compare_hosts_addressed P u a b Ha Hb Ha' Hb').
    rewrite (compare_hosts_addressed P u' a b Ha Hb Ha' Hb').
    rewrite (compare_hosts_addressed P u' b a Hb Ha Hb' Ha').
    split; [reflexivity|].
    destruct (Z.ltb_spec (host_key P a) (host_key P b));
      destruct (Z.gtb_spec (host_key P a) (host_key P b));
      destruct (Z.ltb_spec (host_key P b) (host_key P a));
      destruct (Z.gtb_spec (host_key P b) (host_key P a)); lia.
  - intros u a Ha Ha'.
    rewrite (compare_hosts_addressed P u a a Ha Ha Ha' Ha').
    rewrite Z.ltb_irrefl.
    destruct (Z.gtb_spec (host_key P a) (host_key P a)); [lia | reflexivity].
  - intros u u' u'' a b c Ha Hb Hc Ha' Hb' Hc'.
    rewrite (compare_hosts_addressed P u a b Ha Hb Ha' Hb').
    rewrite (compare_hosts_addressed P u' b c Hb Hc Hb' Hc').
    rewrite (compare_hosts_addressed P u'' a c Ha Hc Ha' Hc').
    destruct (Z.ltb_spec (host_key P a) (host_key P b));
      destruct (Z.gtb_spec (host_key P a) (host_key P b));
      destruct (Z.ltb_spec (host_key P b) (host_key P c));
      destruct (Z.gtb_spec (host_key P b) (host_key P c));
      destruct (Z.ltb_spec (host_key P a) (host_key P c));
      destruct (Z.gtb_spec (host_key P a) (host_key P c)); lia.
  - intros u a b qa qb Ha Hb Ea Eb.
    assert (Ha' : has_address a = true) by (unfold has_address; now rewrite Ea).
    assert (Hb' : has_address b = true) by (unfold has_address; now rewrite Eb).
    rewrite <- Z.leb_le, (compare_hosts_plain P u a b Ha Hb Ha' Hb'), Z.leb_le.
    unfold host_key. rewrite Ea, Eb.
    destruct qa as [[[a1 a2] a3] a4], qb as [[[b1 b2] b3] b4].
    destruct (host_order P);
      unfold numeric_value, octets_reversed, s_addr; lia.
  - intros addr_a addr_b a b.
    unfold compare_hosts, is_sentinel, has_address, s_addr_of.
    intros -> -> Ha Hb. cbn [fst snd].
    destruct (inet_pton (ip a)); [discriminate Ha|].
    destruct (inet_pton (ip b)); [discriminate Hb|]. reflexivity.
Qed.

(** Under the prefix ["10.0."], which [main] accepts, the candidate of
    host number 5 is ["10.0.5"]; [inet_pton] rejects it, and the entry is
    reported behind itself or ahead of itself according to what the
    locals held. *)
Lemma compare_hosts_laws_witness :
  let a := example_host (candidate_ip "10.0." 5) "N/A" STATUS_UP 0 in
  Startup.valid_subnet_arg "10.0." = true
  /\ ip a = "10.0.5"
  /\ inet_pton (ip a) = None
  /\ compare_hosts silent_platform (7, 3) a a = 1
  /\ compare_hosts silent_platform (3, 7) a a = -1.
Proof.
  cbv zeta. split; [reflexivity|]. split; [reflexivity|].
  split; [reflexivity|].
  pose proof (compare_hosts_laws silent_platform)
    as (_ & _ & _ & _ & _ & _ & _ & _ & Hlocals).
  split.
  - exact (Hlocals 7 3
             (example_host (candidate_ip "10.0." 5) "N/A" STATUS_UP 0)
             (example_host (candidate_ip "10.0." 5) "N/A" STATUS_UP 0)
             eq_refl eq_refl eq_refl eq_refl).
  - exact (Hlocals 3 7
             (example_host (candidate_ip "10.0." 5) "N/A" STATUS_UP 0)
             (example_host (candidate_ip "10.0." 5) "N/A" STATUS_UP 0)
             eq_refl eq_refl eq_refl eq_refl).
Defined.

(** When exactly one entry is named ["INTERNET"] and the address texts of
    the others are accepted by [inet_pton], [sort()] puts that entry in
    the last place, behind all the others, which are in ascending order of
    [s_addr] as the host reads it. *)
Theorem single_sentinel_is_sorted_last (P : Platform) (r : Registry) :
  List.length (filter is_sentinel (discovered_hosts r)) = 1%nat ->
  addressed (discovered_hosts r) ->
  exists front s,
    discovered_hosts (sort_registry P r) = (front ++ [s])%list
    /\ is_sentinel s = true
    /\ In s (discovered_hosts r)
    /\ Forall (fun h => is_sentinel h = false) front
    /\ StronglySorted (key_le P) front.
Proof.
  intros Hone Hr.
  destruct (sort_registry_shape P r Hr)
    as (front & back & Heq & Hperm & Hf & Hb & Hs).
  assert (Hf' : Forall (fun h => is_sentinel h = false) front)
    by (revert Hf; apply Forall_impl; tauto).
  assert (Hback : List.length back = 1%nat).
  { rewrite <- Hone.
    rewrite <- (filter_length_perm is_sentinel _ _ Hperm).
    rewrite filter_app, length_app.
    rewrite (filter_none is_sentinel front)
      by (now apply Forall_forall).
    rewrite (forallb_filter_id is_sentinel back); [reflexivity|].
    apply forallb_forall. now apply Forall_forall. }
  destruct back as [|s [|s' back']]; try discriminate Hback.
  exists front, s.
  split; [exact Heq|]. split; [now apply Forall_inv in Hb|].
  split; [|now split].
  apply (Permutation_in _ Hperm). apply in_or_app. right. now left.
Qed.

(** The sentinel registered between two hosts ends up last. *)
Lemma single_sentinel_is_sorted_last_witness :
  exists front s,
    discovered_hosts
      (sort_registry silent_platform
         {| discovered_hosts :=
              [ example_host "10.0.0.9" "nas" STATUS_UP 0;
                example_host "8.8.8.8" "INTERNET" STATUS_UP 0;
                example_host "10.0.0.2" "gw" STATUS_UP 0 ];
            discovered_hosts_capacity := 10 |})
    = (front ++ [s])%list
    /\ is_sentinel s = true.
Proof.
  destruct (single_sentinel_is_sorted_last silent_platform
              {| discovered_hosts :=
                   [ example_host "10.0.0.9" "nas" STATUS_UP 0;
                     example_host "8.8.8.8" "INTERNET" STATUS_UP 0;
                     example_host "10.0.0.2" "gw" STATUS_UP 0 ];
                 discovered_hosts_capacity := 10 |} eq_refl)
    as (front & s & H1 & H2 & _).
  - repeat constructor.
  - exists front, s. split; [exact H1 | exact H2].
Defined.

(* ================================================================= *)
(** ** [sort()] on the registries that discovery builds *)

Lemma string_app_assoc (a b c : string) : (a ++ b) ++ c = a ++ (b ++ c).
Proof. induction a as [|x a IH]; simpl; [reflexivity | now rewrite IH]. Qed.

Lemma string_app_nil_r (a : string) : a ++ "" = a.
Proof. induction a as [|x a IH]; simpl; [reflexivity | now rewrite IH]. Qed.

Lemma last_char_app_dot (s : string) : last_char (s ++ ".") = Some "."%char.
Proof.
  induction s as [|c s IH]; [reflexivity|].
  cbn [append]. now apply last_char_cons.
Qed.

Lemma octet_cases (Q : Z -> Prop) :
  (forall k, (k < 256)%nat -> Q (Z.of_nat k)) -> forall n, octet n -> Q n.
Proof.
  intros H n [H0 H1]. rewrite <- (Z2Nat.id n) by lia. apply H. lia.
Qed.

(** [inet_pton] reads the decimal text of an octet as that octet. *)
Lemma inet_pton4_octet (n : Z) :
  octet n ->
  forall rest done,
    inet_pton4 (octet_text n ++ rest) done 0 false
    = inet_pton4 rest done n true.
Proof.
  intros Hn. pattern n. apply octet_cases; [|exact Hn]. clear n Hn.
  intros k Hk.
  do 256 (destruct k as [|k]; [intros rest done; reflexivity|]).
  lia.
Qed.

Lemma octet_text_length (n : Z) :
  octet n -> (1 <= String.length (octet_text n) <= 3)%nat.
Proof.
  intros Hn. pattern n. apply octet_cases; [|exact Hn]. clear n Hn.
  intros k Hk.
  do 256 (destruct k as [|k]; [vm_compute; split; apply Nat.leb_le; reflexivity|]).
  lia.
Qed.

Lemma inet_pton4_dot (rest : string) (done : list Z) (cur : Z) :
  inet_pton4 (String "." rest) done cur true
  = if (List.length done =? 3)%nat then None
    else inet_pton4 rest (cur :: done) 0 false.
Proof. reflexivity. Qed.

Lemma inet_pton_dotted (a b c d : Z) :
  octet a -> octet b -> octet c -> octet d ->
  inet_pton (dotted_prefix a b c ++ octet_text d) = Some (a, b, c, d).
Proof.
  intros Ha Hb Hc Hd. unfold inet_pton, dotted_prefix.
  rewrite <- (string_app_nil_r (octet_text d)).
  rewrite !string_app_assoc.
  rewrite (inet_pton4_octet a Ha). cbn [append]. rewrite inet_pton4_dot.
  cbn [List.length Nat.eqb].
  rewrite (inet_pton4_octet b Hb). cbn [append]. rewrite inet_pton4_dot.
  cbn [List.length Nat.eqb].
  rewrite (inet_pton4_octet c Hc). cbn [append]. rewrite inet_pton4_dot.
  cbn [List.length Nat.eqb].
  rewrite (inet_pton4_octet d Hd). reflexivity.
Qed.

Lemma dotted_prefix_length (a b c : Z) :
  octet a -> octet b -> octet c ->
  (6 <= String.length (dotted_prefix a b c) <= 12)%nat.
Proof.
  intros Ha Hb Hc. unfold dotted_prefix. rewrite !string_length_app.
  pose proof (octet_text_length a Ha). pose proof (octet_text_length b Hb).
  pose proof (octet_text_length c Hc). cbn [String.length]. lia.
Qed.

(** Under the prefix of a /24 network the candidate of host number [i]
    is the dotted quad a.b.c.i. *)
Lemma candidate_ip_dotted (a b c i : Z) :
  octet a -> octet b -> octet c -> START_HOST <= i <= END_HOST ->
  inet_pton (candidate_ip (dotted_prefix a b c) i) = Some (a, b, c, i).
Proof.
  intros Ha Hb Hc Hi.
  assert (Hd : octet i) by (unfold octet, START_HOST, END_HOST in *; lia).
  unfold candidate_ip, snprintf_s_d, format_s_d.
  change (NilZero.string_of_int (Z.to_int i)) with (octet_text i).
  rewrite substring_0_short; [now apply inet_pton_dotted|].
  rewrite string_length_app.
  pose proof (dotted_prefix_length a b c Ha Hb Hc).
  pose proof (octet_text_length i Hd). cbn [Nat.pred]. lia.
Qed.

Lemma discovery_one_network (P : Platform) (active_subnet : string)
    (a b c : Z) (sched : list nat) (w : world P) :
  octet a -> octet b -> octet c ->
  detect_subnet P active_subnet = dotted_prefix a b c ->
  one_network a b c
    (discovered_hosts
       (add_host_to_list P
          (fst (discovery_workers P active_subnet sched w))
          INTERNET_CHECK_IP (Some "INTERNET"))).
Proof.
  intros Ha Hb Hc Hdet.
  pose proof (dotted_prefix_length a b c Ha Hb Hc) as Hlen.
  assert (Hfound : one_network a b c
            (discovered_hosts
               (fst (discovery_workers P active_subnet sched w)))).
  { pose proof (discovery_workers_entries P active_subnet sched w) as Hent.
    rewrite Hdet in Hent.
    revert Hent. apply Forall_impl.
    intros h (_ & Hcand & _) _.
    rewrite strncpy_short in Hcand by lia.
    unfold candidates in Hcand. apply in_map_iff in Hcand.
    destruct Hcand as (k & <- & Hk). apply in_seq in Hk.
    exists (Z.of_nat k). apply candidate_ip_dotted; try assumption.
    unfold START_HOST, END_HOST. lia. }
  destruct (ip_known
              (discovered_hosts
                 (fst (discovery_workers P active_subnet sched w)))
              INTERNET_CHECK_IP) eqn:E.
  - rewrite add_host_known by now apply ip_known_In. exact Hfound.
  - rewrite add_host_new by now apply ip_known_not_In.
    apply Forall_app. split; [exact Hfound|].
    constructor; [|constructor]. intros Hs. discriminate Hs.
Qed.

Lemma one_network_addressed (a b c : Z) (hs : list MonitoredHost) :
  one_network a b c hs -> addressed hs.
Proof.
  apply Forall_impl. intros h H Hs. destruct (H Hs) as (d & Hd).
  unfold has_address. now rewrite Hd.
Qed.

Lemma sort_one_network (P : Platform) (r : Registry) (a b c : Z) :
  one_network a b c (discovered_hosts r) ->
  exists front back,
    discovered_hosts (sort_registry P r) = (front ++ back)%list
    /\ Permutation (front ++ back) (discovered_hosts r)
    /\ Forall (fun h => is_sentinel h = false) front
    /\ Forall (fun h => is_sentinel h = true) back
    /\ StronglySorted numeric_ascending front.
Proof.
  intros Hnet.
  destruct (sort_registry_shape P r (one_network_addressed a b c _ Hnet))
    as (front & back & Heq & Hperm & Hf & Hb & Hs).
  exists front, back.
  split; [exact Heq|]. split; [exact Hperm|].
  split; [revert Hf; apply Forall_impl; tauto|].
  split; [exact Hb|].
  assert (Hquad : forall h, In h front ->
                    exists d, inet_pton (ip h) = Some (a, b, c, d)).
  { intros h Hh.
    assert (Hin : In h (discovered_hosts r)).
    { apply (Permutation_in _ Hperm). apply in_or_app. now left. }
    unfold one_network in Hnet. rewrite Forall_forall in Hnet, Hf.
    apply (Hnet h Hin). now apply Hf. }
  revert Hs. apply StronglySorted_weaken.
  intros x y Hx Hy Hxy.
  destruct (Hquad x Hx) as (dx & Ex). destruct (Hquad y Hy) as (dy & Ey).
  exists (a, b, c, dx), (a, b, c, dy). split; [exact Ex|]. split; [exact Ey|].
  unfold key_le, host_key in Hxy. rewrite Ex, Ey in Hxy.
  destruct (host_order P).
  - apply (s_addr_little_endian_slash24 (a, b, c, dx) (a, b, c, dy));
      [now repeat split | exact Hxy].
  - exact Hxy.
Qed.

(** C4.  [sort()] on a registry whose entries, those named ["INTERNET"]
    apart, are dotted quads of one /24 network: the entries named
    ["INTERNET"] (exactly those) come behind every other entry, and the
    others are in ascending order of the 32-bit numeric value of their
    addresses, first octet most significant, on a host of either byte
    order.  Every registry that [network_thread_main] sorts while the
    prefix in force is that of a /24 network, ["a.b.c."], is of this
    kind, whatever the threads found and in whatever order they
    registered it; such a prefix is accepted on the command line, and the
    built-in default is one.  The numeric value of a.b.c.d is
    ((a * 256 + b) * 256 + c) * 256 + d. *)
Theorem sort_numeric_order (P : Platform) :
  (forall (r : Registry) (a b c : Z),
     one_network a b c (discovered_hosts r) ->
     exists front back,
       discovered_hosts (sort_registry P r) = (front ++ back)%list
       /\ Permutation (front ++ back) (discovered_hosts r)
       /\ Forall (fun h => is_sentinel h = false) front
       /\ Forall (fun h => is_sentinel h = true) back
       /\ List.length back
          = List.length (filter is_sentinel (discovered_hosts r))
       /\ StronglySorted numeric_ascending front)
  /\ (forall (active_subnet : string) (a b c : Z) (sched : list nat)
             (w : world P),
        octet a -> octet b -> octet c ->
        detect_subnet P active_subnet = dotted_prefix a b c ->
        one_network a b c
          (discovered_hosts
             (add_host_to_list P
                (fst (discovery_workers P active_subnet sched w))
                INTERNET_CHECK_IP (Some "INTERNET")))
        /\ exists front back,
             discovered_hosts
               (fst (discovery_phase P active_subnet sched w))
             = (front ++ back)%list
             /\ Forall (fun h => is_sentinel h = false) front
             /\ Forall (fun h => is_sentinel h = true) back
             /\ StronglySorted numeric_ascending front)
  /\ (forall a b c : Z,
        octet a -> octet b -> octet c ->
        Startup.valid_subnet_arg (dotted_prefix a b c) = true
        /\ detect_subnet P (dotted_prefix a b c) = dotted_prefix a b c)
  /\ DEFAULT_SUBNET = dotted_prefix 192 168 1
  /\ (forall o1 o2 o3 o4 : Z,
        numeric_value (o1, o2, o3, o4)
        = ((o1 * 256 + o2) * 256 + o3) * 256 + o4).
Proof.
  split; [|split; [|split; [|split; [reflexivity|]]]];
    [| | |intros o1 o2 o3 o4; unfold numeric_value, s_addr; lia].
  - intros r a b c Hnet.
    destruct (sort_one_network P r a b c Hnet)
      as (front & back & Heq & Hperm & Hf & Hb & Hs).
    exists front, back. repeat split; try assumption.
    rewrite <- (filter_length_perm is_sentinel _ _ Hperm).
    rewrite filter_app, length_app.
    rewrite (filter_none is_sentinel front) by (now apply Forall_forall).
    rewrite (forallb_filter_id is_sentinel back); [reflexivity|].
    apply forallb_forall. now apply Forall_forall.
  - intros active_subnet a b c sched w Ha Hb Hc Hdet.
    pose proof (discovery_one_network P active_subnet a b c sched w
                  Ha Hb Hc Hdet) as Hnet.
    split; [exact Hnet|].
    destruct (sort_one_network P _ a b c Hnet)
      as (front & back & Heq & _ & Hf & Hb' & Hs).
    exists front, back. unfold discovery_phase. cbn [fst].
    repeat split; assumption.
  - intros a b c Ha Hb Hc.
    pose proof (dotted_prefix_length a b c Ha Hb Hc).
    split; [|apply detect_subnet_given; lia].
    apply valid_subnet_arg_spec. unfold well_formed_subnet.
    split; [lia|]. split; [lia|].
    unfold dotted_prefix. rewrite <- !string_app_assoc.
    apply last_char_app_dot.
Qed.

(** Hosts 200, 7 and 31 of 10.0.0.0/24 and the sentinel, registered in
    that order on a little-endian host, come out as 7, 31, 200 and the
    sentinel. *)
Lemma sort_numeric_order_witness :
  let r := {| discovered_hosts :=
                [ example_host "10.0.0.200" "nas" STATUS_UP 0;
                  example_host "10.0.0.7" "printer" STATUS_UP 0;
                  example_host "10.0.0.31" "N/A" STATUS_UP 0;
                  example_host "8.8.8.8" "INTERNET" STATUS_UP 0 ];
              discovered_hosts_capacity := 10 |} in
  host_order silent_platform = LittleEndian
  /\ map ip (discovered_hosts (sort_registry silent_platform r))
     = ["10.0.0.7"; "10.0.0.31"; "10.0.0.200"; "8.8.8.8"]
  /\ exists front back,
       discovered_hosts (sort_registry silent_platform r)
       = (front ++ back)%list
       /\ List.length back = 1%nat
       /\ StronglySorted numeric_ascending front.
Proof.
  cbv zeta. split; [reflexivity|]. split; [vm_compute; reflexivity|].
  destruct (proj1 (sort_numeric_order silent_platform)
              {| discovered_hosts :=
                   [ example_host "10.0.0.200" "nas" STATUS_UP 0;
                     example_host "10.0.0.7" "printer" STATUS_UP 0;
                     example_host "10.0.0.31" "N/A" STATUS_UP 0;
                     example_host "8.8.8.8" "INTERNET" STATUS_UP 0 ];
                 discovered_hosts_capacity := 10 |} 10 0 0)
    as (front & back & Heq & _ & _ & _ & Hlen & Hs).
  - unfold one_network.
    repeat (apply Forall_cons;
            [intros Hs;
             first [eexists; reflexivity | vm_compute in Hs; discriminate Hs]|]).
    apply Forall_nil.
  - exists front, back. repeat split; assumption.
Defined.

(* ================================================================= *)
(** ** PortProbe loop *)


(* ================================================================= *)
(** ** Monitor: what a sweep leaves alone *)

Lemma monitor_update_status (online : bool) (h : MonitoredHost) :
  status (fst (monitor_update online h)) <> STATUS_SCANNING.
Proof.
  destruct online.
  - cbn. discriminate.
  - destruct (monitor_update_offline h) as (_ & Hst & _). cbv zeta in Hst.
    rewrite Hst. destruct (_ <=? _); discriminate.
Qed.

Lemma monitor_update_flash (online : bool) (h : MonitoredHost) :
  flash_timer (fst (monitor_update online h))
  = if HostStatus_eqb (status h) (status (fst (monitor_update online h)))
    then flash_timer h else 1%Q.
Proof.
  unfold monitor_update. destruct online; [reflexivity|].
  destruct (int_wrap (consecutive_failures h + 1) >=? PING_FAIL_THRESHOLD);
    reflexivity.
Qed.

Lemma monitor_update_swept (online : bool) (h : MonitoredHost) :
  swept h (fst (monitor_update online h)).
Proof.
  unfold swept. rewrite monitor_update_ip, monitor_update_hostname.
  split; [reflexivity|]. split; [reflexivity|].
  split; [apply monitor_update_status|].
  rewrite monitor_update_flash.
  destruct (HostStatus_eqb (status h) (status (fst (monitor_update online h))))
    eqn:E.
  - split; [reflexivity|]. apply HostStatus_eqb_eq in E. congruence.
  - split; [|reflexivity]. intros H. rewrite H in E.
    rewrite (proj2 (HostStatus_eqb_eq _ _) eq_refl) in E. discriminate E.
Qed.

Lemma monitor_sweep_swept (P : Platform) (hs : list MonitoredHost) :
  forall w, Forall2 swept hs (fst (fst (monitor_sweep P hs w)))
            /\ List.length (snd (fst (monitor_sweep P hs w))) = List.length hs.
Proof.
  induction hs as [|h rest IH]; intros w; [split; [constructor | reflexivity]|].
  rewrite monitor_sweep_cons. cbv zeta. cbn [fst snd List.length].
  destruct (IH (snd (probe_ports P w (ip h) COMMON_PORTS))) as [H1 H2].
  split; [|now rewrite H2].
  constructor; [apply monitor_update_swept | exact H1].
Qed.

Lemma monitor_loop_frozen (P : Platform) (fuel : nat) :
  forall hs w rec,
    In rec (fst (monitor_loop P fuel hs w)) ->
    ips (fst rec) = ips hs /\ map hostname (fst rec) = map hostname hs
    /\ Forall (fun h => status h <> STATUS_SCANNING) (fst rec).
Proof.
  induction fuel as [|fuel IH]; intros hs w rec Hin; [contradiction|].
  rewrite monitor_loop_step in Hin.
  destruct (app_is_running P w); [|contradiction].
  cbn [fst snd] in Hin. destruct Hin as [<- | Hin].
  - cbn [fst]. split; [apply monitor_sweep_ips|].
    split; [apply monitor_sweep_hostnames|].
    destruct (monitor_sweep_swept P hs w) as [H _].
    induction H as [|h h' l l' Hs _ IHF]; constructor; [apply Hs | exact IHF].
  - destruct (IH _ _ _ Hin) as (H1 & H2 & H3).
    rewrite H1, H2, monitor_sweep_ips, monitor_sweep_hostnames. now repeat split.
Qed.

(** A sweep neither adds nor removes nor reorders entries: it writes one
    log row per entry, keeps every address and hostname, never leaves a
    status [STATUS_SCANNING], and sets [flash_timer] to 1 exactly for the
    entries whose status it changed.  Hence the registry keeps its
    addresses and hostnames through any number of sweeps. *)
Theorem monitoring_keeps_membership (P : Platform) (fuel : nat)
    (hs : list MonitoredHost) (w : world P) :
  Forall2 swept hs (fst (fst (monitor_sweep P hs w)))
  /\ List.length (fst (fst (monitor_sweep P hs w))) = List.length hs
  /\ List.length (snd (fst (monitor_sweep P hs w))) = List.length hs
  /\ Forall (fun rec : list MonitoredHost * list (bool * bool) =>
               ips (fst rec) = ips hs
               /\ map hostname (fst rec) = map hostname hs
               /\ List.length (snd rec) = List.length hs)
            (fst (monitor_loop P fuel hs w)).
Proof.
  destruct (monitor_sweep_swept P hs w) as [H1 H2].
  split; [exact H1|]. split; [|split; [exact H2|]].
  - symmetry. now apply Forall2_length in H1.
  - clear H1 H2. revert hs w.
    induction fuel as [|fuel IH]; intros hs w; [constructor|].
    rewrite monitor_loop_step.
    destruct (app_is_running P w); [|constructor].
    cbv zeta. cbn [fst snd]. constructor.
    + cbn [fst snd]. split; [apply monitor_sweep_ips|].
      split; [apply monitor_sweep_hostnames | apply monitor_sweep_swept].
    + specialize (IH (fst (fst (monitor_sweep P hs w)))
                     (snd (monitor_sweep P hs w))).
      revert IH. apply Forall_impl. intros rec (K1 & K2 & K3).
      rewrite K1, K2, K3, monitor_sweep_ips, monitor_sweep_hostnames.
      repeat split.
      rewrite <- !(length_map ip). fold (ips (fst (fst (monitor_sweep P hs w)))).
      fold (ips hs). now rewrite monitor_sweep_ips.
Qed.

(* ================================================================= *)
(** ** Render loop: the summary line *)

Lemma count_host_fold (hs : list MonitoredHost) :
  forall a b c,
    0 <= a -> 0 <= b -> 0 <= c ->
    a + Z.of_nat (List.length hs) <= INT_MAX ->
    b + Z.of_nat (List.length hs) <= INT_MAX ->
    c + Z.of_nat (List.length hs) <= INT_MAX ->
    fold_left Render.count_host hs (a, b, c)
    = (a + shown_with STATUS_UP hs, b + shown_with STATUS_UNSTABLE hs,
       c + shown_with STATUS_DOWN hs).
Proof.
  unfold shown_with.
  induction hs as [|h rest IH]; intros a b c Ha Hb Hc Ha' Hb' Hc'.
  - cbn. rewrite !pair_equal_spec. repeat split; lia.
  - cbn [fold_left Render.count_host filter List.length] in *.
    destruct (String.eqb (ip h) INTERNET_CHECK_IP); cbn [negb andb].
    + apply IH; lia.
    + destruct (status h); cbn [HostStatus_eqb];
        rewrite ?int_wrap_in_range by (unfold INT_MIN, INT_MAX in *; lia);
        rewrite IH by lia; cbn [List.length];
        rewrite !pair_equal_spec; repeat split; lia.
Qed.

Lemma shown_total (hs : list MonitoredHost) :
  Forall (fun h => status h <> STATUS_SCANNING) hs ->
  shown_with STATUS_UP hs + shown_with STATUS_UNSTABLE hs
  + shown_with STATUS_DOWN hs
  = Z.of_nat
      (List.length
         (filter (fun h => negb (String.eqb (ip h) INTERNET_CHECK_IP)) hs)).
Proof.
  unfold shown_with. induction 1 as [|h rest Hh _ IH]; [reflexivity|].
  cbn [filter].
  destruct (String.eqb (ip h) INTERNET_CHECK_IP); cbn [negb andb]; [exact IH|].
  destruct (status h); cbn [HostStatus_eqb List.length]; try congruence; lia.
Qed.

Lemma filter_other_ips (x : string) (hs : list MonitoredHost) :
  NoDup (ips hs) -> In x (ips hs) ->
  S (List.length (filter (fun h => negb (String.eqb (ip h) x)) hs))
  = List.length hs.
Proof.
  induction hs as [|h rest IH]; intros Hnd Hin; [contradiction|].
  cbn [ips map] in Hnd. apply NoDup_cons_iff in Hnd. destruct Hnd as [Hh Hrest].
  cbn [filter List.length].
  destruct (String.eqb_spec (ip h) x) as [E | E]; cbn [negb].
  - f_equal. subst x.
    assert (Hall : forall y, In y rest -> negb (String.eqb (ip y) (ip h)) = true).
    { intros y Hy. destruct (String.eqb_spec (ip y) (ip h)) as [E|]; [|reflexivity].
      exfalso. apply Hh. rewrite <- E. now apply in_map. }
    clear -Hall. induction rest as [|y rest IH]; [reflexivity|].
    cbn [filter]. rewrite (Hall y (or_introl eq_refl)). cbn [List.length].
    f_equal. apply IH. intros z Hz. apply Hall. now right.
  - cbn [List.length]. f_equal. apply IH; [exact Hrest|].
    destruct Hin as [Hin | Hin]; [contradiction | exact Hin].
Qed.

Lemma discovery_phase_length (P : Platform) (active_subnet : string)
    (sched : list nat) (w : world P) :
  (List.length (discovered_hosts (fst (discovery_phase P active_subnet sched w)))
   <= 255)%nat.
Proof.
  unfold discovery_phase. cbn [fst].
  rewrite (Permutation_length (sort_registry_perm P _)).
  pose proof (add_host_length P (fst (discovery_workers P active_subnet sched w))
                INTERNET_CHECK_IP (Some "INTERNET")) as Hadd.
  assert (Hlen : (List.length (discovered_hosts
                    (fst (discovery_workers P active_subnet sched w)))
                  <= 254)%nat); [|lia].
  rewrite <- (candidates_length (strncpy 16 (detect_subnet P active_subnet))).
  rewrite <- (length_map ip).
  apply NoDup_incl_length.
  - apply (discovery_workers_inv P
             (fun r => NoDup (ips (discovered_hosts r)))); [|constructor].
    intros r ip0 Hl Hr. now apply add_host_nodup.
  - intros x Hx. apply in_map_iff in Hx. destruct Hx as (h & <- & Hh).
    pose proof (discovery_workers_entries P active_subnet sched w) as HF.
    rewrite Forall_forall in HF. apply (HF h Hh).
Qed.

Lemma discovery_phase_sentinel_ip (P : Platform) (active_subnet : string)
    (sched : list nat) (w : world P) :
  In INTERNET_CHECK_IP
     (ips (discovered_hosts (fst (discovery_phase P active_subnet sched w)))).
Proof.
  unfold discovery_phase. cbn [fst].
  apply (Permutation_in _
           (Permutation_map ip (Permutation_sym (sort_registry_perm P _)))).
  apply add_sentinel_present.
Qed.

(** The summary line.  The counting loop of the render loop counts, with
    counters that cannot overflow on a registry of fewer than 2^31
    entries, the entries that are Up, Unstable and Down, leaving out the
    entry for 8.8.8.8.  In every state of the registry once discovery is
    complete (before the first sweep and after each one) the three counts
    add up to one less than the number of hosts the title line reports. *)
Theorem summary_line_counts (P : Platform) (active_subnet : string)
    (sched : list nat) (fuel : nat) (w : world P) :
  (forall hs, Z.of_nat (List.length hs) <= INT_MAX ->
     Render.summary_counts hs
     = (shown_with STATUS_UP hs, shown_with STATUS_UNSTABLE hs,
        shown_with STATUS_DOWN hs))
  /\ Forall (fun hs =>
               Render.summary_counts hs
               = (shown_with STATUS_UP hs, shown_with STATUS_UNSTABLE hs,
                  shown_with STATUS_DOWN hs)
               /\ shown_with STATUS_UP hs + shown_with STATUS_UNSTABLE hs
                  + shown_with STATUS_DOWN hs
                  = Render.monitoring_count hs - 1)
            (fst (network_thread_main P active_subnet sched fuel w)
               :: map fst (snd (network_thread_main P active_subnet sched fuel w))).
Proof.
  assert (Hgen : forall hs, Z.of_nat (List.length hs) <= INT_MAX ->
            Render.summary_counts hs
            = (shown_with STATUS_UP hs, shown_with STATUS_UNSTABLE hs,
               shown_with STATUS_DOWN hs)).
  { intros hs Hlen. unfold Render.summary_counts.
    rewrite count_host_fold by lia. reflexivity. }
  split; [exact Hgen|].
  unfold network_thread_main. cbn [fst snd].
  set (hs0 := discovered_hosts (fst (discovery_phase P active_subnet sched w))).
  assert (Hstate : forall hs,
            ips hs = ips hs0 ->
            Forall (fun h => status h <> STATUS_SCANNING) hs ->
            Render.summary_counts hs
            = (shown_with STATUS_UP hs, shown_with STATUS_UNSTABLE hs,
               shown_with STATUS_DOWN hs)
            /\ shown_with STATUS_UP hs + shown_with STATUS_UNSTABLE hs
               + shown_with STATUS_DOWN hs
               = Render.monitoring_count hs - 1).
  { intros hs Hips Hst.
    assert (Hlen : List.length hs = List.length hs0).
    { rewrite <- (length_map ip hs), <- (length_map ip hs0).
      fold (ips hs) (ips hs0). now rewrite Hips. }
    pose proof (discovery_phase_length P active_subnet sched w) as Hb.
    fold hs0 in Hb.
    split.
    - apply Hgen. unfold INT_MAX. lia.
    - rewrite (shown_total hs Hst). unfold Render.monitoring_count.
      rewrite <- (filter_other_ips INTERNET_CHECK_IP hs); [lia | |].
      + rewrite Hips. apply discovery_nodup.
      + rewrite Hips. apply discovery_phase_sentinel_ip. }
  constructor.
  - apply Hstate; [reflexivity|].
    pose proof (discovery_fresh P active_subnet sched w) as HF.
    revert HF. apply Forall_impl. intros h [Hs _]. rewrite Hs. discriminate.
  - apply Forall_forall. intros hs Hin. apply in_map_iff in Hin.
    destruct Hin as (rec & <- & Hrec).
    destruct (monitor_loop_frozen P fuel _ _ rec Hrec) as (H1 & _ & H3).
    now apply Hstate.
Qed.

(* ================================================================= *)
(** ** Render loop: the host rows *)

Lemma host_rows_nth (hs : list MonitoredHost) :
  forall (y : Z) (i : nat) (h : MonitoredHost),
    nth_error hs i = Some h ->
    INT_MIN <= y ->
    y + (Render.FONT_SIZE + 4) * Z.of_nat i <= INT_MAX ->
    nth_error (Render.host_rows y hs) i
    = Some (y + (Render.FONT_SIZE + 4) * Z.of_nat i, ip h, hostname h,
            Render.status_text h).
Proof.
  induction hs as [|h0 rest IH]; intros y i h Hi Hlo Hhi.
  - destruct i; discriminate Hi.
  - destruct i as [|i]; cbn [Render.host_rows nth_error] in *.
    + injection Hi as ->. do 4 f_equal. cbn. lia.
    + unfold Render.FONT_SIZE in *.
      rewrite int_wrap_in_range by (unfold INT_MIN, INT_MAX in *; lia).
      rewrite (IH _ _ _ Hi) by (unfold INT_MIN, INT_MAX in *; lia).
      do 4 f_equal. lia.
Qed.

(** Entry [i] of the registry is drawn in row [i], 18 pixels below the
    row before, the first row at 77 (as long as [y_offset] stays within
    [int]): its address, its hostname and the text of its status.  A row
    starts inside the 600-pixel window exactly when [i] is below 30; the
    rows of later entries lie below the window. *)
Theorem host_row_layout (hs : list MonitoredHost) (i : nat)
    (h : MonitoredHost) :
  nth_error hs i = Some h ->
  77 + 18 * Z.of_nat i <= INT_MAX ->
  exists y,
    nth_error (Render.render_rows hs) i
      = Some (y, ip h, hostname h, Render.status_text h)
    /\ y = 77 + 18 * Z.of_nat i
    /\ (y < Render.SCREEN_HEIGHT <-> (i < 30)%nat).
Proof.
  intros Hi Hfit. eexists. split.
  - apply (host_rows_nth hs _ i h Hi).
    + unfold Render.first_row_y, Render.FONT_SIZE, INT_MIN. lia.
    + unfold Render.first_row_y, Render.FONT_SIZE. lia.
  - unfold Render.first_row_y, Render.FONT_SIZE, Render.SCREEN_HEIGHT.
    split; lia.
Qed.

(** The sentinel in place 30 of a registry of 31 entries is drawn at 617,
    below the window. *)
Lemma host_row_layout_witness :
  let hs := (map (fun k => example_host (candidate_ip "10.0.0." (Z.of_nat k))
                                        "N/A" STATUS_UP 0) (seq 1 30)
             ++ [example_host "8.8.8.8" "INTERNET" STATUS_DOWN 3])%list in
  exists y,
    nth_error (Render.render_rows hs) 30
      = Some (y, "8.8.8.8", "INTERNET", "DOWN")
    /\ ~ y < Render.SCREEN_HEIGHT.
Proof.
  cbv zeta.
  destruct (host_row_layout
              (map (fun k => example_host (candidate_ip "10.0.0." (Z.of_nat k))
                                          "N/A" STATUS_UP 0) (seq 1 30)
               ++ [example_host "8.8.8.8" "INTERNET" STATUS_DOWN 3])%list
              30 (example_host "8.8.8.8" "INTERNET" STATUS_DOWN 3) eq_refl
              ltac:(vm_compute; discriminate))
    as (y & H1 & _ & H3).
  exists y. split; [exact H1|]. rewrite H3. lia.
Defined.

Lemma status_text_classified (h : MonitoredHost) (n : nat) :
  consecutive_failures h = Z.of_nat n -> status h = classify n ->
  Render.status_text h
  = match n with
    | O => "Online"
    | 1%nat => "Unstable (1)"
    | 2%nat => "Unstable (2)"
    | _ => "DOWN"
    end.
Proof.
  intros Hcf Hst. unfold Render.status_text. rewrite Hst, Hcf.
  destruct n as [|[|[|n]]]; reflexivity.
Qed.

(** What the status column shows once discovery is complete: for an
    entry with no failed sweep since its last successful one "Online",
    with one or two "Unstable (1)" or "Unstable (2)", with more "DOWN",
    as long as the number of failures fits the [int] counter; never
    "Scanning...". *)
Theorem displayed_status (P : Platform) (active_subnet : string)
    (sched : list nat) (fuel : nat) (w : world P) (i : nat)
    (h : MonitoredHost) :
  let run := network_thread_main P active_subnet sched fuel w in
  let failures :=
    trailing_failures (map col_online (host_column i (snd run))) in
  nth_error (fst run) i = Some h ->
  Z.of_nat failures <= INT_MAX ->
  exists h',
    nth_error (final_hosts (fst run) (snd run)) i = Some h'
    /\ Render.status_text h'
       = match failures with
         | O => "Online"
         | 1%nat => "Unstable (1)"
         | 2%nat => "Unstable (2)"
         | _ => "DOWN"
         end.
Proof.
  cbv zeta. unfold network_thread_main. cbn [fst snd].
  intros Hi Hfit.
  destruct (monitor_loop_host_run P fuel _
              (snd (discovery_phase P active_subnet sched w)) i h Hi)
    as (h' & Hf & Hrun & _).
  exists h'. split; [exact Hf|].
  assert (Hfresh : fresh h).
  { pose proof (discovery_fresh P active_subnet sched w) as HF.
    rewrite Forall_forall in HF. apply HF. eapply nth_error_In. exact Hi. }
  destruct (host_run_tracks _ _ _ Hrun 0%nat) as [Hcf Hst].
  - intros _. destruct Hfresh as [Hs Hc]. split; [exact Hc | exact Hs].
  - exact Hfit.
  - now apply status_text_classified.
Qed.

(** The sentinel on a network where nothing answers, after two sweeps. *)
Lemma displayed_status_witness :
  let run := network_thread_main silent_platform "" [] 2 tt in
  exists h',
    nth_error (final_hosts (fst run) (snd run)) 0 = Some h'
    /\ Render.status_text h' = "Unstable (2)".
Proof.
  cbv zeta.
  destruct (displayed_status silent_platform "" [] 2 tt 0
              {| ip := "8.8.8.8"; hostname := "INTERNET"; status := STATUS_UP;
                 consecutive_failures := 0; flash_timer := 1%Q |})
    as (h' & Hf & Htext).
  - vm_compute. reflexivity.
  - vm_compute. discriminate.
  - exists h'. split; [exact Hf|]. rewrite Htext. vm_compute. reflexivity.
Defined.


(* ================================================================= *)
(** ** Monitor: the sweep in which the alert sounds *)

Lemma enters_down_classify (n : nat) :
  enters_down (classify n) (classify (S n)) = true <-> S n = 3%nat.
Proof.
  destruct n as [|[|[|n]]]; cbn; split; intros H;
    try discriminate H; try reflexivity.
Qed.

Lemma host_run_alert_at (h h' : MonitoredHost)
    (col : list (HostStatus * bool * bool)) :
  host_run h col h' ->
  forall (n k : nat) (e : HostStatus * bool * bool),
    tracks h n ->
    nth_error col k = Some e ->
    Z.of_nat (fold_left count_failure (map col_online (firstn (S k) col)) n)
      <= INT_MAX ->
    (col_alert e = true
     <-> fold_left count_failure (map col_online (firstn (S k) col)) n = 3%nat).
Proof.
  induction 1 as [h | h online col h' Hrun IH]; intros n k e Ht He Hfit.
  - destruct k; discriminate He.
  - pose proof (monitor_update_tracks online h n Ht) as Ht1.
    destruct k as [|k].
    + cbn [nth_error] in He. injection He as <-.
      cbn [firstn map fold_left col_online col_alert fst snd] in *.
      destruct online; cbn [count_failure] in *.
      * split; intros H; discriminate H.
      * rewrite monitor_update_alert.
        destruct Ht as [_ Hs]; [lia|]. destruct (Ht1 Hfit) as [_ Hs1].
        rewrite Hs, Hs1. apply enters_down_classify.
    + cbn [nth_error] in He.
      cbn [firstn map fold_left col_online fst snd] in *.
      now apply (IH (count_failure n online) k e Ht1).
Qed.

(** Once discovery is complete, the alert sounds for an entry in exactly
    those sweeps in which its number of failed sweeps since the last
    successful one reaches 3 (as long as that number fits the [int]
    counter): not in the first two sweeps of an outage, and not again
    while the outage lasts. *)
Theorem alert_when_third_failure (P : Platform) (active_subnet : string)
    (sched : list nat) (fuel : nat) (w : world P) (i k : nat)
    (h : MonitoredHost) (e : HostStatus * bool * bool) :
  let run := network_thread_main P active_subnet sched fuel w in
  let col := host_column i (snd run) in
  let failures :=
    trailing_failures (map col_online (firstn (S k) col)) in
  nth_error (fst run) i = Some h ->
  nth_error col k = Some e ->
  Z.of_nat failures <= INT_MAX ->
  (col_alert e = true <-> failures = 3%nat).
Proof.
  cbv zeta. unfold network_thread_main. cbn [fst snd].
  intros Hi He Hfit.
  destruct (monitor_loop_host_run P fuel _
              (snd (discovery_phase P active_subnet sched w)) i h Hi)
    as (h' & _ & Hrun & _).
  apply (host_run_alert_at _ _ _ Hrun 0%nat k e); [|exact He | exact Hfit].
  intros _.
  pose proof (discovery_fresh P active_subnet sched w) as HF.
  rewrite Forall_forall in HF.
  destruct (HF h (nth_error_In _ _ Hi)) as [Hs Hc]. now split.
Qed.

(** The sentinel on a network where nothing answers: the alert sounds in
    the third sweep (row 2), when three sweeps have failed. *)
Lemma alert_when_third_failure_witness :
  let col := host_column 0
               (snd (network_thread_main silent_platform "" [] 4 tt)) in
  nth_error col 2 = Some (STATUS_DOWN, false, true)
  /\ map col_alert col = [false; false; true; false]
  /\ trailing_failures (map col_online (firstn 3 col)) = 3%nat.
Proof.
  cbv zeta. split; [vm_compute; reflexivity|].
  split; [vm_compute; reflexivity|].
  refine (proj1 (alert_when_third_failure silent_platform "" [] 4 tt 0 2
                   {| ip := "8.8.8.8"; hostname := "INTERNET";
                      status := STATUS_UP; consecutive_failures := 0;
                      flash_timer := 1%Q |}
                   (STATUS_DOWN, false, true) _ _ _) eq_refl).
  - vm_compute. reflexivity.
  - vm_compute. reflexivity.
  - vm_compute. discriminate.
Defined.

(* ================================================================= *)
(** ** Discoverer: the registry only grows *)

Lemma run_schedule_app (P : Platform) (s1 s2 : list nat) :
  forall ws st,
    run_schedule P (s1 ++ s2) ws st
    = run_schedule P s2 (fst (run_schedule P s1 ws st))
                   (snd (run_schedule P s1 ws st)).
Proof.
  induction s1 as [|k s1 IH]; intros ws st; [reflexivity|].
  cbn [app run_schedule]. destruct (step_thread P k ws st) as [ws' st'].
  apply IH.
Qed.

Lemma add_host_extends (P : Platform) (r0 r : Registry) (ip0 : string)
    (o : option string) :
  (exists tail, discovered_hosts r = (discovered_hosts r0 ++ tail)%list) ->
  exists tail,
    discovered_hosts (add_host_to_list P r ip0 o)
    = (discovered_hosts r0 ++ tail)%list.
Proof.
  intros (tail & E).
  destruct (add_host_cases P r ip0 o) as [-> | (_ & name & ->)].
  - now exists tail.
  - rewrite E, <- app_assoc. eexists. reflexivity.
Qed.

(** During discovery the registry is only ever extended at its end: the
    entries present at any point of a schedule are still there, in the
    same places and unchanged, after any further steps of the threads,
    when all threads have been joined, and after the sentinel has been
    inserted. *)
Theorem discovery_is_append_only (P : Platform) (active_subnet : string)
    (sched more : list nat) (w : world P) :
  let workers := spawn_workers P (detect_subnet P active_subnet) in
  let sofar :=
    discovered_hosts
      (fst (snd (run_schedule P sched workers (empty_registry, w)))) in
  (exists tail,
     discovered_hosts
       (fst (snd (run_schedule P (sched ++ more) workers (empty_registry, w))))
     = (sofar ++ tail)%list)
  /\ (exists tail,
        discovered_hosts (fst (discovery_workers P active_subnet sched w))
        = (sofar ++ tail)%list)
  /\ (exists tail,
        discovered_hosts
          (add_host_to_list P (fst (discovery_workers P active_subnet sched w))
             INTERNET_CHECK_IP (Some "INTERNET"))
        = (sofar ++ tail)%list).
Proof.
  cbv zeta.
  set (workers := spawn_workers P (detect_subnet P active_subnet)).
  set (I := fun r : Registry =>
              exists tail,
                discovered_hosts r
                = (discovered_hosts
                     (fst (snd (run_schedule P sched workers (empty_registry, w))))
                   ++ tail)%list).
  assert (Hadd : forall r ip0, (String.length ip0 <= 15)%nat -> I r ->
                               I (add_host_to_list P r ip0 None)).
  { intros r ip0 _ Hr. now apply add_host_extends. }
  assert (H0 : I (fst (snd (run_schedule P sched workers (empty_registry, w))))).
  { exists []. now rewrite app_nil_r. }
  assert (Hjoin : I (fst (discovery_workers P active_subnet sched w))).
  { unfold discovery_workers. fold workers.
    destruct (run_schedule P sched workers (empty_registry, w)) as [ws st].
    now apply (join_all_inv P I Hadd). }
  split; [|split; [exact Hjoin | now apply add_host_extends]].
  rewrite run_schedule_app.
  now apply (run_schedule_inv P I Hadd).
Qed.
